(** * A shallow embedding of the [lib.classes.log] package

    The Python package wraps the standard [logging] facility: it names a
    per-run log file after the invoking module and its start time, routes
    records below WARNING ("fyi") and from WARNING upwards ("alert") to
    different handlers and formats, stamps file-bound records with a
    severity glyph, and writes a header and a footer banner around the run.

    Conventions of the embedding:
    - a Python [str] is a [string] holding its UTF-8 bytes;
    - a Python [int] is a [Z]; a Python [float] is an IEEE-754 binary64
      value, modelled with the Standard Library's [spec_float];
    - [None]-able attributes are [option]s;
    - the file system, the standard error stream and the process-wide root
      logger form an explicit state that the methods of [Log] thread
      through a state-and-exception monad;
    - paths follow [posixpath] (separator [/], extension separator [.]). *)

From Stdlib Require Import ZArith String Ascii List Bool Lia SpecFloat DecimalString
  DecimalZ.
From stdpp Require Import base option list strings gmap.

Open Scope string_scope.
Open Scope Z_scope.

(** ** Strings *)

Module PyStr.

(** The line feed, written ['\n'] in the Python sources. *)
Definition nl : string := String (ascii_of_nat 10) "".

Definition is_empty (s : string) : bool :=
  match s with
  | EmptyString => true
  | String _ _ => false
  end.

(** [s.startswith(t)] *)
Fixpoint startswith (t s : string) : bool :=
  match t, s with
  | EmptyString, _ => true
  | String _ _, EmptyString => false
  | String a t', String b s' => Ascii.eqb a b && startswith t' s'
  end.

(** [t in s] *)
Fixpoint contains (t s : string) : bool :=
  startswith t s ||
  match s with
  | EmptyString => false
  | String _ s' => contains t s'
  end.

(** [s.endswith(c)] for a one-character [c] *)
Fixpoint endswith_char (c : ascii) (s : string) : bool :=
  match s with
  | EmptyString => false
  | String a EmptyString => Ascii.eqb a c
  | String _ s' => endswith_char c s'
  end.

(** [s == c * len(s)] *)
Fixpoint all_char (c : ascii) (s : string) : bool :=
  match s with
  | EmptyString => true
  | String a s' => Ascii.eqb a c && all_char c s'
  end.

(** [s.rstrip(c)] for a one-character [c] *)
Fixpoint rstrip_char (c : ascii) (s : string) : string :=
  match s with
  | EmptyString => EmptyString
  | String a s' =>
      match rstrip_char c s' with
      | EmptyString => if Ascii.eqb a c then EmptyString else String a EmptyString
      | r => String a r
      end
  end.

(** [(s[:i+1], s[i+1:])] for [i = s.rfind(c)], and [None] when [c] does not
    occur in [s]. *)
Fixpoint rsplit_char (c : ascii) (s : string) : option (string * string) :=
  match s with
  | EmptyString => None
  | String a s' =>
      match rsplit_char c s' with
      | Some (h, t) => Some (String a h, t)
      | None => if Ascii.eqb a c then Some (String a EmptyString, s') else None
      end
  end.

(** [s.split('\n')] *)
Fixpoint lines (s : string) : list string :=
  match s with
  | EmptyString => [EmptyString]
  | String a s' =>
      if Ascii.eqb a (ascii_of_nat 10) then EmptyString :: lines s'
      else match lines s' with
           | l :: ls => String a l :: ls
           | [] => [String a EmptyString]
           end
  end.


(** [str(n)] for an integer [n], in decimal. *)
Definition of_Z (n : Z) : string := NilZero.string_of_int (Z.to_int n).

(** [c * n] for a one-character [c] *)
Fixpoint repeat_char (c : ascii) (n : nat) : string :=
  match n with
  | O => EmptyString
  | S n' => String c (repeat_char c n')
  end.

(** [str(n).rjust(w, '0')] for a non-negative [n]: the [%0wd] conversion. *)
Definition zero_pad (w : nat) (n : Z) : string :=
  let digits := of_Z n in
  repeat_char "0"%char (w - String.length digits) +:+ digits.

(** ASCII-only upper-casing, used to run [str.upper] on concrete inputs. *)
Definition ascii_upper_char (a : ascii) : ascii :=
  let n := nat_of_ascii a in
  if ((97 <=? n) && (n <=? 122))%nat then ascii_of_nat (n - 32) else a.

Fixpoint ascii_upper (s : string) : string :=
  match s with
  | EmptyString => EmptyString
  | String a s' => String (ascii_upper_char a) (ascii_upper s')
  end.

End PyStr.

(** ** Python floats *)

(** A Python [float] is an IEEE-754 binary64 number.  The operations are
    those of [SpecFloat] at precision 53; the conversions and the floor
    division follow CPython ([Objects/floatobject.c]). *)
Module Float64.

Definition prec : Z := 53.
Definition emax : Z := 1024.

Definition float := spec_float.

(** [float(n)] for an integer [n], rounded to nearest, ties to even. *)
Definition of_Z (n : Z) : float := binary_normalize prec emax n 0 false.

Definition add : float -> float -> float := SFadd prec emax.
Definition sub : float -> float -> float := SFsub prec emax.
Definition mul : float -> float -> float := SFmul prec emax.
Definition div : float -> float -> float := SFdiv prec emax.

Definition is_zero (x : float) : bool :=
  match x with
  | S754_zero _ => true
  | _ => false
  end.

Definition sign (x : float) : bool :=
  match x with
  | S754_zero s | S754_infinity s | S754_finite s _ _ => s
  | S754_nan => false
  end.

(** [int(x)]: truncation towards zero; [None] stands for the
    [OverflowError] / [ValueError] raised on infinities and NaN. *)
Definition to_Z (x : float) : option Z :=
  match x with
  | S754_zero _ => Some 0
  | S754_finite s m e =>
      let a := if 0 <=? e then Z.pos m * 2 ^ e else Z.pos m / 2 ^ (- e) in
      Some (if s then - a else a)
  | _ => None
  end.

(** C's [floor]. *)
Definition floor (x : float) : float :=
  match x with
  | S754_finite s m e =>
      if 0 <=? e then x
      else
        let n := if s then Z.neg m else Z.pos m in
        let q := n / 2 ^ (- e) in
        if (q =? 0) then S754_zero s else of_Z q
  | _ => x
  end.

(** C's [fmod]: the exact remainder of [x / y], with the sign of [x]. *)
Definition fmod (x y : float) : float :=
  match x, y with
  | S754_nan, _ | _, S754_nan => S754_nan
  | S754_infinity _, _ => S754_nan
  | _, S754_zero _ => S754_nan
  | _, S754_infinity _ => x
  | S754_zero _, _ => x
  | S754_finite sx mx ex, S754_finite _ my ey =>
      let e0 := Z.min ex ey in
      let r := Z.rem (Z.pos mx * 2 ^ (ex - e0)) (Z.pos my * 2 ^ (ey - e0)) in
      if r =? 0 then S754_zero sx
      else binary_normalize prec emax (if sx then - r else r) e0 false
  end.

(** [copysign(0.0, x)] *)
Definition zero_like (x : float) : float := S754_zero (sign x).

(** [_float_div_mod]: the quotient of [vx // wx] for [wx != 0]. *)
Definition float_div_mod_quotient (vx wx : float) : float :=
  let md := fmod vx wx in
  let dv := div (sub vx md) wx in
  let dv :=
    if is_zero md then dv
    else if negb (Bool.eqb (SFltb wx (S754_zero false)) (SFltb md (S754_zero false)))
         then sub dv (of_Z 1)
         else dv in
  if is_zero dv then zero_like (div vx wx)
  else
    let fl := floor dv in
    if SFltb (div (of_Z 1) (of_Z 2)) (sub dv fl) then add fl (of_Z 1) else fl.

(** [vx // wx]; [None] stands for [ZeroDivisionError]. *)
Definition floordiv (vx wx : float) : option float :=
  if is_zero wx then None else Some (float_div_mod_quotient vx wx).

End Float64.

(** ** [datetime] *)

(** An aware UTC [datetime.datetime], as [datetime.datetime.now(datetime.UTC)]
    returns it.  The ordinal arithmetic is that of the [datetime] module. *)
Module datetime.

Record t := mk {
  year : Z;
  month : Z;
  day : Z;
  hour : Z;
  minute : Z;
  second : Z;
  microsecond : Z
}.

Definition _is_leap (y : Z) : bool :=
  (y mod 4 =? 0) && (negb (y mod 100 =? 0) || (y mod 400 =? 0)).

Definition _days_before_year (y : Z) : Z :=
  let y := y - 1 in y * 365 + y / 4 - y / 100 + y / 400.

Definition _DAYS_BEFORE_MONTH : list Z :=
  [0; 0; 31; 59; 90; 120; 151; 181; 212; 243; 273; 304; 334].

Definition _days_before_month (y m : Z) : Z :=
  nth (Z.to_nat m) _DAYS_BEFORE_MONTH 0
  + (if (2 <? m) && _is_leap y then 1 else 0).

Definition _ymd2ord (y m d : Z) : Z :=
  _days_before_year y + _days_before_month y m + d.

Definition toordinal (d : t) : Z := _ymd2ord (year d) (month d) (day d).

(** [(a - b)] as a [timedelta], given by its whole number of microseconds:
    [timedelta] normalises days, seconds and microseconds, which keeps
    this number. *)
Definition sub_microseconds (a b : t) : Z :=
  let secs (d : t) := second d + minute d * 60 + hour d * 3600 in
  ((toordinal a - toordinal b) * 86400 + (secs a - secs b)) * 1000000
  + (microsecond a - microsecond b).

(** [timedelta.total_seconds()]: the integer division [us / 10**6],
    correctly rounded. *)
Definition total_seconds (us : Z) : Float64.float :=
  Float64.div (Float64.of_Z us) (Float64.of_Z 1000000).

(** [d.strftime('%Y%m%d%H%M%S')], for a year of four digits *)
Definition strftime_YmdHMS (d : t) : string :=
  PyStr.zero_pad 4 (year d) +:+ PyStr.zero_pad 2 (month d)
  +:+ PyStr.zero_pad 2 (day d) +:+ PyStr.zero_pad 2 (hour d)
  +:+ PyStr.zero_pad 2 (minute d) +:+ PyStr.zero_pad 2 (second d).

(** [d.isoformat()] of an aware UTC value. *)
Definition isoformat (d : t) : string :=
  PyStr.zero_pad 4 (year d) +:+ "-" +:+ PyStr.zero_pad 2 (month d)
  +:+ "-" +:+ PyStr.zero_pad 2 (day d) +:+ "T" +:+ PyStr.zero_pad 2 (hour d)
  +:+ ":" +:+ PyStr.zero_pad 2 (minute d) +:+ ":" +:+ PyStr.zero_pad 2 (second d)
  +:+ (if microsecond d =? 0 then "" else "." +:+ PyStr.zero_pad 6 (microsecond d))
  +:+ "+00:00".

End datetime.

(** ** [posixpath] *)

Module posixpath.

Definition sep : ascii := "/"%char.
Definition sep_str : string := "/".
Definition extsep : string := ".".

(** [os.path.join(a, b)] *)
Definition join (a b : string) : string :=
  if PyStr.startswith sep_str b then b
  else if PyStr.is_empty a || PyStr.endswith_char sep a then a +:+ b
  else a +:+ sep_str +:+ b.

(** [os.path.split(p)] before the head is stripped: [(p[:i], p[i:])] for
    [i = p.rfind('/') + 1]. *)
Definition split_at_last_sep (p : string) : string * string :=
  match PyStr.rsplit_char sep p with
  | Some ht => ht
  | None => ("", p)
  end.

(** [os.path.basename(p)] *)
Definition basename (p : string) : string := snd (split_at_last_sep p).

(** [os.path.dirname(p)] *)
Definition dirname (p : string) : string :=
  let head := fst (split_at_last_sep p) in
  if negb (PyStr.is_empty head) && negb (PyStr.all_char sep head)
  then PyStr.rstrip_char sep head
  else head.

(** The [while] loop of [genericpath._splitext]: does a character other
    than the extension separator occur in [s]? *)
Fixpoint has_non_dot (s : string) : bool :=
  match s with
  | EmptyString => false
  | String a s' => negb (Ascii.eqb a "."%char) || has_non_dot s'
  end.

(** [os.path.splitext(p)[0]] *)
Definition splitext_root (p : string) : string :=
  let '(dir, name) := split_at_last_sep p in
  match PyStr.rsplit_char "."%char name with
  | Some (stem_dot, _) =>
      (* [stem_dot] is [name[:dotIndex + 1]] *)
      let stem := String.substring 0 (String.length stem_dot - 1) stem_dot in
      if has_non_dot stem then dir +:+ stem else p
  | None => p
  end.

End posixpath.

(** ** Exceptions and the state of the process *)

Inductive exn :=
| FileNotFoundError (path : string)
| FileExistsError (path : string)
| PermissionError (path : string)
| IsADirectoryError (path : string)
| NotADirectoryError (path : string)
| SameFileError (path : string)
| TypeError (what : string)
| AttributeError (what : string)
| OverflowError (what : string)
| ZeroDivisionError (what : string).

Inductive result (A : Type) :=
| Ok (a : A)
| Raise (e : exn).
Arguments Ok {A} a.
Arguments Raise {A} e.

(** *** The file system

    An entry is known by one spelling of its path: paths are compared as
    strings, up to closing separators of directory names, so the model
    speaks for paths in normal form ([normal] below).  There are no links,
    and the process may read and write every regular file; what a
    directory can refuse is a new entry.  A relative path is resolved
    against the working directory, which exists and is written [""] as a
    parent. *)
Module FS.

Record t := mk {
  dirs : gset string;          (* the directories *)
  files : gmap string string;  (* the regular files and their contents *)
  readonly : gset string       (* directories that refuse new entries *)
}.

Definition norm (p : string) : string :=
  if negb (PyStr.is_empty p) && PyStr.all_char posixpath.sep p then "/"
  else PyStr.rstrip_char posixpath.sep p.

(** [os.path.isdir(p)] *)
Definition isdir (fs : t) (p : string) : bool :=
  negb (PyStr.is_empty p) && bool_decide (norm p ∈ dirs fs).

(** [os.path.isfile(p)] *)
Definition isfile (fs : t) (p : string) : bool :=
  bool_decide (is_Some (files fs !! p)).

(** [os.path.exists(p)] *)
Definition exists_ (fs : t) (p : string) : bool := isdir fs p || isfile fs p.

(** The directory in which the entry [p] lives. *)
Definition parent (p : string) : string := posixpath.dirname (norm p).




(** Can an entry named [p] be created?  Its parent must be a directory
    (else [FileNotFoundError], or [NotADirectoryError] under a regular
    file) that accepts new entries (else [PermissionError]). *)
Definition check_create (fs : t) (p : string) : result unit :=
  if PyStr.is_empty p then Raise (FileNotFoundError p)
  else
    let d := parent p in
    if PyStr.is_empty d then
      if bool_decide ("" ∈ readonly fs) then Raise (PermissionError p) else Ok tt
    else if isdir fs d then
      if bool_decide (norm d ∈ readonly fs) then Raise (PermissionError p) else Ok tt
    else if isfile fs d then Raise (NotADirectoryError p)
    else Raise (FileNotFoundError p).

(** [os.mkdir(p)]: the new directory accepts entries. *)
Definition mkdir (fs : t) (p : string) : result t :=
  if exists_ fs p then Raise (FileExistsError p)
  else
    match check_create fs p with
    | Raise e => Raise e
    | Ok _ => Ok (mk ({[ norm p ]} ∪ dirs fs) (files fs) (readonly fs ∖ {[ norm p ]}))
    end.

(** [open(p, 'a')]: the file is created when it is missing. *)
Definition open_append (fs : t) (p : string) : result t :=
  if isdir fs p then Raise (IsADirectoryError p)
  else if isfile fs p then Ok fs
  else
    match check_create fs p with
    | Raise e => Raise e
    | Ok _ => Ok (mk (dirs fs) (<[ p := "" ]> (files fs)) (readonly fs))
    end.

(** [stream.write(text)] on a file opened for appending at [p]. *)
Definition append (fs : t) (p text : string) : t :=
  mk (dirs fs) (<[ p := default "" (files fs !! p) +:+ text ]> (files fs))
     (readonly fs).

(** [shutil.copy(src, dst)]: into the directory [dst] under the name of
    [src], or onto the file [dst]; the source stays in place.  A
    destination written with a closing separator that is no directory
    cannot be opened for writing: [open] fails on the path through a
    regular file with [NotADirectoryError], and else with the
    [IsADirectoryError] that [shutil.copyfile] turns into
    [FileNotFoundError], there being no such directory. *)
Definition copy (fs : t) (src dst : string) : result (string * t) :=
  let dst := if isdir fs dst
             then posixpath.join dst (posixpath.basename src) else dst in
  if isfile fs src && bool_decide (src = dst) then Raise (SameFileError src)
  else
    match files fs !! src with
    | None =>
        if isdir fs src then Raise (IsADirectoryError src)
        else Raise (FileNotFoundError src)
    | Some content =>
        if isdir fs dst then Raise (IsADirectoryError dst)
        else if PyStr.endswith_char posixpath.sep dst
        then if negb (isdir fs (parent dst)) && isfile fs (parent dst)
             then Raise (NotADirectoryError dst)
             else Raise (FileNotFoundError dst)
        else if isfile fs dst
        then Ok (dst, mk (dirs fs) (<[ dst := content ]> (files fs)) (readonly fs))
        else
          match check_create fs dst with
          | Raise e => Raise e
          | Ok _ =>
              Ok (dst, mk (dirs fs) (<[ dst := content ]> (files fs)) (readonly fs))
          end
    end.

End FS.

#[global] Instance result_ret : MRet result := fun _ a => Ok a.
#[global] Instance result_bind : MBind result := fun _ _ f m =>
  match m with
  | Ok a => f a
  | Raise e => Raise e
  end.

Definition of_option {A : Type} (e : exn) (o : option A) : result A :=
  match o with
  | Some a => Ok a
  | None => Raise e
  end.

(** ** Python values, for the variable dump *)

Module PyValue.

(** The built-in classes named by [variable_value_message.get]. *)
Inductive builtin :=
| Cbool | Cbytes | Cint | Cfloat | Cstr | Clist | Ctuple | CNoneType.

#[global] Instance builtin_eq_dec : EqDecision builtin.
Proof. solve_decision. Defined.

(** A value is one of the built-in scalars and sequences, a dictionary or
    set, an instance of another class, or a member of an enumeration.
    Another class, printed as [type] prints a class, is given by the name
    it prints under (qualified by its module, for a class of the program)
    and the built-in classes among its ancestors (a named tuple has
    [Ctuple]).  An enumeration is a class made by [enum.EnumType], which
    prints it otherwise: it is given by its [__name__], whether it derives
    from [Flag], and the built-in classes among its ancestors ([IntEnum]
    and [IntFlag] have [Cint], [StrEnum] has [Cstr]); its member by name
    and value. *)
#[warnings="-register-all"]
Inductive t :=
| VBool (b : bool)
| VBytes (b : string)
| VInt (n : Z)
| VFloat (x : Float64.float)
| VStr (s : string)
| VList (items : list t)
| VTuple (items : list t)
| VNone
| VDict (items : list (t * t))
| VSet (items : list t)
| VInstance (qualname : string) (ancestors : list builtin) (attrs : list (string * t))
| VEnum (name : string) (flag : bool) (ancestors : list builtin)
    (member : string) (value : t).

(** The built-in classes in the method resolution order of [type(v)];
    [bool] derives from [int]. *)
Definition builtin_mro (v : t) : list builtin :=
  match v with
  | VBool _ => [Cbool; Cint]
  | VBytes _ => [Cbytes]
  | VInt _ => [Cint]
  | VFloat _ => [Cfloat]
  | VStr _ => [Cstr]
  | VList _ => [Clist]
  | VTuple _ => [Ctuple]
  | VNone => [CNoneType]
  | VDict _ | VSet _ => []
  | VInstance _ ancestors _ => ancestors
  | VEnum _ _ ancestors _ _ => ancestors
  end.

(** [isinstance(v, classes)] *)
Definition isinstance (v : t) (classes : list builtin) : bool :=
  existsb (fun c => bool_decide (c ∈ classes)) (builtin_mro v).

(** [type(v).__qualname__], with its module for classes of the program;
    [type(v).__name__] for an enumeration. *)
Definition type_name (v : t) : string :=
  match v with
  | VBool _ => "bool"
  | VBytes _ => "bytes"
  | VInt _ => "int"
  | VFloat _ => "float"
  | VStr _ => "str"
  | VList _ => "list"
  | VTuple _ => "tuple"
  | VNone => "NoneType"
  | VDict _ => "dict"
  | VSet _ => "set"
  | VInstance qualname _ _ => qualname
  | VEnum name _ _ _ _ => name
  end.

(** [str(type(v))]: [type.__repr__], and [EnumType.__repr__] for an
    enumeration, which quotes the name of the class with [%r]. *)
Definition type_str (v : t) : string :=
  match v with
  | VEnum name flag _ _ _ =>
      (if flag then "<flag '" else "<enum '") +:+ name +:+ "'>"
  | _ => "<class '" +:+ type_name v +:+ "'>"
  end.

(** [pprint.PrettyPrinter(indent, width, compact, sort_dicts)] *)
Record PrettyPrinter := {
  indent : Z;
  width : Z;
  compact : bool;
  sort_dicts : bool
}.

End PyValue.

(** ** Built-ins of the interpreter

    What the package calls and does not define: the case mapping of
    [str.upper], [repr] of a string, [str] of a value that is not a plain
    scalar, and [PrettyPrinter.pformat]. *)
Class PyBuiltins := {
  str_upper : string -> string;
  str_repr : string -> string;
  value_str : PyValue.t -> string;
  pformat : PyValue.PrettyPrinter -> PyValue.t -> string
}.

(** [str(v)]: decided here for the plain scalars, left to the interpreter
    for the rest. *)
Definition py_str `{PyBuiltins} (v : PyValue.t) : string :=
  match v with
  | PyValue.VBool true => "True"
  | PyValue.VBool false => "False"
  | PyValue.VInt n => PyStr.of_Z n
  | PyValue.VStr s => s
  | PyValue.VNone => "None"
  | _ => value_str v
  end.

(** [str(l)] for a list of strings *)
Definition list_str `{PyBuiltins} (l : list string) : string :=
  "[" +:+ String.concat ", " (map str_repr l) +:+ "]".

(** An interpreter for running the definitions on ASCII inputs: quoting
    adds single quotes, and composite values print as a placeholder. *)
Definition ascii_builtins : PyBuiltins := {|
  str_upper := PyStr.ascii_upper;
  str_repr := fun s => "'" +:+ s +:+ "'";
  value_str := fun v => "<" +:+ PyValue.type_name v +:+ ">";
  pformat := fun _ v => "<" +:+ PyValue.type_name v +:+ ">"
|}.

(** ** [lib/classes/log/exception_message.py] *)

Module ExceptionMessageFormatted.

Record t := mk {
  title : string;
  details : string;
  suggestions : string
}.

(** The dataclass defaults. *)
Definition new : t := mk "" "" "".

Definition set_title (v : string) (self : t) : t :=
  mk v (details self) (suggestions self).
Definition set_details (v : string) (self : t) : t :=
  mk (title self) v (suggestions self).
Definition set_suggestions (v : string) (self : t) : t :=
  mk (title self) (details self) v.

Definition trailer : string := "TRACING INFORMATION APPEARS BELOW:".

Definition get `{PyBuiltins} (self : t) : string :=
  let message := str_upper (title self) +:+ PyStr.nl in
  let message :=
    if negb (PyStr.is_empty (details self))
    then message +:+ ("DETAILS:" +:+ PyStr.nl +:+ details self +:+ PyStr.nl +:+ PyStr.nl)
    else message in
  let message :=
    if negb (PyStr.is_empty (suggestions self))
    then message +:+ ("SUGGESTIONS:" +:+ PyStr.nl +:+ suggestions self +:+ PyStr.nl +:+ PyStr.nl)
    else message in
  message +:+ trailer.

End ExceptionMessageFormatted.

(** ** [lib/classes/log/variable_value_message.py] *)

Module variable_value_message.

Import PyValue.

Definition pp : PrettyPrinter :=
  {| indent := 4; width := 160; compact := false; sort_dicts := false |}.

Definition inline_classes : list builtin :=
  [Cbool; Cbytes; Cint; Cfloat; Cstr; Clist; Ctuple; CNoneType].

Definition get `{PyBuiltins} (name : string) (value : PyValue.t) : string :=
  if isinstance value inline_classes
  then "🔎VarVal🔍 " +:+ name +:+ " (" +:+ type_str value +:+ "): " +:+ py_str value
  else "🔎VarVal🔍 " +:+ name +:+ " (" +:+ type_str value +:+ "):" +:+ PyStr.nl
       +:+ pformat pp value.

End variable_value_message.

(** ** [lib/classes/log/exec_info/directories.py] *)

Module _Directories.

Record t := mk {
  initial : option string;
  final : option string
}.

Definition new : t := mk None None.

End _Directories.

(** ** [lib/classes/log/exec_info/timestamps.py] *)

Module _Timestamps.

Record t := mk {
  start : datetime.t;
  end_ : option datetime.t
}.

(** [_Timestamps()]: [__post_init__] reads the clock. *)
Definition new (now : datetime.t) : t := mk now None.

(** The elapsed time is a [float]; the integers subtracted from it and
    multiplied with it are converted to [float] first, and [int(...)]
    truncates. *)
Definition _get_elapsed (self : t) : result string :=
  let included_seconds := 0 in
  end_time ← of_option (TypeError "unsupported operand type(s) for -") (end_ self);
  let elapsed_seconds :=
    datetime.total_seconds (datetime.sub_microseconds end_time (start self)) in
  quotient ← of_option (ZeroDivisionError "float floor division by zero")
               (Float64.floordiv elapsed_seconds (Float64.of_Z 60));
  whole_minutes ← of_option (OverflowError "cannot convert float to integer")
                    (Float64.to_Z quotient);
  let included_seconds := included_seconds + 60 * whole_minutes in
  whole_seconds ← of_option (OverflowError "cannot convert float to integer")
    (Float64.to_Z (Float64.sub elapsed_seconds (Float64.of_Z included_seconds)));
  let included_seconds := included_seconds + whole_seconds in
  whole_milliseconds ← of_option (OverflowError "cannot convert float to integer")
    (Float64.to_Z (Float64.mul
       (Float64.sub elapsed_seconds (Float64.of_Z included_seconds))
       (Float64.of_Z 1000)));
  let included_seconds :=
    Float64.add (Float64.of_Z included_seconds)
      (Float64.div (Float64.of_Z whole_milliseconds) (Float64.of_Z 1000)) in
  whole_microseconds ← of_option (OverflowError "cannot convert float to integer")
    (Float64.to_Z (Float64.mul
       (Float64.sub elapsed_seconds included_seconds)
       (Float64.of_Z 1000000)));
  Ok (PyStr.of_Z whole_minutes +:+ "m " +:+ PyStr.of_Z whole_seconds +:+ "s "
      +:+ PyStr.of_Z whole_milliseconds +:+ "ms " +:+ PyStr.of_Z whole_microseconds +:+ "μs").

End _Timestamps.

(** ** [lib/classes/log/exec_info/__init__.py] *)

Module _ExecInfo.

Record t := mk {
  _module_basename : option string;
  _arguments : list string;
  _directories : _Directories.t;
  _user : string;
  _system : string;
  _python_version : string;
  _timestamps : _Timestamps.t
}.

(** [_ExecInfo()]: the default factories read the user, the platform, the
    interpreter version and the clock. *)
Definition new (user system python_version : string) (now : datetime.t) : t :=
  mk None [] _Directories.new user system python_version (_Timestamps.new now).

(** [self._directories.initial] and [self._directories.final] *)
Definition initial (self : t) : option string :=
  _Directories.initial (_directories self).
Definition final (self : t) : option string :=
  _Directories.final (_directories self).

Definition set_final (v : option string) (self : t) : t :=
  mk (_module_basename self) (_arguments self)
     (_Directories.mk (initial self) v)
     (_user self) (_system self) (_python_version self) (_timestamps self).

Definition set_end (v : datetime.t) (self : t) : t :=
  mk (_module_basename self) (_arguments self) (_directories self)
     (_user self) (_system self) (_python_version self)
     (_Timestamps.mk (_Timestamps.start (_timestamps self)) (Some v)).

(** [set_info(_module_filepathname)]; [argv] is [sys.argv]. *)
Definition set_info (_module_filepathname : string) (argv : list string) (self : t) : t :=
  mk (Some (posixpath.splitext_root (posixpath.basename _module_filepathname)))
     (tail argv)
     (_Directories.mk (Some (posixpath.dirname _module_filepathname)) (final self))
     (_user self) (_system self) (_python_version self) (_timestamps self).

Definition _get_filepathname (self : t) : result string :=
  dirpath ←
    match final self with
    | None =>
        initial_dir ← of_option (TypeError "expected str, not NoneType") (initial self);
        Ok (posixpath.join initial_dir "logs")
    | Some d => Ok d
    end;
  module_basename ← of_option (TypeError "unsupported operand type(s) for +")
                      (_module_basename self);
  let basename_ext :=
    module_basename +:+ "_"
    +:+ datetime.strftime_YmdHMS (_Timestamps.start (_timestamps self))
    +:+ posixpath.extsep +:+ "log" in
  Ok (posixpath.join dirpath basename_ext).

Definition _get_module_filepathname (self : t) : result string :=
  module_basename ← of_option (TypeError "unsupported operand type(s) for +")
                      (_module_basename self);
  initial_dir ← of_option (TypeError "expected str, not NoneType") (initial self);
  Ok (posixpath.join initial_dir (module_basename +:+ posixpath.extsep +:+ "py")).

End _ExecInfo.

(** ** The [logging] facility, as far as the package configures it *)

Module logging.

Inductive Severity := DEBUG | INFO | WARNING | ERROR | CRITICAL.

(** [logging.DEBUG] .. [logging.CRITICAL] *)
Definition rank (s : Severity) : Z :=
  match s with
  | DEBUG => 10
  | INFO => 20
  | WARNING => 30
  | ERROR => 40
  | CRITICAL => 50
  end.

(** [logging.getLevelName(level)] *)
Definition getLevelName (level : Z) : string :=
  if level =? 50 then "CRITICAL"
  else if level =? 40 then "ERROR"
  else if level =? 30 then "WARNING"
  else if level =? 20 then "INFO"
  else if level =? 10 then "DEBUG"
  else if level =? 0 then "NOTSET"
  else "Level " +:+ PyStr.of_Z level.

(** A [LogRecord] without exception and stack information, by the
    attributes that the formats of the package read.  Such is every
    record that the methods of [Log] make: they pass no [exc_info] and no
    [stack_info], so [exc_info] is [None] and [Formatter.format] has
    no traceback to add to the formatted message.  [cntxt_flag] is absent
    until a filter sets it. *)
Record LogRecord := mkRecord {
  name : string;
  levelno : Z;
  levelname : string;
  message : string;
  asctime : string;
  threadName : string;
  processName : string;
  pathname : string;
  module : string;
  funcName : string;
  lineno : Z;
  cntxt_flag : option string
}.

Definition set_cntxt_flag (flag : string) (r : LogRecord) : LogRecord :=
  mkRecord (name r) (levelno r) (levelname r) (message r) (asctime r)
    (threadName r) (processName r) (pathname r) (module r) (funcName r)
    (lineno r) (Some flag).

(** [record.__dict__[key]], converted by [%s] or [%d]. *)
Definition attribute (r : LogRecord) (key : string) : option string :=
  if String.eqb key "name" then Some (name r)
  else if String.eqb key "levelno" then Some (PyStr.of_Z (levelno r))
  else if String.eqb key "levelname" then Some (levelname r)
  else if String.eqb key "message" then Some (message r)
  else if String.eqb key "asctime" then Some (asctime r)
  else if String.eqb key "threadName" then Some (threadName r)
  else if String.eqb key "processName" then Some (processName r)
  else if String.eqb key "pathname" then Some (pathname r)
  else if String.eqb key "module" then Some (module r)
  else if String.eqb key "funcName" then Some (funcName r)
  else if String.eqb key "lineno" then Some (PyStr.of_Z (lineno r))
  else if String.eqb key "exc_info" then Some "None"
  else if String.eqb key "cntxt_flag" then cntxt_flag r
  else None.

(** *** [%]-formatting of a record: [fmt % record.__dict__] *)

Inductive piece :=
| Lit (c : ascii)
| Field (key : string) (conversion : ascii).

Inductive scan := InText | AfterPercent | InKey (key : string) | AfterKey (key : string).

(** [None] stands for the [ValueError] of a malformed format. *)
Fixpoint parse (st : scan) (fmt : string) : option (list piece) :=
  match fmt with
  | EmptyString =>
      match st with
      | InText => Some []
      | _ => None
      end
  | String c rest =>
      match st with
      | InText =>
          if Ascii.eqb c "%"%char then parse AfterPercent rest
          else cons (Lit c) <$> parse InText rest
      | AfterPercent =>
          if Ascii.eqb c "("%char then parse (InKey "") rest
          else if Ascii.eqb c "%"%char then cons (Lit c) <$> parse InText rest
          else None
      | InKey key =>
          if Ascii.eqb c ")"%char then parse (AfterKey key) rest
          else parse (InKey (key +:+ String c "")) rest
      | AfterKey key =>
          if Ascii.eqb c "s"%char || Ascii.eqb c "d"%char
          then cons (Field key c) <$> parse InText rest
          else None
      end
  end.

(** [None] stands for the [KeyError] of a missing attribute. *)
Fixpoint fill (ps : list piece) (r : LogRecord) : option string :=
  match ps with
  | [] => Some ""
  | Lit c :: ps' => String c <$> fill ps' r
  | Field key _ :: ps' =>
      v ← attribute r key;
      s ← fill ps' r;
      Some (v +:+ s)
  end.

(** [Formatter(fmt, datefmt).format(record)]; the date format has been
    applied where the record got its [asctime]. *)
Definition format (fmt : string) (r : LogRecord) : option string :=
  ps ← parse InText fmt;
  fill ps r.

(** *** Handlers *)

Inductive Stream :=
| Stderr
| FileStream (path : string).

(** A filter says whether the record goes on, and may change the record:
    the change is seen by whoever handles the record next. *)
Definition Filter : Type := LogRecord -> bool * LogRecord.

Definition predicate (p : LogRecord -> bool) : Filter := fun r => (p r, r).

Record Handler := mkHandler {
  variable : string;   (* the name the handler has in [Log.setup] *)
  stream : Stream;
  level : Z;
  filters : list Filter;
  formatter : string
}.

(** [Filterer.filter(record)] *)
Fixpoint run_filters (fs : list Filter) (r : LogRecord) : bool * LogRecord :=
  match fs with
  | [] => (true, r)
  | f :: fs' =>
      let '(keep, r') := f r in
      if keep then run_filters fs' r' else (false, r')
  end.

(** One write of a handler: where, and what. *)
Record Delivery := mkDelivery {
  by_handler : string;
  to_stream : Stream;
  text : string
}.

(** [Handler.handle(record)] behind the level test of
    [Logger.callHandlers]: the text written, if any, and the record as the
    filters left it.  A format that fails is reported on the standard
    error stream by [Handler.handleError]. *)
Definition handle (h : Handler) (r : LogRecord) : option Delivery * LogRecord :=
  if levelno r <? level h then (None, r)
  else
    let '(keep, r') := run_filters (filters h) r in
    if keep then
      match format (formatter h) r' with
      | Some s => (Some (mkDelivery (variable h) (stream h) (s +:+ PyStr.nl)), r')
      | None =>
          (Some (mkDelivery (variable h) Stderr ("--- Logging error ---" +:+ PyStr.nl)), r')
      end
    else (None, r').

(** [Logger.callHandlers(record)] *)
Fixpoint callHandlers (hs : list Handler) (r : LogRecord) : list Delivery :=
  match hs with
  | [] => []
  | h :: hs' =>
      let '(d, r') := handle h r in
      match d with
      | Some d => d :: callHandlers hs' r'
      | None => callHandlers hs' r'
      end
  end.

(** The root logger. *)
Record Logger := mkLogger {
  logger_level : Z;
  handlers : list Handler
}.

(** [Logger.isEnabledFor(level)] on the root logger *)
Definition isEnabledFor (lg : Logger) (lvl : Z) : bool := logger_level lg <=? lvl.

End logging.

(** ** [lib/classes/log/__init__.py] *)

Module Log.

Import logging.

Record t := mk {
  _module_filepathname : string;
  _exec_info : _ExecInfo.t;
  _log : option unit   (* [None], or the root logger *)
}.

(** What the process reads from its surroundings during one call. *)
Record Env := mkEnv {
  now : datetime.t;            (* [datetime.datetime.now(datetime.UTC)] *)
  asctime_now : string;        (* the local time, as the date format prints it *)
  thread_name : string;
  process_name : string;
  package_pathname : string;   (* where [lib/classes/log/__init__.py] is installed *)
  user : string;               (* [getpass.getuser()] *)
  system : string;             (* [platform.uname()] *)
  python_version : string;     (* [platform.python_version()] *)
  argv : list string           (* [sys.argv] *)
}.

Record World := mkWorld {
  env : Env;
  fs : FS.t;
  stderr : string;
  root : Logger               (* [logging.getLogger()], one per process *)
}.

Record State := mkState {
  self : t;
  world : World
}.

(** *** The state-and-exception monad of the methods *)

Definition M (A : Type) : Type := State -> result A * State.

#[global] Instance M_ret : MRet M := fun _ a st => (Ok a, st).
#[global] Instance M_bind : MBind M := fun _ _ f m st =>
  match m st with
  | (Ok a, st') => f a st'
  | (Raise e, st') => (Raise e, st')
  end.

Definition raise {A : Type} (e : exn) : M A := fun st => (Raise e, st).
Definition lift {A : Type} (r : result A) : M A := fun st => (r, st).
Definition get_self : M t := fun st => (Ok (self st), st).
Definition get_world : M World := fun st => (Ok (world st), st).
Definition put_self (s : t) : M unit := fun st => (Ok tt, mkState s (world st)).
Definition put_world (w : World) : M unit := fun st => (Ok tt, mkState (self st) w).

Definition set_exec_info (f : _ExecInfo.t -> _ExecInfo.t) : M unit :=
  s ← get_self;
  put_self (mk (_module_filepathname s) (f (_exec_info s)) (_log s)).

Definition set_fs (f : FS.t) : M unit :=
  w ← get_world;
  put_world (mkWorld (env w) f (stderr w) (root w)).

(** *** What the root logger does for the package *)

(** [stream.write(text)] *)
Definition write (d : Delivery) (w : World) : World :=
  match to_stream d with
  | Stderr => mkWorld (env w) (fs w) (stderr w +:+ text d) (root w)
  | FileStream p => mkWorld (env w) (FS.append (fs w) p (text d)) (stderr w) (root w)
  end.

Definition deliver (ds : list Delivery) (w : World) : World :=
  fold_left (fun w d => write d w) ds w.

(** The record that [Logger._log] makes for a call from the method
    [func], at line [line] of the package. *)
Definition makeRecord (e : Env) (lvl : Z) (func : string) (line : Z) (msg : string)
  : LogRecord :=
  mkRecord "root" lvl (getLevelName lvl) msg (asctime_now e) (thread_name e)
    (process_name e) (package_pathname e) "__init__" func line None.

(** [self._log.<func>(message)] *)
Definition log_call (lvl : Z) (func : string) (line : Z) (msg : string) : M unit :=
  s ← get_self;
  match _log s with
  | None => raise (AttributeError ("'NoneType' object has no attribute '" +:+ func +:+ "'"))
  | Some _ =>
      w ← get_world;
      if isEnabledFor (root w) lvl
      then put_world (deliver (callHandlers (handlers (root w))
                                 (makeRecord (env w) lvl func line msg)) w)
      else mret tt
  end.

(** [logging.getLogger()], [setLevel] and [addHandler] on the root logger *)
Definition getLogger : M unit :=
  s ← get_self;
  put_self (mk (_module_filepathname s) (_exec_info s) (Some tt)).

Definition setLevel (lvl : Z) : M unit :=
  w ← get_world;
  put_world (mkWorld (env w) (fs w) (stderr w) (mkLogger lvl (handlers (root w)))).

Definition addHandler (h : Handler) : M unit :=
  w ← get_world;
  put_world (mkWorld (env w) (fs w) (stderr w)
               (mkLogger (logger_level (root w)) (handlers (root w) ++ [h]))).

(** [logging.FileHandler(filepathname, mode='a', encoding='utf-8')] opens
    the file at once. *)
Definition open_FileHandler (filepathname : string) : M unit :=
  w ← get_world;
  f ← lift (FS.open_append (fs w) filepathname);
  set_fs f.

(** *** The methods *)

Definition debug (message : string) : M unit := log_call 10 "debug" 157 message.
Definition info (message : string) : M unit := log_call 20 "info" 161 message.
Definition warning (message : string) : M unit := log_call 30 "warning" 165 message.
Definition error (message : string) : M unit := log_call 40 "error" 169 message.
Definition critical (message : string) : M unit := log_call 50 "critical" 173 message.

(** The filters of [setup]. *)
Definition filter_fyi (record : LogRecord) : bool := levelno record <? 30.

Definition filter_alert (record : LogRecord) : bool := 30 <=? levelno record.

Definition filter_add_cntxt (record : LogRecord) : bool * LogRecord :=
  let flag :=
    if String.eqb (levelname record) "DEBUG" then "⚪"
    else if String.eqb (levelname record) "INFO" then "⬛"
    else if String.eqb (levelname record) "WARNING" then "🟧"
    else if String.eqb (levelname record) "ERROR" then "🟥"
    else if String.eqb (levelname record) "CRITICAL" then "🟥🟥"
    else "" in
  (true, set_cntxt_flag flag record).

(** The formats of [setup]. *)
Definition fmt_stderr_fyi : string := Eval vm_compute in
  ("%(message)s " +:+ PyStr.nl +:+
  "%(asctime)s - %(name)s - %(levelname)s").

Definition fmt_stderr_alert : string := Eval vm_compute in
  (PyStr.nl +:+
  "%(message)s " +:+ PyStr.nl +:+
  "%(asctime)s - %(name)s - %(levelname)s " +:+ PyStr.nl +:+
  "%(threadName)s → %(processName)s " +:+ PyStr.nl +:+
  "%(pathname)s " +:+ PyStr.nl +:+
  "→ %(module)s → %(funcName)s @ %(lineno)d " +:+ PyStr.nl +:+
  "EXCEPTION INFO: %(exc_info)s " +:+ PyStr.nl).

Definition fmt_file_fyi : string := Eval vm_compute in
  (PyStr.nl +:+
  "%(cntxt_flag)s %(message)s " +:+ PyStr.nl +:+
  "%(asctime)s - %(name)s - %(levelname)s " +:+ PyStr.nl).

Definition fmt_file_alert : string := Eval vm_compute in
  (PyStr.nl +:+
  "%(cntxt_flag)s %(message)s " +:+ PyStr.nl +:+
  "%(asctime)s - %(name)s - %(levelname)s " +:+ PyStr.nl +:+
  "%(threadName)s → %(processName)s " +:+ PyStr.nl +:+
  "%(pathname)s " +:+ PyStr.nl +:+
  "→ %(module)s → %(funcName)s @ %(lineno)d " +:+ PyStr.nl +:+
  "EXCEPTION INFO: %(exc_info)s " +:+ PyStr.nl).

(** The handlers of [setup]. *)
Definition handler_stderr_fyi : Handler :=
  mkHandler "handler_stderr_fyi" Stderr 10 [predicate filter_fyi] fmt_stderr_fyi.

Definition handler_file_fyi (filepathname : string) : Handler :=
  mkHandler "handler_file_fyi" (FileStream filepathname) 10
    [predicate filter_fyi; filter_add_cntxt] fmt_file_fyi.

Definition handler_file_alert (filepathname : string) : Handler :=
  mkHandler "handler_file_alert" (FileStream filepathname) 30
    [predicate filter_alert; filter_add_cntxt] fmt_file_alert.

Definition handler_stderr_alert : Handler :=
  mkHandler "handler_stderr_alert" Stderr 30 [predicate filter_alert] fmt_stderr_alert.

Definition setup (filepathname : option string) : M unit :=
  getLogger;;
  setLevel 10;;
  match filepathname with
  | None => addHandler handler_stderr_fyi
  | Some p =>
      open_FileHandler p;;
      addHandler (handler_file_fyi p);;
      open_FileHandler p;;
      addHandler (handler_file_alert p)
  end;;
  addHandler handler_stderr_alert.

Definition _get_header `{PyBuiltins} (s : t) : result string :=
  let e := _exec_info s in
  root_path ← _ExecInfo._get_module_filepathname e;
  log_path ← _ExecInfo._get_filepathname e;
  Ok ("BEGIN LOGGING..." +:+ PyStr.nl +:+
      "START: " +:+ datetime.isoformat (_Timestamps.start (_ExecInfo._timestamps e))
        +:+ PyStr.nl +:+
      "USER: " +:+ _ExecInfo._user e +:+ PyStr.nl +:+
      "OPERATING SYSTEM: " +:+ _ExecInfo._system e +:+ PyStr.nl +:+
      "PYTHON VERSION:: " +:+ _ExecInfo._python_version e +:+ PyStr.nl +:+
      "ROOT: " +:+ root_path +:+ PyStr.nl +:+
      "ARGUMENTS: " +:+ list_str (_ExecInfo._arguments e) +:+ PyStr.nl +:+
      "LOG: " +:+ log_path +:+ PyStr.nl +:+
      "========== STARTING ==========").

Definition note_not_specified : string := "*** Final log directory not specified. ***".
Definition note_copied : string := "Log copied to specified directory.".

Definition _get_footer (s : t) : result string :=
  let e := _exec_info s in
  let footer := "========== ENDING ==========" +:+ PyStr.nl in
  let footer :=
    match _ExecInfo.final e with
    | None => footer +:+ (note_not_specified +:+ PyStr.nl)
    | Some _ => footer +:+ (note_copied +:+ PyStr.nl)
    end in
  log_path ← _ExecInfo._get_filepathname e;
  end_time ← of_option (AttributeError "'NoneType' object has no attribute 'isoformat'")
               (_Timestamps.end_ (_ExecInfo._timestamps e));
  elapsed ← _Timestamps._get_elapsed (_ExecInfo._timestamps e);
  Ok (footer +:+
      (PyStr.nl +:+
       "LOG: " +:+ log_path +:+ PyStr.nl +:+
       PyStr.nl +:+
       "  END: " +:+ datetime.isoformat end_time +:+ PyStr.nl +:+
       "- START: " +:+ datetime.isoformat (_Timestamps.start (_ExecInfo._timestamps e))
         +:+ PyStr.nl +:+
       "= ELAPSED: " +:+ elapsed)).

Definition initialize `{PyBuiltins} : M unit :=
  s ← get_self;
  filepathname ← lift (_ExecInfo._get_filepathname (_exec_info s));
  setup (Some filepathname);;
  s ← get_self;
  header ← lift (_get_header s);
  info header.

Definition notice_title : string := "LOGS DIRECTORY CREATED".

Definition notice_details (initial logs_dirpathname : string) : string :=
  "Module uses logging and needs a log directory." +:+ PyStr.nl +:+
  "A directory for logs did not exist in " +:+ initial +:+ "." +:+ PyStr.nl +:+
  "Therefore, the logger created " +:+ logs_dirpathname +:+ ".".

Definition __post_init__ `{PyBuiltins} : M unit :=
  s ← get_self;
  w ← get_world;
  set_exec_info (_ExecInfo.set_info (_module_filepathname s) (argv (env w)));;
  s ← get_self;
  initial ← lift (of_option (TypeError "expected str, not NoneType")
                    (_ExecInfo.initial (_exec_info s)));
  let logs_dirpathname := posixpath.join initial "logs" in
  if negb (FS.exists_ (fs w) logs_dirpathname) then
    f ← lift (FS.mkdir (fs w) logs_dirpathname);
    set_fs f;;
    initialize;;
    let msg := ExceptionMessageFormatted.new in
    let msg := ExceptionMessageFormatted.set_title notice_title msg in
    let msg := ExceptionMessageFormatted.set_details
                 (notice_details initial logs_dirpathname) msg in
    warning (ExceptionMessageFormatted.get msg)
  else
    initialize.

(** [Log(_module_filepathname)]: the dataclass fills the defaults, then
    runs [__post_init__]. *)
Definition new `{PyBuiltins} (_module_filepathname : string) (w : World)
  : result unit * State :=
  let e := env w in
  __post_init__
    (mkState
       (mk _module_filepathname
           (_ExecInfo.new (user e) (system e) (python_version e) (now e))
           None)
       w).

(** [shutil.copy(src, dst)] *)
Definition shutil_copy (src dst : string) : M unit :=
  w ← get_world;
  r ← lift (FS.copy (fs w) src dst);
  set_fs (snd r).

Definition terminate (dirpathname : option string) : M unit :=
  w ← get_world;
  set_exec_info (_ExecInfo.set_end (now (env w)));;
  s ← get_self;
  logfile_pathname ← lift (_ExecInfo._get_filepathname (_exec_info s));
  set_exec_info (_ExecInfo.set_final dirpathname);;
  s ← get_self;
  footer ← lift (_get_footer s);
  info footer;;
  match dirpathname with
  | Some d => shutil_copy logfile_pathname d
  | None => mret tt
  end.

End Log.

(** ** The elapsed time, as the specification words it *)

(** The components of a duration of [us] microseconds, each the exact
    remainder after the coarser ones: minutes, seconds, milliseconds,
    microseconds. *)
Definition exact_elapsed_components (us : Z) : Z * Z * Z * Z :=
  let whole_minutes := us / 60000000 in
  let rest := us - whole_minutes * 60000000 in
  let whole_seconds := rest / 1000000 in
  let rest := rest - whole_seconds * 1000000 in
  let whole_milliseconds := rest / 1000 in
  let rest := rest - whole_milliseconds * 1000 in
  (whole_minutes, whole_seconds, whole_milliseconds, rest).

(** ** Vocabulary of the properties *)

(** The lines of one optional section of the banner: its header, the lines
    of its body and the blank line that closes it; nothing at all for an
    empty body. *)
Definition banner_section (header body : string) : list string :=
  if PyStr.is_empty body then [] else (header :: PyStr.lines body ++ [""])%list.


(** Does the character [c] occur in [s]? *)
Fixpoint has_char (c : ascii) (s : string) : bool :=
  match s with
  | EmptyString => false
  | String a s' => Ascii.eqb a c || has_char c s'
  end.

(** The name of the log file of a module that started at [start]. *)
Definition log_file_name (module_basename : string) (start : datetime.t) : string :=
  module_basename +:+ "_" +:+ datetime.strftime_YmdHMS start +:+ ".log".

(** The glyph of each severity. *)
Definition glyph (s : logging.Severity) : string :=
  match s with
  | logging.DEBUG => "⚪"
  | logging.INFO => "⬛"
  | logging.WARNING => "🟧"
  | logging.ERROR => "🟥"
  | logging.CRITICAL => "🟥🟥"
  end.

(** The short rendering of a record: message, then time, logger and level. *)
Definition short_body (r : logging.LogRecord) : string :=
  logging.message r +:+ " " +:+ PyStr.nl +:+
  logging.asctime r +:+ " - " +:+ logging.name r +:+ " - " +:+ logging.levelname r.

(** The long rendering: the short one, then thread and process, source
    file, calling function and line, and the exception information. *)
Definition long_body (r : logging.LogRecord) : string :=
  short_body r +:+ " " +:+ PyStr.nl +:+
  logging.threadName r +:+ " → " +:+ logging.processName r +:+ " " +:+ PyStr.nl +:+
  logging.pathname r +:+ " " +:+ PyStr.nl +:+
  "→ " +:+ logging.module r +:+ " → " +:+ logging.funcName r +:+ " @ "
    +:+ PyStr.of_Z (logging.lineno r) +:+ " " +:+ PyStr.nl +:+
  "EXCEPTION INFO: None " +:+ PyStr.nl.

(** What each handler of a session with a log file writes for a record it
    accepts, the terminator of the stream included. *)
Definition file_fyi_text (flag : string) (r : logging.LogRecord) : string :=
  PyStr.nl +:+ flag +:+ " " +:+ short_body r +:+ " " +:+ PyStr.nl +:+ PyStr.nl.

Definition file_alert_text (flag : string) (r : logging.LogRecord) : string :=
  PyStr.nl +:+ flag +:+ " " +:+ long_body r +:+ PyStr.nl.

Definition stderr_alert_text (r : logging.LogRecord) : string :=
  PyStr.nl +:+ long_body r +:+ PyStr.nl.

(** The handlers of the root logger once [setup] has run with the log
    file [p] on a logger without handlers. *)
Definition installed (p : string) : list logging.Handler :=
  [Log.handler_file_fyi p; Log.handler_file_alert p; Log.handler_stderr_alert].

(** The glyph that goes with a level name; none for other names. *)
Definition flag_of (levelname : string) : string :=
  if String.eqb levelname "DEBUG" then glyph logging.DEBUG
  else if String.eqb levelname "INFO" then glyph logging.INFO
  else if String.eqb levelname "WARNING" then glyph logging.WARNING
  else if String.eqb levelname "ERROR" then glyph logging.ERROR
  else if String.eqb levelname "CRITICAL" then glyph logging.CRITICAL
  else "".

(** The writes expected for a record [r], in order: below WARNING one
    write to the file by the FYI handler; from WARNING upwards one write
    to the file by the ALERT handler and one to the standard error
    stream. *)
Definition routed (p : string) (r : logging.LogRecord) : list logging.Delivery :=
  if logging.levelno r <? 10 then []
  else if logging.levelno r <? 30 then
    [logging.mkDelivery "handler_file_fyi" (logging.FileStream p)
       (file_fyi_text (flag_of (logging.levelname r)) r)]
  else
    [logging.mkDelivery "handler_file_alert" (logging.FileStream p)
       (file_alert_text (flag_of (logging.levelname r)) r);
     logging.mkDelivery "handler_stderr_alert" logging.Stderr
       (stderr_alert_text r)].

(** The directory of the log file while no final directory is recorded. *)
Definition logs_dir (src : string) : string := posixpath.join src "logs".

(** A session in its active state, for the module [base] in the source
    directory [src], writing to the log file [p]: the root logger is bound
    and configured by [setup], the run metadata are captured, no final
    directory is recorded, and [p] is the log path in the [logs]
    directory. *)
Definition active (src base p : string) (st : Log.State) : Prop :=
  Log._log (Log.self st) = Some tt
  /\ Log.root (Log.world st) = logging.mkLogger 10 (installed p)
  /\ _ExecInfo.initial (Log._exec_info (Log.self st)) = Some src
  /\ _ExecInfo.final (Log._exec_info (Log.self st)) = None
  /\ _ExecInfo._module_basename (Log._exec_info (Log.self st)) = Some base
  /\ has_char posixpath.sep base = false
  /\ p = posixpath.join (logs_dir src)
           (log_file_name base
              (_Timestamps.start (_ExecInfo._timestamps (Log._exec_info (Log.self st))))).

(** The session object once [terminate] has recorded the end time and the
    final directory [d]. *)
Definition ended (d : option string) (st : Log.State) : Log.t :=
  Log.mk (Log._module_filepathname (Log.self st))
    (_ExecInfo.set_final d
       (_ExecInfo.set_end (Log.now (Log.env (Log.world st)))
          (Log._exec_info (Log.self st))))
    (Log._log (Log.self st)).

(** The footer banner: the separator, the note on the final directory,
    the log path, the end and start times and the elapsed time. *)
Definition footer_text (final : option string) (log_path : string)
    (end_time start : datetime.t) (elapsed : string) : string :=
  "========== ENDING ==========" +:+ PyStr.nl +:+
  match final with
  | None => Log.note_not_specified
  | Some _ => Log.note_copied
  end +:+ PyStr.nl +:+
  PyStr.nl +:+
  "LOG: " +:+ log_path +:+ PyStr.nl +:+
  PyStr.nl +:+
  "  END: " +:+ datetime.isoformat end_time +:+ PyStr.nl +:+
  "- START: " +:+ datetime.isoformat start +:+ PyStr.nl +:+
  "= ELAPSED: " +:+ elapsed.

(** The header banner of a run. *)
Definition header_text `{PyBuiltins} (start : datetime.t) (user system version : string)
    (root_path : string) (arguments : list string) (log_path : string) : string :=
  "BEGIN LOGGING..." +:+ PyStr.nl +:+
  "START: " +:+ datetime.isoformat start +:+ PyStr.nl +:+
  "USER: " +:+ user +:+ PyStr.nl +:+
  "OPERATING SYSTEM: " +:+ system +:+ PyStr.nl +:+
  "PYTHON VERSION:: " +:+ version +:+ PyStr.nl +:+
  "ROOT: " +:+ root_path +:+ PyStr.nl +:+
  "ARGUMENTS: " +:+ list_str arguments +:+ PyStr.nl +:+
  "LOG: " +:+ log_path +:+ PyStr.nl +:+
  "========== STARTING ==========".

(** The notice that the [logs] directory was created. *)
Definition notice_text `{PyBuiltins} (src logs : string) : string :=
  ExceptionMessageFormatted.get
    (ExceptionMessageFormatted.mk Log.notice_title (Log.notice_details src logs) "").

(** The run metadata of a session for the module file [path], captured in
    the surroundings [e]. *)
Definition captured (path : string) (e : Log.Env) : _ExecInfo.t :=
  _ExecInfo.set_info path (Log.argv e)
    (_ExecInfo.new (Log.user e) (Log.system e) (Log.python_version e) (Log.now e)).

(** The log path of that session. *)
Definition session_log_path (path : string) (e : Log.Env) : string :=
  posixpath.join (logs_dir (posixpath.dirname path))
    (log_file_name (posixpath.splitext_root (posixpath.basename path)) (Log.now e)).

(** The header banner of that session. *)
Definition session_header `{PyBuiltins} (path : string) (e : Log.Env) : string :=
  header_text (Log.now e) (Log.user e) (Log.system e) (Log.python_version e)
    (posixpath.join (posixpath.dirname path)
       (posixpath.splitext_root (posixpath.basename path) +:+ ".py"))
    (tail (Log.argv e)) (session_log_path path e).

(** The INFO record that [Log.info] makes of a message. *)
Definition info_record (e : Log.Env) (msg : string) : logging.LogRecord :=
  Log.makeRecord e (logging.rank logging.INFO) "info" 161 msg.

(** The WARNING record that [Log.warning] makes of a message. *)
Definition warning_record (e : Log.Env) (msg : string) : logging.LogRecord :=
  Log.makeRecord e (logging.rank logging.WARNING) "warning" 165 msg.

(** ** A run, for the examples *)

Module Example.

Definition env : Log.Env :=
  Log.mkEnv (datetime.mk 2024 1 1 0 0 0 0) "2024-01-01 00:00:00 +0000"
    "MainThread" "MainProcess" "/app/lib/classes/log/__init__.py"
    "alice" "Linux" "3.12.0" ["test.py"; "--fast"].

(** A process whose source directory [/app] has no [logs] directory yet,
    and whose root logger has no handlers. *)
Definition world : Log.World :=
  Log.mkWorld env (FS.mk {[ "/"; "/app"; "/srv"; "/srv/final" ]} ∅ ∅) ""
    (logging.mkLogger 30 []).

(** The same process, with the [logs] directory in place. *)
Definition world_with_logs : Log.World :=
  Log.mkWorld env (FS.mk {[ "/"; "/app"; "/app/logs"; "/srv"; "/srv/final" ]} ∅ ∅) ""
    (logging.mkLogger 30 []).

(** The process at a later time. *)
Definition later (t : datetime.t) (asctime : string) (st : Log.State) : Log.State :=
  let w := Log.world st in
  let e := Log.env w in
  Log.mkState (Log.self st)
    (Log.mkWorld
       (Log.mkEnv t asctime (Log.thread_name e) (Log.process_name e)
          (Log.package_pathname e) (Log.user e) (Log.system e)
          (Log.python_version e) (Log.argv e))
       (Log.fs w) (Log.stderr w) (Log.root w)).

Definition log_path : string := "/app/logs/test_20240101000000.log".

(** The session of [/app/test.py], 125.4567 seconds after its start. *)
Definition session `{PyBuiltins} : Log.State :=
  later (datetime.mk 2024 1 1 0 2 5 456700) "2024-01-01 00:02:05 +0000"
    (snd (Log.new "/app/test.py" world_with_logs)).

End Example.

(** ** Vocabulary of the further properties *)

(** The handlers of the root logger once [setup] has run without a log
    file on a logger without handlers. *)
Definition installed_console : list logging.Handler :=
  [Log.handler_stderr_fyi; Log.handler_stderr_alert].

(** What the FYI console handler writes for a record it accepts. *)
Definition stderr_fyi_text (r : logging.LogRecord) : string :=
  short_body r +:+ PyStr.nl.

(** The writes expected without a log file: one to the standard error
    stream, short below WARNING and long from WARNING upwards. *)
Definition routed_console (r : logging.LogRecord) : list logging.Delivery :=
  if logging.levelno r <? 10 then []
  else if logging.levelno r <? 30 then
    [logging.mkDelivery "handler_stderr_fyi" logging.Stderr (stderr_fyi_text r)]
  else
    [logging.mkDelivery "handler_stderr_alert" logging.Stderr (stderr_alert_text r)].

(** The method of [Log] for each severity, with its name and the line of
    its call to the root logger. *)
Definition emit (s : logging.Severity) : string -> Log.M unit :=
  match s with
  | logging.DEBUG => Log.debug
  | logging.INFO => Log.info
  | logging.WARNING => Log.warning
  | logging.ERROR => Log.error
  | logging.CRITICAL => Log.critical
  end.

Definition method_name (s : logging.Severity) : string :=
  match s with
  | logging.DEBUG => "debug"
  | logging.INFO => "info"
  | logging.WARNING => "warning"
  | logging.ERROR => "error"
  | logging.CRITICAL => "critical"
  end.

Definition method_line (s : logging.Severity) : Z :=
  match s with
  | logging.DEBUG => 157
  | logging.INFO => 161
  | logging.WARNING => 165
  | logging.ERROR => 169
  | logging.CRITICAL => 173
  end.

(** The record that the method for the severity [s] makes of a message. *)
Definition emitted_record (e : Log.Env) (s : logging.Severity) (msg : string)
  : logging.LogRecord :=
  Log.makeRecord e (logging.rank s) (method_name s) (method_line s) msg.

(** Is the severity routed as an alert? *)
Definition is_alert (s : logging.Severity) : bool := 30 <=? logging.rank s.

(** A date of the calendar with a year of four digits, by its fields. *)
Definition calendar (t : datetime.t) : Prop :=
  1000 <= datetime.year t <= 9999
  /\ 1 <= datetime.month t <= 12
  /\ 1 <= datetime.day t <= 31
  /\ 0 <= datetime.hour t <= 23
  /\ 0 <= datetime.minute t <= 59
  /\ 0 <= datetime.second t <= 59.

(** Two times that differ in their microseconds at most. *)
Definition same_second (a b : datetime.t) : Prop :=
  datetime.year a = datetime.year b
  /\ datetime.month a = datetime.month b
  /\ datetime.day a = datetime.day b
  /\ datetime.hour a = datetime.hour b
  /\ datetime.minute a = datetime.minute b
  /\ datetime.second a = datetime.second b.

(** The run metadata [b] are those of [a], but for the end time and the
    final directory. *)
Definition same_run (a b : _ExecInfo.t) : Prop :=
  _ExecInfo._module_basename b = _ExecInfo._module_basename a
  /\ _ExecInfo._arguments b = _ExecInfo._arguments a
  /\ _ExecInfo.initial b = _ExecInfo.initial a
  /\ _ExecInfo._user b = _ExecInfo._user a
  /\ _ExecInfo._system b = _ExecInfo._system a
  /\ _ExecInfo._python_version b = _ExecInfo._python_version a
  /\ _Timestamps.start (_ExecInfo._timestamps b) = _Timestamps.start (_ExecInfo._timestamps a).

(** The process [w'] has the surroundings, the root logger with its
    handlers and the directories of [w], and every file of [w]: at most,
    files were written or added and text went to the standard error
    stream. *)
Definition world_kept (w w' : Log.World) : Prop :=
  Log.env w' = Log.env w
  /\ Log.root w' = Log.root w
  /\ FS.dirs (Log.fs w') = FS.dirs (Log.fs w)
  /\ FS.readonly (Log.fs w') = FS.readonly (Log.fs w)
  /\ forall q : string,
       is_Some (FS.files (Log.fs w) !! q) -> is_Some (FS.files (Log.fs w') !! q).

(** ** [test.py] *)

(** The dataclass instances of the package as values, attribute by
    attribute; the named tuple of [platform.uname()] is kept by its
    rendering. *)
Definition option_value (o : option string) : PyValue.t :=
  match o with
  | Some s => PyValue.VStr s
  | None => PyValue.VNone
  end.

Definition datetime_value (t : datetime.t) : PyValue.t :=
  PyValue.VInstance "datetime.datetime" []
    [("year", PyValue.VInt (datetime.year t)); ("month", PyValue.VInt (datetime.month t));
     ("day", PyValue.VInt (datetime.day t)); ("hour", PyValue.VInt (datetime.hour t));
     ("minute", PyValue.VInt (datetime.minute t));
     ("second", PyValue.VInt (datetime.second t));
     ("microsecond", PyValue.VInt (datetime.microsecond t));
     ("tzinfo", PyValue.VInstance "datetime.timezone" [] [])].

Definition exec_info_value (e : _ExecInfo.t) : PyValue.t :=
  PyValue.VInstance "lib.classes.log.exec_info._ExecInfo" []
    [("_module_basename", option_value (_ExecInfo._module_basename e));
     ("_arguments", PyValue.VList (map PyValue.VStr (_ExecInfo._arguments e)));
     ("_directories",
      PyValue.VInstance "lib.classes.log.exec_info.directories._Directories" []
        [("initial", option_value (_ExecInfo.initial e));
         ("final", option_value (_ExecInfo.final e))]);
     ("_user", PyValue.VStr (_ExecInfo._user e));
     ("_system",
      PyValue.VInstance "platform.uname_result" [PyValue.Ctuple]
        [("str", PyValue.VStr (_ExecInfo._system e))]);
     ("_python_version", PyValue.VStr (_ExecInfo._python_version e));
     ("_timestamps",
      PyValue.VInstance "lib.classes.log.exec_info.timestamps._Timestamps" []
        [("start", datetime_value (_Timestamps.start (_ExecInfo._timestamps e)));
         ("end", match _Timestamps.end_ (_ExecInfo._timestamps e) with
                 | Some t => datetime_value t
                 | None => PyValue.VNone
                 end)])].

Module test.

(** The process of the script: the session, with the file system, the
    standard error stream and the root logger, and what has been printed
    on the standard output stream. *)
Record Process := mkProcess {
  session : Log.State;
  stdout : string
}.

Definition P (A : Type) : Type := Process -> result A * Process.

#[global] Instance P_ret : MRet P := fun _ a pr => (Ok a, pr).
#[global] Instance P_bind : MBind P := fun _ _ f m pr =>
  match m pr with
  | (Ok a, pr') => f a pr'
  | (Raise e, pr') => (Raise e, pr')
  end.

(** What the script reads of its surroundings at each of its calls to the
    package: at [Log(__file__)], at the eight records of the [try] block,
    at the record of the [except] block and at [terminate()]. *)
Definition Clock : Type := nat -> Log.Env.

(** The process when the surroundings have moved on to [e]. *)
Definition at_ (e : Log.Env) (st : Log.State) : Log.State :=
  Log.mkState (Log.self st)
    (Log.mkWorld e (Log.fs (Log.world st)) (Log.stderr (Log.world st))
       (Log.root (Log.world st))).

(** A call to a method of the session, in the surroundings [e]. *)
Definition call {A : Type} (e : Log.Env) (m : Log.M A) : P A := fun pr =>
  let '(r, st) := m (at_ e (session pr)) in
  (r, mkProcess st (stdout pr)).

(** [print(s)], on a standard output stream that takes every character. *)
Definition print (s : string) : P unit := fun pr =>
  (Ok tt, mkProcess (session pr) (stdout pr +:+ s +:+ PyStr.nl)).

(** [try: body] / [except: handler] / [finally: final], the [except]
    clause being bare. *)
Definition try_except_finally (body handler final : P unit) : P unit := fun pr =>
  match body pr with
  | (Ok _, pr1) => final pr1
  | (Raise _, pr1) =>
      match handler pr1 with
      | (Ok _, pr2) => final pr2
      | (Raise e, pr2) =>
          match final pr2 with
          | (Ok _, pr3) => (Raise e, pr3)
          | (Raise e', pr3) => (Raise e', pr3)
          end
      end
  end.

Definition sample_variable : Z := 5 * 6.

(** The [try] block. *)
Definition body `{PyBuiltins} (clock : Clock) : P unit :=
  call (clock 1%nat) (Log.info "Trying Actions…");;
  print "🖐 Sample message to user's console only.";;
  call (clock 2%nat) (Log.debug "Sample debugging message to log only.");;
  call (clock 3%nat) (Log.info "Sample informational message to log only.");;
  call (clock 4%nat)
    (Log.info (variable_value_message.get "sample_variable" (PyValue.VInt sample_variable)));;
  call (clock 5%nat)
    (s ← Log.get_self;
     Log.info (variable_value_message.get "log._exec_info"
                 (exec_info_value (Log._exec_info s))));;
  call (clock 6%nat) (Log.warning "Sample warning message.");;
  call (clock 7%nat) (Log.error "Sample error message.");;
  call (clock 8%nat) (Log.info "🟩 …Completed Actions.").

(** The [except] block. *)
Definition handler `{PyBuiltins} (clock : Clock) : P unit :=
  let msg := ExceptionMessageFormatted.new in
  let msg := ExceptionMessageFormatted.set_title "UNEXPECTED ERROR" msg in
  let msg := ExceptionMessageFormatted.set_details "An unexpected error has occurred." msg in
  let msg := ExceptionMessageFormatted.set_suggestions
               "Please check your inputs and try again. Or, contact the developer." msg in
  call (clock 9%nat) (Log.critical (ExceptionMessageFormatted.get msg)).

(** The [finally] block. *)
Definition final (clock : Clock) : P unit :=
  call (clock 10%nat) (Log.terminate None).

(** The script, run as the module file [file] in the process [w] with
    [out] on its standard output stream.  An exception of [Log(__file__)]
    ends the script before the [try] statement. *)
Definition main `{PyBuiltins} (file : string) (clock : Clock) (w : Log.World)
    (out : string) : result unit * Process :=
  match Log.new file (Log.mkWorld (clock 0%nat) (Log.fs w) (Log.stderr w) (Log.root w)) with
  | (Raise e, st) => (Raise e, mkProcess st out)
  | (Ok _, st) =>
      try_except_finally (body clock) (handler clock) (final clock) (mkProcess st out)
  end.

End test.

(** The file system after the texts [ts] were written, one after the
    other, to the file [p] opened for appending. *)
Definition appended (fs : FS.t) (p : string) (ts : list string) : FS.t :=
  fold_left (fun f t => FS.append f p t) ts fs.

(** ** The elapsed time on ranges of durations *)

(** The rendering of a duration of [us] microseconds with exact
    components. *)
Definition exact_elapsed (us : Z) : string :=
  let '(whole_minutes, whole_seconds, whole_milliseconds, whole_microseconds) :=
    exact_elapsed_components us in
  PyStr.of_Z whole_minutes +:+ "m " +:+ PyStr.of_Z whole_seconds +:+ "s "
  +:+ PyStr.of_Z whole_milliseconds +:+ "ms " +:+ PyStr.of_Z whole_microseconds +:+ "μs".

(** Two times [us] microseconds apart. *)
Definition epoch : datetime.t := datetime.mk 1 1 1 0 0 0 0.
Definition after_epoch (us : Z) : datetime.t := datetime.mk 1 1 1 0 0 0 us.

(** Is the elapsed time between them rendered as one of [expected us]? *)
Definition elapsed_among (expected : Z -> list string) (us : Z) : bool :=
  match _Timestamps._get_elapsed (_Timestamps.mk epoch (Some (after_epoch us))) with
  | Ok s => existsb (String.eqb s) (expected us)
  | Raise _ => false
  end.

(** ** Append-only writing *)

(** The process [w'] has every file of [w], each starting with the
    content it had in [w], and a standard error stream that starts with
    that of [w]: text was added at the end, and nowhere else. *)
Definition grown (w w' : Log.World) : Prop :=
  (forall (q content : string),
     FS.files (Log.fs w) !! q = Some content ->
     exists more : string, FS.files (Log.fs w') !! q = Some (content +:+ more))
  /\ exists more : string, Log.stderr w' = Log.stderr w +:+ more.
(** * Properties *)

(** Splits a conjunction into its parts, and goes no further. *)
Ltac split_conj := repeat match goal with |- _ /\ _ => split end.

(** ** Strings *)

Section StringFacts.

Lemma append_cons (a : ascii) (s t : string) : String a s +:+ t = String a (s +:+ t).
Proof. reflexivity. Qed.

Lemma append_nil_l (s : string) : "" +:+ s = s.
Proof. reflexivity. Qed.

Lemma append_nil_r (s : string) : s +:+ "" = s.
Proof.
  induction s as [|a s IH]; [reflexivity |].
  now rewrite append_cons, IH.
Qed.

Lemma append_assoc (a b c : string) : (a +:+ b) +:+ c = a +:+ (b +:+ c).
Proof.
  induction a as [|x a IH]; [reflexivity |].
  now rewrite !append_cons, IH.
Qed.

Lemma is_empty_true (s : string) : PyStr.is_empty s = true <-> s = "".
Proof. destruct s; simpl; split; congruence. Qed.

Lemma is_empty_false (s : string) : PyStr.is_empty s = false <-> s <> "".
Proof. destruct s; simpl; split; congruence. Qed.

Lemma lines_nonempty (s : string) : PyStr.lines s <> [].
Proof.
  induction s as [|a s IH]; simpl; [discriminate |].
  destruct (Ascii.eqb a _); [discriminate |].
  destruct (PyStr.lines s); [contradiction | discriminate].
Qed.

(** Splitting at line feeds distributes over a line feed between two
    strings. *)
Lemma lines_app_nl (a b : string) :
  PyStr.lines (a +:+ PyStr.nl +:+ b) = (PyStr.lines a ++ PyStr.lines b)%list.
Proof.
  induction a as [|c a IH]; [reflexivity |].
  rewrite append_cons. cbn [PyStr.lines]. rewrite IH.
  destruct (Ascii.eqb c _); [reflexivity |].
  pose proof (lines_nonempty a) as Hne.
  destruct (PyStr.lines a); [contradiction | reflexivity].
Qed.

Lemma lines_nl_l (b : string) : PyStr.lines (PyStr.nl +:+ b) = "" :: PyStr.lines b.
Proof. reflexivity. Qed.

End StringFacts.

(** ** Running the definitions *)

Example join_examples :
  posixpath.join "/app" "logs" = "/app/logs"
  /\ posixpath.join "" "logs" = "logs"
  /\ posixpath.join "/app/" "logs" = "/app/logs"
  /\ posixpath.join "/app" "/abs" = "/abs".
Proof. split_conj; reflexivity. Qed.

Example split_examples :
  posixpath.dirname "/app/src/test.py" = "/app/src"
  /\ posixpath.dirname "test.py" = ""
  /\ posixpath.dirname "/test.py" = "/"
  /\ posixpath.basename "/app/src/test.py" = "test.py"
  /\ posixpath.splitext_root "test.py" = "test"
  /\ posixpath.splitext_root "archive.tar.gz" = "archive.tar"
  /\ posixpath.splitext_root ".profile" = ".profile".
Proof. split_conj; reflexivity. Qed.

Example float_examples :
  Float64.floordiv (datetime.total_seconds 125456700) (Float64.of_Z 60)
  = Some (Float64.of_Z 2)
  /\ Float64.floordiv (datetime.total_seconds (-125456700)) (Float64.of_Z 60)
     = Some (Float64.of_Z (-3))
  /\ Float64.to_Z (datetime.total_seconds 125456700) = Some 125
  /\ Float64.to_Z (datetime.total_seconds (-1500000)) = Some (-1)
  /\ Float64.floordiv (Float64.of_Z 1) (Float64.of_Z 0) = None.
Proof. split_conj; vm_compute; reflexivity. Qed.

Example datetime_examples :
  datetime.toordinal (datetime.mk 1 1 1 0 0 0 0) = 1
  /\ datetime.toordinal (datetime.mk 2024 2 29 0 0 0 0) = 738945
  /\ datetime.sub_microseconds (datetime.mk 2024 3 1 0 0 0 0)
       (datetime.mk 2024 2 28 23 59 59 999999) = 86400000001
  /\ datetime.strftime_YmdHMS (datetime.mk 2024 2 29 1 2 3 4500) = "20240229010203"
  /\ datetime.isoformat (datetime.mk 2024 2 29 1 2 3 4500)
     = "2024-02-29T01:02:03.004500+00:00"
  /\ datetime.isoformat (datetime.mk 2024 2 29 1 2 3 0) = "2024-02-29T01:02:03+00:00".
Proof. split_conj; vm_compute; reflexivity. Qed.

Example elapsed_examples :
  _Timestamps._get_elapsed
    (_Timestamps.mk (datetime.mk 2024 1 1 0 0 0 0) (Some (datetime.mk 2024 1 1 0 0 1 500000)))
  = Ok "0m 1s 500ms 0μs"
  /\ _Timestamps._get_elapsed
       (_Timestamps.mk (datetime.mk 2024 1 1 0 0 0 0) (Some (datetime.mk 2024 1 1 1 1 1 250000)))
     = Ok "61m 1s 250ms 0μs"
  /\ _Timestamps._get_elapsed (_Timestamps.mk (datetime.mk 2024 1 1 0 0 0 0) None)
     = Raise (TypeError "unsupported operand type(s) for -").
Proof. split_conj; vm_compute; reflexivity. Qed.

Example banner_example :
  @ExceptionMessageFormatted.get ascii_builtins
    (ExceptionMessageFormatted.mk "Unexpected error" "It failed." "Try again.")
  = "UNEXPECTED ERROR" +:+ PyStr.nl
    +:+ "DETAILS:" +:+ PyStr.nl +:+ "It failed." +:+ PyStr.nl +:+ PyStr.nl
    +:+ "SUGGESTIONS:" +:+ PyStr.nl +:+ "Try again." +:+ PyStr.nl +:+ PyStr.nl
    +:+ "TRACING INFORMATION APPEARS BELOW:".
Proof. reflexivity. Qed.

Example format_example :
  logging.format Log.fmt_stderr_fyi
    (Log.makeRecord Example.env 20 "info" 161 "hello")
  = Some ("hello " +:+ PyStr.nl +:+ "2024-01-01 00:00:00 +0000 - root - INFO")
  /\ logging.format Log.fmt_file_fyi
       (Log.makeRecord Example.env 20 "info" 161 "hello")
     = None.
Proof. split; vm_compute; reflexivity. Qed.

(** ** Severity routing *)

(** C1: the FYI filter accepts a record exactly when its level is below
    WARNING, the ALERT filter exactly when its level is WARNING or above;
    hence every record, whatever its level, is accepted by exactly one of
    the two, and the five named severities split into DEBUG and INFO
    (FYI) and WARNING, ERROR and CRITICAL (ALERT). *)
Theorem fyi_alert_partition :
  forall r : logging.LogRecord,
    (Log.filter_fyi r = true <-> logging.levelno r < logging.rank logging.WARNING)
    /\ (Log.filter_alert r = true <-> logging.levelno r >= logging.rank logging.WARNING)
    /\ xorb (Log.filter_fyi r) (Log.filter_alert r) = true
    /\ forall (s : logging.Severity) (e : Log.Env) (func : string) (line : Z) (msg : string),
         let r := Log.makeRecord e (logging.rank s) func line msg in
         Log.filter_fyi r
         = match s with logging.DEBUG | logging.INFO => true | _ => false end
         /\ Log.filter_alert r = negb (Log.filter_fyi r).
Proof.
  intros r. unfold Log.filter_fyi, Log.filter_alert. cbn [logging.rank].
  repeat split.
  - intros H. apply Z.ltb_lt in H. exact H.
  - intros H. apply Z.ltb_lt. exact H.
  - intros H. apply Z.leb_le in H. lia.
  - intros H. apply Z.leb_le. lia.
  - destruct (Z.ltb_spec (logging.levelno r) 30), (Z.leb_spec 30 (logging.levelno r));
      simpl; try reflexivity; lia.
  - destruct s; reflexivity.
  - destruct s; reflexivity.
Qed.

(** ** Elapsed time *)

(** C3, on the code: whenever the end time is 125.4567 seconds after the
    start time, the elapsed-time string is [2m 5s 456ms 699μs], where the
    exact decomposition of the duration is 2 minutes, 5 seconds, 456
    milliseconds and 700 microseconds. *)
Theorem elapsed_125_4567_seconds :
  forall (ts : _Timestamps.t) (end_time : datetime.t),
    _Timestamps.end_ ts = Some end_time ->
    datetime.sub_microseconds end_time (_Timestamps.start ts) = 125456700 ->
    _Timestamps._get_elapsed ts = Ok "2m 5s 456ms 699μs"
    /\ exact_elapsed_components 125456700 = (2, 5, 456, 700).
Proof.
  intros ts end_time Hend Hus. split; [| reflexivity].
  unfold _Timestamps._get_elapsed. rewrite Hend. cbn [of_option mbind result_bind].
  rewrite Hus. vm_compute. reflexivity.
Qed.

Lemma elapsed_125_4567_seconds_witness :
  let ts := _Timestamps.mk (datetime.mk 2024 12 31 23 59 0 600000)
              (Some (datetime.mk 2025 1 1 0 1 6 56700)) in
  _Timestamps._get_elapsed ts = Ok "2m 5s 456ms 699μs"
  /\ exact_elapsed_components 125456700 = (2, 5, 456, 700).
Proof.
  exact (elapsed_125_4567_seconds
           (_Timestamps.mk (datetime.mk 2024 12 31 23 59 0 600000)
              (Some (datetime.mk 2025 1 1 0 1 6 56700)))
           (datetime.mk 2025 1 1 0 1 6 56700) eq_refl eq_refl).
Defined.

(** ** The exception banner *)

Lemma banner_get_unfold `{PyBuiltins} (m : ExceptionMessageFormatted.t) :
  ExceptionMessageFormatted.get m
  = str_upper (ExceptionMessageFormatted.title m) +:+ PyStr.nl
    +:+ (if PyStr.is_empty (ExceptionMessageFormatted.details m) then ""
         else "DETAILS:" +:+ PyStr.nl +:+ ExceptionMessageFormatted.details m
              +:+ PyStr.nl +:+ PyStr.nl)
    +:+ (if PyStr.is_empty (ExceptionMessageFormatted.suggestions m) then ""
         else "SUGGESTIONS:" +:+ PyStr.nl +:+ ExceptionMessageFormatted.suggestions m
              +:+ PyStr.nl +:+ PyStr.nl)
    +:+ ExceptionMessageFormatted.trailer.
Proof.
  unfold ExceptionMessageFormatted.get.
  destruct (PyStr.is_empty (ExceptionMessageFormatted.details m)),
           (PyStr.is_empty (ExceptionMessageFormatted.suggestions m));
    cbn [negb]; rewrite ?append_assoc, ?append_nil_l; reflexivity.
Qed.

(** C6, as the code has it: the banner is the upper-cased title line, then
    a DETAILS section exactly when the details are not empty, then a
    SUGGESTIONS section exactly when the suggestions are not empty, then
    the fixed trailer line.  The blank line belongs to a section, which it
    closes: a banner with a title only is the title line followed at once
    by the trailer line. *)
Theorem banner_render `{PyBuiltins} (m : ExceptionMessageFormatted.t) :
  PyStr.lines (ExceptionMessageFormatted.get m)
  = (PyStr.lines (str_upper (ExceptionMessageFormatted.title m))
     ++ banner_section "DETAILS:" (ExceptionMessageFormatted.details m)
     ++ banner_section "SUGGESTIONS:" (ExceptionMessageFormatted.suggestions m)
     ++ [ExceptionMessageFormatted.trailer])%list
  /\ (banner_section "DETAILS:" (ExceptionMessageFormatted.details m) = []
      <-> ExceptionMessageFormatted.details m = "")
  /\ (banner_section "SUGGESTIONS:" (ExceptionMessageFormatted.suggestions m) = []
      <-> ExceptionMessageFormatted.suggestions m = "")
  /\ forall title : string,
       ExceptionMessageFormatted.get (ExceptionMessageFormatted.mk title "" "")
       = str_upper title +:+ PyStr.nl +:+ ExceptionMessageFormatted.trailer.
Proof.
  split; [| split; [| split]].
  - rewrite banner_get_unfold. unfold banner_section.
    destruct (ExceptionMessageFormatted.details m) as [|d ds] eqn:Hd;
      destruct (ExceptionMessageFormatted.suggestions m) as [|s ss] eqn:Hs;
      cbn [PyStr.is_empty];
      rewrite ?append_assoc, ?append_nil_l;
      repeat first [rewrite lines_app_nl | rewrite lines_nl_l];
      change (PyStr.lines "DETAILS:") with ["DETAILS:"];
      change (PyStr.lines "SUGGESTIONS:") with ["SUGGESTIONS:"];
      change (PyStr.lines ExceptionMessageFormatted.trailer)
        with [ExceptionMessageFormatted.trailer];
      cbn [app]; rewrite <- ?app_assoc; reflexivity.
  - unfold banner_section.
    destruct (ExceptionMessageFormatted.details m); cbn [PyStr.is_empty];
      split; congruence.
  - unfold banner_section.
    destruct (ExceptionMessageFormatted.suggestions m); cbn [PyStr.is_empty];
      split; congruence.
  - intros title. rewrite banner_get_unfold. reflexivity.
Qed.

(** C6, as stated, fails: the banner of a title alone has no blank line
    between the title line and the trailer line. *)
Lemma banner_title_only_has_no_blank_line :
  @ExceptionMessageFormatted.get ascii_builtins
    (ExceptionMessageFormatted.mk "oops" "" "")
  = "OOPS" +:+ PyStr.nl +:+ "TRACING INFORMATION APPEARS BELOW:"
  /\ @ExceptionMessageFormatted.get ascii_builtins
       (ExceptionMessageFormatted.mk "oops" "" "")
     <> "OOPS" +:+ PyStr.nl +:+ PyStr.nl +:+ "TRACING INFORMATION APPEARS BELOW:"
  /\ PyStr.lines (@ExceptionMessageFormatted.get ascii_builtins
                    (ExceptionMessageFormatted.mk "oops" "" ""))
     = ["OOPS"; "TRACING INFORMATION APPEARS BELOW:"].
Proof.
  split; [reflexivity | split; [| reflexivity]].
  vm_compute. discriminate.
Qed.

(** ** The variable dump *)

Lemma lines_length_app_nl (a b : string) :
  (2 <= length (PyStr.lines (a +:+ PyStr.nl +:+ b)))%nat.
Proof.
  rewrite lines_app_nl, length_app.
  pose proof (lines_nonempty a). pose proof (lines_nonempty b).
  destruct (PyStr.lines a), (PyStr.lines b); simpl; try contradiction; lia.
Qed.

(** C9: a value that is an instance of [bool], [bytes], [int], [float],
    [str], [list], [tuple] or [NoneType] is rendered inline, as the name,
    the type in parentheses, a colon and the value; every other value is
    rendered as a block: the same heading, a line feed, and the value as
    the pretty-printer with indent 4, width 160 and unsorted keys formats
    it.  The type is printed as the class of the value prints: [<class
    '...'>] for a class made by [type], [<enum '...'>] or [<flag '...'>]
    for an enumeration.  An instance of a class of the program, and a
    member of an enumeration, is rendered inline exactly when one of the
    eight classes is among its ancestors.  So [get "x" 5] holds the name
    [x] and the value [5]. *)
Theorem variable_dump_render `{PyBuiltins} (name : string) (value : PyValue.t) :
  let heading := "🔎VarVal🔍 " +:+ name +:+ " (" +:+ PyValue.type_str value +:+ ")" in
  (PyValue.isinstance value variable_value_message.inline_classes = true ->
     variable_value_message.get name value = heading +:+ ": " +:+ py_str value)
  /\ (PyValue.isinstance value variable_value_message.inline_classes = false ->
        variable_value_message.get name value
        = heading +:+ ":" +:+ PyStr.nl
          +:+ pformat {| PyValue.indent := 4; PyValue.width := 160;
                         PyValue.compact := false; PyValue.sort_dicts := false |} value
        /\ (2 <= length (PyStr.lines (variable_value_message.get name value)))%nat)
  /\ (PyValue.isinstance value variable_value_message.inline_classes = true
      <-> match value with
          | PyValue.VBool _ | PyValue.VBytes _ | PyValue.VInt _ | PyValue.VFloat _
          | PyValue.VStr _ | PyValue.VList _ | PyValue.VTuple _ | PyValue.VNone => True
          | PyValue.VDict _ | PyValue.VSet _ => False
          | PyValue.VInstance _ ancestors _ => ancestors <> []
          | PyValue.VEnum _ _ ancestors _ _ => ancestors <> []
          end)
  /\ variable_value_message.get "x" (PyValue.VInt 5) = "🔎VarVal🔍 x (<class 'int'>): 5".
Proof.
  cbv zeta. split; [| split; [| split]].
  - intros Hin. unfold variable_value_message.get. rewrite Hin.
    rewrite !append_assoc. reflexivity.
  - intros Hout. unfold variable_value_message.get. rewrite Hout.
    split.
    + rewrite !append_assoc. reflexivity.
    + rewrite <- !append_assoc. rewrite append_assoc. apply lines_length_app_nl.
  - destruct value as [| | | | | | | | | |q ancestors attrs |q flag ancestors member v];
      try (split; [intros _; exact I | intros _; reflexivity]);
      try (split; [discriminate | contradiction]);
      unfold PyValue.isinstance, variable_value_message.inline_classes;
      cbn [PyValue.builtin_mro];
      (destruct ancestors as [|c cs];
       [split; [discriminate | congruence]
       | split; [discriminate | intros _]; cbn [existsb]; destruct c; reflexivity]).
  - reflexivity.
Qed.

Lemma variable_dump_render_witness :
  let red := PyValue.VEnum "Color" false [PyValue.Cint] "RED" (PyValue.VInt 1) in
  @variable_value_message.get ascii_builtins "flag" (PyValue.VBool true)
  = "🔎VarVal🔍 flag (<class 'bool'>): True"
  /\ (2 <= length (PyStr.lines
        (@variable_value_message.get ascii_builtins "d"
           (PyValue.VDict [(PyValue.VStr "k", PyValue.VInt 1)]))))%nat
  /\ @variable_value_message.get ascii_builtins "c" red
     = "🔎VarVal🔍 c (<enum 'Color'>): " +:+ @py_str ascii_builtins red.
Proof.
  intros red. split; [| split].
  - exact (proj1 (@variable_dump_render ascii_builtins "flag" (PyValue.VBool true))
             eq_refl).
  - exact (proj2 (proj1 (proj2
             (@variable_dump_render ascii_builtins "d"
                (PyValue.VDict [(PyValue.VStr "k", PyValue.VInt 1)]))) eq_refl)).
  - exact (proj1 (@variable_dump_render ascii_builtins "c" red) eq_refl).
Defined.

(** ** Rendering and routing *)

Lemma format_file_fyi (flag : string) (r : logging.LogRecord) :
  logging.format Log.fmt_file_fyi (logging.set_cntxt_flag flag r)
  = Some (PyStr.nl +:+ flag +:+ " " +:+ short_body r +:+ " " +:+ PyStr.nl).
Proof.
  destruct r. unfold short_body. cbn [logging.message logging.asctime logging.name
    logging.levelname]. rewrite ?append_assoc. vm_compute. reflexivity.
Qed.

Lemma format_file_alert (flag : string) (r : logging.LogRecord) :
  logging.format Log.fmt_file_alert (logging.set_cntxt_flag flag r)
  = Some (PyStr.nl +:+ flag +:+ " " +:+ long_body r).
Proof.
  destruct r. unfold long_body, short_body.
  cbn [logging.message logging.asctime logging.name logging.levelname
       logging.threadName logging.processName logging.pathname logging.module
       logging.funcName logging.lineno].
  rewrite ?append_assoc. vm_compute. reflexivity.
Qed.

Lemma format_stderr_alert (r : logging.LogRecord) :
  logging.format Log.fmt_stderr_alert r = Some (PyStr.nl +:+ long_body r).
Proof.
  destruct r. unfold long_body, short_body.
  cbn [logging.message logging.asctime logging.name logging.levelname
       logging.threadName logging.processName logging.pathname logging.module
       logging.funcName logging.lineno].
  rewrite ?append_assoc. vm_compute. reflexivity.
Qed.

Lemma format_stderr_fyi (r : logging.LogRecord) :
  logging.format Log.fmt_stderr_fyi r = Some (short_body r).
Proof.
  destruct r. rewrite <- (append_nil_r (short_body _)). unfold short_body. cbn [logging.message logging.asctime logging.name
    logging.levelname]. rewrite ?append_assoc. vm_compute. reflexivity.
Qed.

Lemma filter_add_cntxt_flag (r : logging.LogRecord) :
  Log.filter_add_cntxt r
  = (true, logging.set_cntxt_flag (flag_of (logging.levelname r)) r).
Proof. reflexivity. Qed.

Lemma glyph_flag_of (s : logging.Severity) :
  flag_of (logging.getLevelName (logging.rank s)) = glyph s.
Proof. destruct s; reflexivity. Qed.

Lemma set_cntxt_flag_levelno (flag : string) (r : logging.LogRecord) :
  logging.levelno (logging.set_cntxt_flag flag r) = logging.levelno r.
Proof. reflexivity. Qed.

(** The handlers installed for a log file route a record by its level. *)
Lemma callHandlers_installed (p : string) (r : logging.LogRecord) :
  logging.callHandlers (installed p) r = routed p r.
Proof.
  unfold installed, routed, logging.callHandlers, logging.handle.
  unfold Log.handler_file_fyi, Log.handler_file_alert, Log.handler_stderr_alert.
  cbn [logging.level logging.filters logging.formatter logging.stream
       logging.variable logging.run_filters logging.predicate].
  unfold Log.filter_fyi, Log.filter_alert.
  rewrite !filter_add_cntxt_flag, ?set_cntxt_flag_levelno.
  destruct (logging.levelno r <? 10) eqn:E10;
    destruct (logging.levelno r <? 30) eqn:E30;
    destruct (30 <=? logging.levelno r) eqn:E30';
    try (exfalso;
         first [apply Z.ltb_lt in E10 | apply Z.ltb_ge in E10];
         first [apply Z.ltb_lt in E30 | apply Z.ltb_ge in E30];
         first [apply Z.leb_le in E30' | apply Z.leb_gt in E30'];
         lia);
    repeat first
      [ rewrite set_cntxt_flag_levelno | rewrite E10 | rewrite E30 | rewrite E30'
      | rewrite filter_add_cntxt_flag | rewrite format_file_fyi | rewrite format_file_alert
      | rewrite format_stderr_alert | progress cbn iota beta ];
    unfold file_fyi_text, file_alert_text, stderr_alert_text;
    rewrite ?append_assoc; destruct r; reflexivity.
Qed.

(** ** The methods, step by step *)

Ltac run_monad :=
  cbv [mbind mret Log.M_bind Log.M_ret Log.get_self Log.get_world Log.put_self
       Log.put_world Log.raise Log.lift Log.set_exec_info Log.set_fs];
  cbn [Log.self Log.world Log.env Log.fs Log.stderr Log.root
       Log._module_filepathname Log._exec_info Log._log
       logging.handlers logging.logger_level].

Lemma log_call_installed (p : string) (st : Log.State) (lvl : Z) (func : string)
    (line : Z) (msg : string) :
  Log._log (Log.self st) = Some tt ->
  Log.root (Log.world st) = logging.mkLogger 10 (installed p) ->
  10 <= lvl ->
  Log.log_call lvl func line msg st
  = (Ok tt,
     Log.mkState (Log.self st)
       (Log.deliver (routed p (Log.makeRecord (Log.env (Log.world st)) lvl func line msg))
          (Log.world st))).
Proof.
  intros Hlog Hroot Hlvl. destruct st as [s w]. cbn [Log.self Log.world] in *.
  unfold Log.log_call. run_monad. rewrite Hlog. run_monad.
  unfold logging.isEnabledFor. rewrite Hroot. run_monad.
  destruct (Z.leb_spec 10 lvl) as [_ | Habs]; [| lia].
  rewrite callHandlers_installed. reflexivity.
Qed.

(** ** The file system *)

Lemma isfile_insert (fs : FS.t) (p content : string) :
  FS.isfile (FS.mk (FS.dirs fs) (<[ p := content ]> (FS.files fs)) (FS.readonly fs)) p
  = true.
Proof.
  unfold FS.isfile. cbn [FS.files]. apply bool_decide_eq_true.
  rewrite lookup_insert_eq. eauto.
Qed.

(** A file that could be opened for appending can be opened again, and
    nothing changes the second time. *)
Lemma open_append_again (fs f1 : FS.t) (p : string) :
  FS.open_append fs p = Ok f1 -> FS.open_append f1 p = Ok f1.
Proof.
  unfold FS.open_append.
  destruct (FS.isdir fs p) eqn:Hdir; [discriminate |].
  destruct (FS.isfile fs p) eqn:Hfile.
  - intros [= <-]. now rewrite Hdir, Hfile.
  - destruct (FS.check_create fs p); [| discriminate].
    intros [= <-].
    change (FS.isdir (FS.mk (FS.dirs fs) (<[p:=""]> (FS.files fs)) (FS.readonly fs)) p)
      with (FS.isdir fs p).
    rewrite Hdir, isfile_insert. reflexivity.
Qed.

Lemma open_append_dirs (fs f1 : FS.t) (p : string) :
  FS.open_append fs p = Ok f1 ->
  FS.dirs f1 = FS.dirs fs /\ FS.readonly f1 = FS.readonly fs
  /\ FS.isfile f1 p = true
  /\ FS.files f1 = match FS.files fs !! p with
                   | Some _ => FS.files fs
                   | None => <[ p := "" ]> (FS.files fs)
                   end.
Proof.
  unfold FS.open_append.
  destruct (FS.isdir fs p); [discriminate |].
  destruct (FS.isfile fs p) eqn:Hfile.
  - intros [= <-]. repeat split; [exact Hfile |].
    unfold FS.isfile in Hfile. apply bool_decide_eq_true in Hfile.
    destruct Hfile as [c Hc]. now rewrite Hc.
  - destruct (FS.check_create fs p); [| discriminate].
    intros [= <-]. cbn [FS.dirs FS.readonly FS.files].
    repeat split; [apply isfile_insert |].
    unfold FS.isfile in Hfile. apply bool_decide_eq_false in Hfile.
    destruct (FS.files fs !! p) eqn:Hl; [| reflexivity].
    exfalso. apply Hfile. eauto.
Qed.

(** ** [setup] *)

(** On a root logger without handlers, [setup] with a log file that can be
    opened binds the logger, lowers its level to DEBUG and installs the
    three handlers of a session with a file. *)
Lemma setup_with_file (p : string) (s : Log.t) (w : Log.World) (f1 : FS.t) :
  logging.handlers (Log.root w) = [] ->
  FS.open_append (Log.fs w) p = Ok f1 ->
  Log.setup (Some p) (Log.mkState s w)
  = (Ok tt,
     Log.mkState (Log.mk (Log._module_filepathname s) (Log._exec_info s) (Some tt))
       (Log.mkWorld (Log.env w) f1 (Log.stderr w) (logging.mkLogger 10 (installed p)))).
Proof.
  intros Hfresh Hopen.
  unfold Log.setup, Log.getLogger, Log.setLevel, Log.open_FileHandler, Log.addHandler.
  run_monad. rewrite Hfresh, Hopen. run_monad.
  rewrite (open_append_again _ _ _ Hopen). run_monad.
  reflexivity.
Qed.

(** ** One DEBUG and one WARNING record *)

(** C2: in a session that [setup] configured with the log file [p], on a
    root logger that had no handlers, a DEBUG record is written once, to
    the file, by the FYI file handler, and a WARNING record is written
    twice, to the file by the ALERT file handler and to the standard error
    stream by the ALERT console handler.  The renderings for the file
    start with the glyph of the severity; the rendering for the console
    is the same text without the glyph, whatever glyph the record was
    stamped with. *)
Theorem debug_and_warning_routing (p : string) (s : Log.t) (w : Log.World)
    (f1 : FS.t) (m1 m2 : string) :
  logging.handlers (Log.root w) = [] ->
  FS.open_append (Log.fs w) p = Ok f1 ->
  let rd := Log.makeRecord (Log.env w) (logging.rank logging.DEBUG) "debug" 157 m1 in
  let rw := Log.makeRecord (Log.env w) (logging.rank logging.WARNING) "warning" 165 m2 in
  let debug_file := PyStr.nl +:+ "⚪" +:+ " " +:+ short_body rd +:+ " " +:+ PyStr.nl +:+ PyStr.nl in
  let warning_file := PyStr.nl +:+ "🟧" +:+ " " +:+ long_body rw +:+ PyStr.nl in
  let warning_console := PyStr.nl +:+ long_body rw +:+ PyStr.nl in
  exists st1 : Log.State,
    Log.setup (Some p) (Log.mkState s w) = (Ok tt, st1)
    /\ logging.callHandlers (logging.handlers (Log.root (Log.world st1))) rd
       = [logging.mkDelivery "handler_file_fyi" (logging.FileStream p) debug_file]
    /\ logging.callHandlers (logging.handlers (Log.root (Log.world st1))) rw
       = [logging.mkDelivery "handler_file_alert" (logging.FileStream p) warning_file;
          logging.mkDelivery "handler_stderr_alert" logging.Stderr warning_console]
    /\ (forall flag : string,
          logging.format Log.fmt_stderr_alert (logging.set_cntxt_flag flag rw)
          = Some (PyStr.nl +:+ long_body rw))
    /\ (Log.debug m1 ;; Log.warning m2) st1
       = (Ok tt,
          Log.mkState (Log.self st1)
            (Log.mkWorld (Log.env w)
               (FS.append (FS.append f1 p debug_file) p warning_file)
               (Log.stderr w +:+ warning_console)
               (Log.root (Log.world st1)))).
Proof.
  intros Hfresh Hopen rd rw debug_file warning_file warning_console.
  eexists. split; [apply (setup_with_file _ _ _ _ Hfresh Hopen) |].
  cbn [Log.world Log.root logging.handlers Log.self].
  split; [| split; [| split]].
  - rewrite callHandlers_installed. reflexivity.
  - rewrite callHandlers_installed. reflexivity.
  - intros flag. rewrite format_stderr_alert. reflexivity.
  - unfold Log.debug, Log.warning.
    cbv [mbind Log.M_bind].
    rewrite (log_call_installed p); [| reflexivity | reflexivity | lia].
    rewrite (log_call_installed p); [| reflexivity | reflexivity | lia].
    reflexivity.
Qed.

Lemma debug_and_warning_routing_witness :
  let e := Log.mkEnv (datetime.mk 2024 1 1 0 0 0 0) "2024-01-01 00:00:00 +0000"
             "MainThread" "MainProcess" "/app/lib/classes/log/__init__.py"
             "alice" "Linux" "3.12.0" ["test.py"] in
  let w := Log.mkWorld e (FS.mk {[ "/app"; "/app/logs" ]} ∅ ∅) ""
             (logging.mkLogger 30 []) in
  let s := Log.mk "/app/test.py" (_ExecInfo.new "alice" "Linux" "3.12.0" (Log.now e)) None in
  exists st1 : Log.State,
    Log.setup (Some "/app/logs/test.log") (Log.mkState s w) = (Ok tt, st1)
    /\ FS.files (Log.fs (Log.world (snd ((Log.debug "d" ;; Log.warning "w") st1))))
         !! "/app/logs/test.log"
       = Some (PyStr.nl +:+ "⚪ d " +:+ PyStr.nl
               +:+ "2024-01-01 00:00:00 +0000 - root - DEBUG " +:+ PyStr.nl +:+ PyStr.nl
               +:+ PyStr.nl +:+ "🟧 w " +:+ PyStr.nl
               +:+ "2024-01-01 00:00:00 +0000 - root - WARNING " +:+ PyStr.nl
               +:+ "MainThread → MainProcess " +:+ PyStr.nl
               +:+ "/app/lib/classes/log/__init__.py " +:+ PyStr.nl
               +:+ "→ __init__ → warning @ 165 " +:+ PyStr.nl
               +:+ "EXCEPTION INFO: None " +:+ PyStr.nl +:+ PyStr.nl).
Proof.
  intros e w s.
  destruct (debug_and_warning_routing "/app/logs/test.log" s w
              (FS.mk {[ "/app"; "/app/logs" ]} {[ "/app/logs/test.log" := "" ]} ∅)
              "d" "w" eq_refl)
    as [st1 [Hsetup [_ [_ [_ Hrun]]]]].
  - vm_compute. reflexivity.
  - exists st1. split; [exact Hsetup |].
    rewrite Hrun. vm_compute. reflexivity.
Defined.

(** ** Paths *)

Section PathFacts.

Lemma endswith_char_cons (c a x : ascii) (s : string) :
  PyStr.endswith_char c (String a (String x s)) = PyStr.endswith_char c (String x s).
Proof. reflexivity. Qed.

Lemma endswith_char_app (c x : ascii) (a b : string) :
  PyStr.endswith_char c (a +:+ String x b) = PyStr.endswith_char c (String x b).
Proof.
  induction a as [|y a IH]; [reflexivity |].
  rewrite append_cons. destruct a as [|z a].
  - rewrite append_nil_l. apply endswith_char_cons.
  - rewrite append_cons in *. rewrite endswith_char_cons. exact IH.
Qed.

Lemma startswith_sep_app (a b : string) (x : ascii) :
  PyStr.startswith "/" a = false ->
  Ascii.eqb "/"%char x = false ->
  PyStr.startswith "/" (a +:+ String x b) = false.
Proof.
  intros Ha Hx. destruct a as [|y a].
  - rewrite append_nil_l. cbn [PyStr.startswith]. now rewrite Hx.
  - rewrite append_cons. cbn [PyStr.startswith] in *.
    destruct (Ascii.eqb "/" y); [| reflexivity].
    cbn in Ha. discriminate.
Qed.

(** Where the second part is relative and the first part is neither empty
    nor closed by a separator, [join] puts one separator between them. *)
Lemma join_plain (a b : string) :
  PyStr.startswith "/" b = false ->
  a <> "" ->
  PyStr.endswith_char posixpath.sep a = false ->
  posixpath.join a b = a +:+ "/" +:+ b.
Proof.
  intros Hb Ha Hend. unfold posixpath.join, posixpath.sep_str.
  rewrite Hb, Hend. apply is_empty_false in Ha. rewrite Ha. reflexivity.
Qed.

Lemma log_file_name_relative (base : string) (start : datetime.t) :
  PyStr.startswith "/" base = false ->
  PyStr.startswith "/" (log_file_name base start) = false.
Proof.
  intros Hbase. unfold log_file_name. apply startswith_sep_app; [exact Hbase | reflexivity].
Qed.

Lemma get_filepathname_unfold (e : _ExecInfo.t) (base : string) :
  _ExecInfo._module_basename e = Some base ->
  _ExecInfo._get_filepathname e
  = match _ExecInfo.final e with
    | None =>
        match _ExecInfo.initial e with
        | Some src =>
            Ok (posixpath.join (posixpath.join src "logs")
                  (log_file_name base (_Timestamps.start (_ExecInfo._timestamps e))))
        | None => Raise (TypeError "expected str, not NoneType")
        end
    | Some d =>
        Ok (posixpath.join d
              (log_file_name base (_Timestamps.start (_ExecInfo._timestamps e))))
    end.
Proof.
  intros Hbase. unfold _ExecInfo._get_filepathname. rewrite Hbase.
  destruct (_ExecInfo.final e); [reflexivity |].
  destruct (_ExecInfo.initial e); reflexivity.
Qed.

End PathFacts.

(** C4: the log path is the directory joined with the file name
    [<moduleBaseName>_<start as YYYYMMDDHHMMSS>.log]; the directory is the
    source directory joined with [logs] while no final directory is
    recorded, and the final directory once it is.  The path is a function
    of the source directory, the final directory, the module base name and
    the stored start time alone: recording an end time does not change it,
    and two resolutions of the same state agree.  Where the directory is
    not empty and does not end with a separator, joining is writing a [/]
    between directory and name. *)
Theorem log_path_resolution (e : _ExecInfo.t) (base : string) :
  _ExecInfo._module_basename e = Some base ->
  let file := base +:+ "_"
              +:+ datetime.strftime_YmdHMS (_Timestamps.start (_ExecInfo._timestamps e))
              +:+ ".log" in
  (forall src : string,
     _ExecInfo.initial e = Some src -> _ExecInfo.final e = None ->
     _ExecInfo._get_filepathname e
     = Ok (posixpath.join (posixpath.join src "logs") file)
     /\ (src <> "" -> PyStr.endswith_char "/" src = false ->
         PyStr.startswith "/" base = false ->
         _ExecInfo._get_filepathname e = Ok (src +:+ "/logs/" +:+ file)))
  /\ (forall d : string,
        _ExecInfo.final e = Some d ->
        _ExecInfo._get_filepathname e = Ok (posixpath.join d file)
        /\ (d <> "" -> PyStr.endswith_char "/" d = false ->
            PyStr.startswith "/" base = false ->
            _ExecInfo._get_filepathname e = Ok (d +:+ "/" +:+ file)))
  /\ (forall t : datetime.t,
        _ExecInfo._get_filepathname (_ExecInfo.set_end t e)
        = _ExecInfo._get_filepathname e)
  /\ (forall e' : _ExecInfo.t,
        _ExecInfo._directories e' = _ExecInfo._directories e ->
        _ExecInfo._module_basename e' = _ExecInfo._module_basename e ->
        _Timestamps.start (_ExecInfo._timestamps e')
        = _Timestamps.start (_ExecInfo._timestamps e) ->
        _ExecInfo._get_filepathname e' = _ExecInfo._get_filepathname e).
Proof.
  intros Hbase file.
  assert (Hfile : file = log_file_name base (_Timestamps.start (_ExecInfo._timestamps e)))
    by reflexivity.
  split; [| split; [| split]].
  - intros src Hinit Hfinal.
    rewrite (get_filepathname_unfold e base Hbase), Hfinal, Hinit, <- Hfile.
    split; [reflexivity |].
    intros Hsrc Hend Hrel. f_equal.
    rewrite (join_plain src "logs"); [| reflexivity | exact Hsrc | exact Hend].
    rewrite join_plain.
    + rewrite !append_assoc. reflexivity.
    + rewrite Hfile. now apply log_file_name_relative.
    + destruct src; discriminate.
    + rewrite (endswith_char_app _ "/"%char src "logs"). reflexivity.
  - intros d Hfinal.
    rewrite (get_filepathname_unfold e base Hbase), Hfinal, <- Hfile.
    split; [reflexivity |].
    intros Hd Hend Hrel. f_equal. apply join_plain; [| exact Hd | exact Hend].
    rewrite Hfile. now apply log_file_name_relative.
  - intros t. reflexivity.
  - intros e' Hdirs Hname Hstart.
    unfold _ExecInfo._get_filepathname, _ExecInfo.final, _ExecInfo.initial.
    rewrite Hdirs, Hname, Hstart. reflexivity.
Qed.

Lemma log_path_resolution_witness :
  let e := _ExecInfo.set_info "/app/test.py" ["test.py"]
             (_ExecInfo.new "alice" "Linux" "3.12.0" (datetime.mk 2024 2 29 13 5 9 250)) in
  _ExecInfo._get_filepathname e = Ok "/app/logs/test_20240229130509.log"
  /\ _ExecInfo._get_filepathname (_ExecInfo.set_final (Some "/srv/final") e)
     = Ok "/srv/final/test_20240229130509.log".
Proof.
  intros e. split.
  - exact (proj2 (proj1 (log_path_resolution e "test" eq_refl) "/app" eq_refl eq_refl)
             ltac:(discriminate) eq_refl eq_refl).
  - exact (proj2 (proj1 (proj2 (log_path_resolution
                                  (_ExecInfo.set_final (Some "/srv/final") e) "test" eq_refl))
                    "/srv/final" eq_refl)
             ltac:(discriminate) eq_refl eq_refl).
Defined.

(** ** Characters of paths and file names *)

Section CharFacts.

Lemma has_char_app (c : ascii) (a b : string) :
  has_char c (a +:+ b) = has_char c a || has_char c b.
Proof.
  induction a as [|x a IH]; [reflexivity |].
  rewrite append_cons. cbn [has_char]. rewrite IH. apply orb_assoc.
Qed.

Lemma has_char_uint (d : Decimal.uint) :
  has_char posixpath.sep (NilEmpty.string_of_uint d) = false.
Proof. induction d; cbn [NilEmpty.string_of_uint has_char]; try exact IHd; reflexivity. Qed.

Lemma has_char_of_Z (n : Z) : has_char posixpath.sep (PyStr.of_Z n) = false.
Proof.
  unfold PyStr.of_Z, NilZero.string_of_int, NilZero.string_of_uint.
  destruct (Z.to_int n) as [d | d]; destruct d;
    try reflexivity; try apply has_char_uint;
    change (has_char posixpath.sep (String "-" (NilEmpty.string_of_uint ?[d])))
      with (has_char posixpath.sep (NilEmpty.string_of_uint ?d));
    apply has_char_uint.
Qed.

Lemma has_char_repeat (n : nat) :
  has_char posixpath.sep (PyStr.repeat_char "0" n) = false.
Proof. induction n as [|n IH]; [reflexivity | exact IH]. Qed.

Lemma has_char_zero_pad (w : nat) (n : Z) :
  has_char posixpath.sep (PyStr.zero_pad w n) = false.
Proof.
  unfold PyStr.zero_pad. now rewrite has_char_app, has_char_repeat, has_char_of_Z.
Qed.

Lemma has_char_strftime (t : datetime.t) :
  has_char posixpath.sep (datetime.strftime_YmdHMS t) = false.
Proof.
  unfold datetime.strftime_YmdHMS. now rewrite !has_char_app, !has_char_zero_pad.
Qed.

Lemma has_char_log_file_name (base : string) (start : datetime.t) :
  has_char posixpath.sep base = false ->
  has_char posixpath.sep (log_file_name base start) = false.
Proof.
  intros Hbase. unfold log_file_name.
  now rewrite !has_char_app, Hbase, has_char_strftime.
Qed.

Lemma has_char_startswith (s : string) :
  has_char posixpath.sep s = false -> PyStr.startswith "/" s = false.
Proof.
  destruct s as [|x s]; [reflexivity |].
  cbn [has_char PyStr.startswith]. intros H. apply orb_false_iff in H as [Hx _].
  unfold posixpath.sep in Hx. rewrite (Ascii.eqb_sym "/"%char x), Hx. reflexivity.
Qed.

Lemma rsplit_char_none (c : ascii) (s : string) :
  has_char c s = false -> PyStr.rsplit_char c s = None.
Proof.
  induction s as [|x s IH]; [reflexivity |].
  cbn [has_char PyStr.rsplit_char]. intros H. apply orb_false_iff in H as [Hx Hs].
  now rewrite (IH Hs), Hx.
Qed.

Lemma rsplit_char_last (c : ascii) (a b : string) :
  has_char c b = false ->
  PyStr.rsplit_char c (a +:+ String c b) = Some (a +:+ String c "", b).
Proof.
  intros Hb. induction a as [|x a IH].
  - rewrite !append_nil_l. cbn [PyStr.rsplit_char].
    now rewrite (rsplit_char_none c b Hb), Ascii.eqb_refl.
  - rewrite !append_cons. cbn [PyStr.rsplit_char]. now rewrite IH.
Qed.

Lemma all_char_app (c : ascii) (a b : string) :
  PyStr.all_char c (a +:+ b) = PyStr.all_char c a && PyStr.all_char c b.
Proof.
  induction a as [|x a IH]; [reflexivity |].
  rewrite append_cons. cbn [PyStr.all_char]. rewrite IH. apply andb_assoc.
Qed.

Lemma is_empty_app_cons (a b : string) (x : ascii) :
  PyStr.is_empty (a +:+ String x b) = false.
Proof. destruct a; reflexivity. Qed.

Lemma rstrip_char_keep (c x : ascii) (s : string) :
  Ascii.eqb x c = false ->
  PyStr.rstrip_char c (s +:+ String x "") = s +:+ String x "".
Proof.
  intros Hx. induction s as [|y s IH].
  - rewrite append_nil_l. cbn [PyStr.rstrip_char]. now rewrite Hx.
  - rewrite append_cons. cbn [PyStr.rstrip_char]. rewrite IH.
    destruct s; reflexivity.
Qed.

Lemma rstrip_char_drop (c : ascii) (s : string) :
  PyStr.rstrip_char c (s +:+ String c "") = PyStr.rstrip_char c s.
Proof.
  induction s as [|y s IH].
  - rewrite append_nil_l. cbn [PyStr.rstrip_char]. now rewrite Ascii.eqb_refl.
  - rewrite append_cons. cbn [PyStr.rstrip_char]. now rewrite IH.
Qed.

Lemma append_length (a b : string) :
  String.length (a +:+ b) = (String.length a + String.length b)%nat.
Proof.
  induction a as [|x a IH]; [reflexivity |].
  rewrite append_cons. cbn [String.length]. now rewrite IH.
Qed.

(** Appending on the right is injective. *)
Lemma append_inv_r (a b c : string) : a +:+ c = b +:+ c -> a = b.
Proof.
  revert b. induction a as [|x a IH]; intros [|y b] H.
  - reflexivity.
  - apply (f_equal String.length) in H.
    rewrite append_nil_l, append_cons in H. cbn [String.length] in H.
    rewrite append_length in H. lia.
  - apply (f_equal String.length) in H.
    rewrite append_nil_l, append_cons in H. cbn [String.length] in H.
    rewrite append_length in H. lia.
  - rewrite !append_cons in H. injection H as -> H. f_equal. now apply IH.
Qed.

End CharFacts.

(** The timestamp of the file name has fourteen characters,
    [YYYYMMDDHHMMSS], for a date of the calendar with a four-digit year. *)
Lemma zero_pad_length (w bound : nat) (n : Z) :
  forallb (fun k => Nat.eqb (String.length (PyStr.zero_pad w (Z.of_nat k))) w)
    (seq 0 bound) = true ->
  0 <= n < Z.of_nat bound ->
  String.length (PyStr.zero_pad w n) = w.
Proof.
  intros Hall Hn. rewrite forallb_forall in Hall.
  specialize (Hall (Z.to_nat n)). rewrite Z2Nat.id in Hall by lia.
  apply Nat.eqb_eq, Hall, in_seq. lia.
Qed.

Lemma strftime_length (t : datetime.t) :
  1000 <= datetime.year t <= 9999 ->
  1 <= datetime.month t <= 12 ->
  1 <= datetime.day t <= 31 ->
  0 <= datetime.hour t <= 23 ->
  0 <= datetime.minute t <= 59 ->
  0 <= datetime.second t <= 59 ->
  String.length (datetime.strftime_YmdHMS t) = 14%nat.
Proof.
  intros Hy Hm Hd HH HM HS. unfold datetime.strftime_YmdHMS.
  assert (H4 : forallb (fun k => Nat.eqb (String.length (PyStr.zero_pad 4 (Z.of_nat k))) 4)
                 (seq 0 (Z.to_nat 10000)) = true) by (vm_compute; reflexivity).
  assert (H2 : forallb (fun k => Nat.eqb (String.length (PyStr.zero_pad 2 (Z.of_nat k))) 2)
                 (seq 0 100) = true) by (vm_compute; reflexivity).
  rewrite !append_length.
  rewrite (zero_pad_length 4 (Z.to_nat 10000) _ H4) by lia.
  rewrite !(zero_pad_length 2 100 _ H2) by lia.
  reflexivity.
Qed.

(** ** The [logs] directory and the log file in it *)

Section LogsDir.

Lemma logs_dir_shape (src : string) : exists X : string, logs_dir src = X +:+ "logs".
Proof.
  unfold logs_dir, posixpath.join, posixpath.sep_str. cbn [PyStr.startswith Ascii.eqb].
  change (PyStr.startswith "/" "logs") with false. cbv iota.
  destruct (PyStr.is_empty src || PyStr.endswith_char posixpath.sep src).
  - now exists src.
  - exists (src +:+ "/"). now rewrite append_assoc.
Qed.

Variable src : string.

Lemma logs_dir_nonempty : logs_dir src <> "".
Proof.
  destruct (logs_dir_shape src) as [X ->]. destruct X; discriminate.
Qed.

Lemma logs_dir_endswith : PyStr.endswith_char posixpath.sep (logs_dir src) = false.
Proof.
  destruct (logs_dir_shape src) as [X ->].
  now rewrite (endswith_char_app _ "l"%char X "ogs").
Qed.

Lemma logs_dir_all_sep : PyStr.all_char posixpath.sep (logs_dir src) = false.
Proof.
  destruct (logs_dir_shape src) as [X ->].
  rewrite all_char_app. apply andb_false_r.
Qed.

Lemma logs_dir_rstrip : PyStr.rstrip_char posixpath.sep (logs_dir src) = logs_dir src.
Proof.
  destruct (logs_dir_shape src) as [X ->].
  change (X +:+ "logs") with (X +:+ ("log" +:+ "s")).
  rewrite <- append_assoc. now apply rstrip_char_keep.
Qed.

Lemma logs_dir_norm : FS.norm (logs_dir src) = logs_dir src.
Proof.
  unfold FS.norm. rewrite logs_dir_all_sep, andb_false_r. apply logs_dir_rstrip.
Qed.

(** The same directory, written with a closing separator. *)
Lemma logs_dir_sep_norm : FS.norm (logs_dir src +:+ "/") = logs_dir src.
Proof.
  unfold FS.norm. rewrite all_char_app, logs_dir_all_sep, andb_false_l, andb_false_r.
  change "/" with (String posixpath.sep "").
  rewrite rstrip_char_drop. apply logs_dir_rstrip.
Qed.

Variable file : string.
Hypothesis Hfile : has_char posixpath.sep file = false.

Lemma logs_dir_join : posixpath.join (logs_dir src) file = logs_dir src +:+ "/" +:+ file.
Proof.
  apply join_plain.
  - now apply has_char_startswith.
  - apply logs_dir_nonempty.
  - apply logs_dir_endswith.
Qed.

Lemma log_file_basename : posixpath.basename (posixpath.join (logs_dir src) file) = file.
Proof.
  rewrite logs_dir_join. unfold posixpath.basename, posixpath.split_at_last_sep.
  change ("/" +:+ file) with (String posixpath.sep file).
  now rewrite rsplit_char_last.
Qed.

Lemma log_file_dirname : posixpath.dirname (posixpath.join (logs_dir src) file) = logs_dir src.
Proof.
  rewrite logs_dir_join. unfold posixpath.dirname, posixpath.split_at_last_sep.
  change ("/" +:+ file) with (String posixpath.sep file).
  rewrite rsplit_char_last by exact Hfile. cbn [fst].
  rewrite is_empty_app_cons, all_char_app, logs_dir_all_sep. cbn [negb andb].
  rewrite rstrip_char_drop. apply logs_dir_rstrip.
Qed.

End LogsDir.

(** ** Termination *)

Section ExecInfoFacts.

Variables (d : option string) (t : datetime.t) (e : _ExecInfo.t).

Lemma initial_set_final : _ExecInfo.initial (_ExecInfo.set_final d e) = _ExecInfo.initial e.
Proof. reflexivity. Qed.

Lemma initial_set_end : _ExecInfo.initial (_ExecInfo.set_end t e) = _ExecInfo.initial e.
Proof. reflexivity. Qed.

Lemma final_set_final : _ExecInfo.final (_ExecInfo.set_final d e) = d.
Proof. reflexivity. Qed.

Lemma basename_set_final :
  _ExecInfo._module_basename (_ExecInfo.set_final d e) = _ExecInfo._module_basename e.
Proof. reflexivity. Qed.

Lemma basename_set_end :
  _ExecInfo._module_basename (_ExecInfo.set_end t e) = _ExecInfo._module_basename e.
Proof. reflexivity. Qed.

Lemma timestamps_set_final :
  _ExecInfo._timestamps (_ExecInfo.set_final d e) = _ExecInfo._timestamps e.
Proof. reflexivity. Qed.

Lemma timestamps_set_end :
  _ExecInfo._timestamps (_ExecInfo.set_end t e)
  = _Timestamps.mk (_Timestamps.start (_ExecInfo._timestamps e)) (Some t).
Proof. reflexivity. Qed.

Lemma filepathname_set_end :
  _ExecInfo._get_filepathname (_ExecInfo.set_end t e) = _ExecInfo._get_filepathname e.
Proof. reflexivity. Qed.

End ExecInfoFacts.

Section Termination.

Variables (src base p : string) (st : Log.State).
Hypothesis Hactive : active src base p st.

Local Abbreviation exec := (Log._exec_info (Log.self st)).
Local Abbreviation start := (_Timestamps.start (_ExecInfo._timestamps exec)).
Local Abbreviation now := (Log.now (Log.env (Log.world st))).
Local Abbreviation file := (log_file_name base start).

Lemma active_filepathname : _ExecInfo._get_filepathname exec = Ok p.
Proof.
  destruct Hactive as (_ & _ & Hinit & Hfinal & Hbase & _ & Hp).
  rewrite (get_filepathname_unfold _ base Hbase).
  rewrite Hfinal, Hinit. rewrite Hp. reflexivity.
Qed.

Lemma ended_filepathname (d : option string) :
  _ExecInfo._get_filepathname (Log._exec_info (ended d st))
  = Ok match d with
       | None => p
       | Some dir => posixpath.join dir file
       end.
Proof.
  destruct Hactive as (_ & _ & Hinit & Hfinal & Hbase & _ & Hp).
  unfold ended. cbn [Log._exec_info].
  rewrite (get_filepathname_unfold _ base);
    [| rewrite basename_set_final, basename_set_end; exact Hbase].
  rewrite final_set_final, initial_set_final, initial_set_end,
    timestamps_set_final, timestamps_set_end.
  cbn [_Timestamps.start].
  destruct d as [dir |]; [reflexivity |].
  rewrite Hinit, Hp. reflexivity.
Qed.

(** The footer of a terminating session, once the elapsed time has been
    computed. *)
Lemma ended_footer (d : option string) (elapsed : string) :
  _Timestamps._get_elapsed (_Timestamps.mk start (Some now)) = Ok elapsed ->
  Log._get_footer (ended d st)
  = Ok (footer_text d
          match d with
          | None => p
          | Some dir => posixpath.join dir file
          end now start elapsed).
Proof.
  intros Hel. unfold Log._get_footer. rewrite ended_filepathname.
  unfold ended. cbn [Log._exec_info].
  rewrite final_set_final, timestamps_set_final, timestamps_set_end.
  rewrite Hel. cbn [_Timestamps.end_ _Timestamps.start of_option mbind result_bind].
  unfold footer_text.
  destruct d; rewrite ?append_assoc; reflexivity.
Qed.

(** [terminate] writes the footer to the log file through the FYI file
    handler, then copies the log file from its original path when a final
    directory is given. *)
Lemma terminate_active (d : option string) (elapsed : string) :
  _Timestamps._get_elapsed (_Timestamps.mk start (Some now)) = Ok elapsed ->
  let footer := footer_text d
                  match d with
                  | None => p
                  | Some dir => posixpath.join dir file
                  end now start elapsed in
  let written :=
    Log.mkState (ended d st)
      (Log.mkWorld (Log.env (Log.world st))
         (FS.append (Log.fs (Log.world st)) p
            (file_fyi_text (glyph logging.INFO)
               (info_record (Log.env (Log.world st)) footer)))
         (Log.stderr (Log.world st))
         (Log.root (Log.world st))) in
  Log.terminate d st
  = match d with
    | Some dir => Log.shutil_copy p dir written
    | None => (Ok tt, written)
    end.
Proof.
  intros Hel footer written.
  pose proof active_filepathname as Hpath.
  pose proof (ended_footer d elapsed Hel) as Hfooter.
  destruct Hactive as (Hlog & Hroot & _).
  unfold Log.terminate. subst written footer. unfold ended in *.
  destruct st as [s w]. cbn [Log.self Log.world] in *.
  run_monad. rewrite filepathname_set_end, Hpath. run_monad.
  rewrite Hfooter. run_monad.
  unfold Log.info.
  rewrite (log_call_installed p); [| exact Hlog | exact Hroot | lia].
  cbn [Log.self Log.world Log.env].
  destruct d; reflexivity.
Qed.

End Termination.

(** The leveled emit operations keep a session active: they only write
    to the log file and to the standard error stream. *)
Lemma emit_keeps_active (src base p : string) (st : Log.State) (lvl : Z)
    (func : string) (line : Z) (msg : string) :
  active src base p st ->
  10 <= lvl ->
  exists st' : Log.State,
    Log.log_call lvl func line msg st = (Ok tt, st')
    /\ active src base p st'
    /\ Log.self st' = Log.self st
    /\ FS.dirs (Log.fs (Log.world st')) = FS.dirs (Log.fs (Log.world st)).
Proof.
  intros Hactive Hlvl.
  pose proof Hactive as (Hlog & Hroot & Hrest).
  eexists. split; [apply (log_call_installed p st lvl func line msg Hlog Hroot Hlvl) |].
  cbn [Log.self Log.world].
  assert (Hw : forall r,
             Log.root (Log.deliver (routed p r) (Log.world st)) = Log.root (Log.world st)
             /\ FS.dirs (Log.fs (Log.deliver (routed p r) (Log.world st)))
                = FS.dirs (Log.fs (Log.world st))).
  { intros r. unfold routed.
    destruct (logging.levelno r <? 10); [split; reflexivity |].
    destruct (logging.levelno r <? 30); split; reflexivity. }
  destruct (Hw (Log.makeRecord (Log.env (Log.world st)) lvl func line msg)) as [Hr Hd].
  split; [| split; [reflexivity | exact Hd]].
  unfold active. cbn [Log.self Log.world]. rewrite Hr.
  split; [exact Hlog |]. split; [exact Hroot | exact Hrest].
Qed.

(** Where the elapsed time cannot be computed, [terminate] raises before
    anything is written. *)
Lemma terminate_elapsed_fails (src base p : string) (st : Log.State)
    (d : option string) (x : exn) :
  active src base p st ->
  _Timestamps._get_elapsed
    (_Timestamps.mk (_Timestamps.start (_ExecInfo._timestamps (Log._exec_info (Log.self st))))
       (Some (Log.now (Log.env (Log.world st))))) = Raise x ->
  Log.terminate d st = (Raise x, Log.mkState (ended d st) (Log.world st)).
Proof.
  intros Hactive Hel.
  pose proof (active_filepathname src base p st Hactive) as Hpath.
  pose proof (ended_filepathname src base p st Hactive d) as Hended.
  unfold Log.terminate, ended in *. destruct st as [s w]. cbn [Log.self Log.world] in *.
  run_monad. rewrite filepathname_set_end, Hpath. run_monad.
  unfold Log._get_footer. cbn [Log._exec_info] in *. rewrite Hended.
  rewrite final_set_final, timestamps_set_final, timestamps_set_end.
  cbn [_Timestamps.end_ of_option mbind result_bind]. rewrite Hel. reflexivity.
Qed.

Section FileSystemFacts.

Variables (fs : FS.t) (p text : string).

Lemma append_files_same :
  FS.files (FS.append fs p text) !! p = Some (default "" (FS.files fs !! p) +:+ text).
Proof. unfold FS.append. cbn [FS.files]. apply lookup_insert_eq. Qed.

Lemma append_files_other (q : string) :
  q <> p -> FS.files (FS.append fs p text) !! q = FS.files fs !! q.
Proof.
  intros Hq. unfold FS.append. cbn [FS.files]. apply lookup_insert_ne. congruence.
Qed.

Lemma append_dirs : FS.dirs (FS.append fs p text) = FS.dirs fs.
Proof. reflexivity. Qed.

Lemma append_isdir (q : string) : FS.isdir (FS.append fs p text) q = FS.isdir fs q.
Proof. reflexivity. Qed.

End FileSystemFacts.

Lemma startswith_app (t b : string) : PyStr.startswith t (t +:+ b) = true.
Proof.
  induction t as [|x t IH]; [reflexivity |].
  rewrite append_cons. cbn [PyStr.startswith]. now rewrite Ascii.eqb_refl, IH.
Qed.

Lemma contains_here (t s : string) :
  PyStr.startswith t s = true -> PyStr.contains t s = true.
Proof. intros H. destruct s; cbn [PyStr.contains]; now rewrite H. Qed.

Lemma contains_app (t a b : string) : PyStr.contains t (a +:+ t +:+ b) = true.
Proof.
  induction a as [|x a IH].
  - rewrite append_nil_l. apply contains_here, startswith_app.
  - rewrite append_cons. cbn [PyStr.contains]. rewrite IH. apply orb_true_r.
Qed.

Lemma contains_skip (t a s : string) :
  PyStr.contains t s = true -> PyStr.contains t (a +:+ s) = true.
Proof.
  intros H. induction a as [|x a IH]; [exact H |].
  rewrite append_cons. cbn [PyStr.contains]. rewrite IH. apply orb_true_r.
Qed.

(** C8: terminating an active session without a final directory succeeds
    once the elapsed time is computed; the footer written to the log file
    carries the note that no final directory was specified; the standard
    error stream and the directories are untouched, and the only change
    to the files is the footer appended to the log file at its original
    path: nothing is copied anywhere. *)
Theorem terminate_without_final_directory (src base p : string) (st : Log.State)
    (elapsed : string) :
  active src base p st ->
  _Timestamps._get_elapsed
    (_Timestamps.mk (_Timestamps.start (_ExecInfo._timestamps (Log._exec_info (Log.self st))))
       (Some (Log.now (Log.env (Log.world st))))) = Ok elapsed ->
  let footer :=
    footer_text None p (Log.now (Log.env (Log.world st)))
      (_Timestamps.start (_ExecInfo._timestamps (Log._exec_info (Log.self st))))
      elapsed in
  let text := file_fyi_text (glyph logging.INFO)
                (info_record (Log.env (Log.world st)) footer) in
  exists st' : Log.State,
    Log.terminate None st = (Ok tt, st')
    /\ (exists rest : string,
          footer = "========== ENDING ==========" +:+ PyStr.nl
                   +:+ "*** Final log directory not specified. ***" +:+ PyStr.nl +:+ rest)
    /\ PyStr.contains "*** Final log directory not specified. ***" text = true
    /\ Log.fs (Log.world st') = FS.append (Log.fs (Log.world st)) p text
    /\ FS.files (Log.fs (Log.world st')) !! p
       = Some (default "" (FS.files (Log.fs (Log.world st)) !! p) +:+ text)
    /\ (forall q : string,
          q <> p ->
          FS.files (Log.fs (Log.world st')) !! q = FS.files (Log.fs (Log.world st)) !! q)
    /\ FS.dirs (Log.fs (Log.world st')) = FS.dirs (Log.fs (Log.world st))
    /\ Log.stderr (Log.world st') = Log.stderr (Log.world st).
Proof.
  intros Hactive Hel footer text.
  eexists. split; [apply (terminate_active src base p st Hactive None elapsed Hel) |].
  cbn [Log.world Log.fs Log.stderr].
  split; [| split; [| split; [| split; [| split; [| split]]]]].
  - eexists. unfold footer, footer_text. rewrite ?append_assoc. reflexivity.
  - unfold text, file_fyi_text, short_body, info_record.
    cbn [logging.message Log.makeRecord]. unfold footer, footer_text.
    rewrite !append_assoc.
    do 5 apply contains_skip. apply contains_here, startswith_app.
  - reflexivity.
  - apply append_files_same.
  - intros q Hq. now apply append_files_other.
  - reflexivity.
  - reflexivity.
Qed.

(** Discharges [active] and the elapsed time on a concrete session. *)
Ltac run_example := try unfold active; split_conj; vm_compute; reflexivity.

Lemma terminate_without_final_directory_witness :
  exists st' : Log.State,
    Log.terminate None (@Example.session ascii_builtins) = (Ok tt, st')
    /\ FS.dirs (Log.fs (Log.world st'))
       = FS.dirs (Log.fs (Log.world (@Example.session ascii_builtins)))
    /\ forall q : string,
         q <> Example.log_path ->
         FS.files (Log.fs (Log.world st')) !! q
         = FS.files (Log.fs (Log.world (@Example.session ascii_builtins))) !! q.
Proof.
  destruct (terminate_without_final_directory "/app" "test" Example.log_path
              (@Example.session ascii_builtins) "2m 5s 456ms 699μs"
              ltac:(run_example) ltac:(run_example))
    as [st' (Hrun & _ & _ & _ & _ & Hothers & Hdirs & _)].
  exists st'. split; [exact Hrun | split; [exact Hdirs | exact Hothers]].
Defined.

(** C10: when an active session is terminated with the final directory
    [d], the path handed to the copy is the log path as it was resolved
    before [d] was recorded, in the [logs] directory of the source
    directory, where the records were written; the LOG line of the footer
    is rendered after [d] was recorded and names the log file in [d].
    The two paths are the same string exactly when [d] is the [logs]
    directory, written with or without a closing separator; they differ
    whenever [d] is another directory. *)
Theorem terminate_copy_source_and_reported_path (src base p d : string)
    (st : Log.State) (elapsed : string) :
  active src base p st ->
  _Timestamps._get_elapsed
    (_Timestamps.mk (_Timestamps.start (_ExecInfo._timestamps (Log._exec_info (Log.self st))))
       (Some (Log.now (Log.env (Log.world st))))) = Ok elapsed ->
  let start := _Timestamps.start (_ExecInfo._timestamps (Log._exec_info (Log.self st))) in
  let file := log_file_name base start in
  let logs := posixpath.join src "logs" in
  let reported := posixpath.join d file in
  let footer :=
    footer_text (Some d) reported (Log.now (Log.env (Log.world st))) start elapsed in
  p = posixpath.join logs file
  /\ _ExecInfo._get_filepathname (Log._exec_info (Log.self st)) = Ok p
  /\ _ExecInfo._get_filepathname (Log._exec_info (ended (Some d) st)) = Ok reported
  /\ Log._get_footer (ended (Some d) st) = Ok footer
  /\ (exists before after : string,
        footer = before +:+ "LOG: " +:+ reported +:+ PyStr.nl +:+ after)
  /\ Log.terminate (Some d) st
     = Log.shutil_copy p d
         (Log.mkState (ended (Some d) st)
            (Log.mkWorld (Log.env (Log.world st))
               (FS.append (Log.fs (Log.world st)) p
                  (file_fyi_text (glyph logging.INFO)
                     (info_record (Log.env (Log.world st)) footer)))
               (Log.stderr (Log.world st))
               (Log.root (Log.world st))))
  /\ (p = reported <-> d = logs \/ d = logs +:+ "/")
  /\ (FS.norm d <> FS.norm logs -> p <> reported).
Proof.
  intros Hactive Hel. cbv zeta.
  pose proof (terminate_active src base p st Hactive (Some d) elapsed Hel) as Hrun.
  pose proof (active_filepathname src base p st Hactive) as Hpath.
  pose proof (ended_filepathname src base p st Hactive (Some d)) as Hreported.
  pose proof (ended_footer src base p st Hactive (Some d) elapsed Hel) as Hfooter.
  cbv zeta in Hrun.
  destruct Hactive as (_ & _ & _ & _ & _ & Hbase & Hp).
  set (file := log_file_name base
                 (_Timestamps.start (_ExecInfo._timestamps (Log._exec_info (Log.self st)))))
    in *.
  assert (Hfile : has_char posixpath.sep file = false)
    by now apply has_char_log_file_name.
  fold (logs_dir src) in *.
  assert (Hiff : p = posixpath.join d file
                 <-> d = logs_dir src \/ d = logs_dir src +:+ "/").
  { rewrite Hp, (logs_dir_join src file Hfile). split.
    - unfold posixpath.join, posixpath.sep_str.
      rewrite (has_char_startswith file Hfile).
      destruct (PyStr.is_empty d || PyStr.endswith_char posixpath.sep d).
      + intros H. right. rewrite <- append_assoc in H.
        symmetry. exact (append_inv_r _ _ _ H).
      + intros H. left. symmetry. exact (append_inv_r _ _ _ H).
    - intros [-> | ->].
      + symmetry. apply (logs_dir_join src file Hfile).
      + unfold posixpath.join, posixpath.sep_str.
        rewrite (has_char_startswith file Hfile).
        rewrite (endswith_char_app _ "/"%char (logs_dir src) ""), orb_true_r.
        now rewrite append_assoc. }
  split; [exact Hp |].
  split; [exact Hpath |].
  split; [exact Hreported |].
  split; [exact Hfooter |].
  split.
  { exists ("========== ENDING ==========" +:+ PyStr.nl +:+ Log.note_copied
            +:+ PyStr.nl +:+ PyStr.nl).
    exists (PyStr.nl +:+ "  END: "
            +:+ datetime.isoformat (Log.now (Log.env (Log.world st))) +:+ PyStr.nl
            +:+ "- START: "
            +:+ datetime.isoformat
                  (_Timestamps.start (_ExecInfo._timestamps (Log._exec_info (Log.self st))))
            +:+ PyStr.nl +:+ "= ELAPSED: " +:+ elapsed).
    unfold footer_text. rewrite ?append_assoc. reflexivity. }
  split; [exact Hrun |].
  split; [exact Hiff |].
  intros Hnorm Heq. apply Hiff in Heq as [-> | ->]; apply Hnorm.
  - reflexivity.
  - now rewrite logs_dir_sep_norm, logs_dir_norm.
Qed.

Lemma terminate_copy_source_and_reported_path_witness :
  _ExecInfo._get_filepathname (Log._exec_info (Log.self (@Example.session ascii_builtins)))
  = Ok "/app/logs/test_20240101000000.log"
  /\ _ExecInfo._get_filepathname
       (Log._exec_info (ended (Some "/srv/final") (@Example.session ascii_builtins)))
     = Ok "/srv/final/test_20240101000000.log"
  /\ "/app/logs/test_20240101000000.log" <> "/srv/final/test_20240101000000.log".
Proof.
  pose proof (terminate_copy_source_and_reported_path "/app" "test" Example.log_path
                "/srv/final" (@Example.session ascii_builtins) "2m 5s 456ms 699μs"
                ltac:(run_example) ltac:(run_example)) as H.
  cbv zeta in H. destruct H as (_ & Hsource & Hreported & _ & _ & _ & _ & Hdiffer).
  split; [exact Hsource |]. split; [exact Hreported |].
  apply Hdiffer. vm_compute. discriminate.
Defined.

(** ** Construction *)

Section SourcePath.

Lemma rsplit_char_some (c : ascii) (s h t : string) :
  PyStr.rsplit_char c s = Some (h, t) -> s = h +:+ t /\ has_char c t = false.
Proof.
  revert h t. induction s as [|x s IH]; intros h t; [discriminate |].
  cbn [PyStr.rsplit_char].
  destruct (PyStr.rsplit_char c s) as [[h' t'] |] eqn:Hs.
  - intros [= <- <-]. destruct (IH h' t' eq_refl) as [-> Ht].
    split; [reflexivity | exact Ht].
  - destruct (Ascii.eqb x c) eqn:Hx; [| discriminate].
    intros [= <- <-]. split; [reflexivity |].
    clear IH Hx. induction s as [|y s IH]; [reflexivity |].
    cbn [PyStr.rsplit_char] in Hs.
    destruct (PyStr.rsplit_char c s) as [[h' t'] |]; [discriminate |].
    destruct (Ascii.eqb y c) eqn:Hy; [discriminate |].
    cbn [has_char]. rewrite Hy. now apply IH.
Qed.

Lemma rsplit_char_none_inv (c : ascii) (s : string) :
  PyStr.rsplit_char c s = None -> has_char c s = false.
Proof.
  induction s as [|x s IH]; [reflexivity |].
  cbn [PyStr.rsplit_char has_char].
  destruct (PyStr.rsplit_char c s) as [[h t] |]; [discriminate |].
  destruct (Ascii.eqb x c); [discriminate |].
  intros _. now apply IH.
Qed.

Lemma has_char_basename (path : string) :
  has_char posixpath.sep (posixpath.basename path) = false.
Proof.
  unfold posixpath.basename, posixpath.split_at_last_sep.
  destruct (PyStr.rsplit_char posixpath.sep path) as [[h t] |] eqn:Hsplit; cbn [snd].
  - now destruct (rsplit_char_some _ _ _ _ Hsplit).
  - now apply rsplit_char_none_inv.
Qed.

Lemma has_char_substring (c : ascii) (s : string) (n m : nat) :
  has_char c s = false -> has_char c (String.substring n m s) = false.
Proof.
  revert n m. induction s as [|x s IH]; intros n m Hs.
  - destruct n, m; reflexivity.
  - cbn [has_char] in Hs. apply orb_false_iff in Hs as [Hx Hs].
    destruct n as [|n]; [destruct m as [|m] |]; cbn [String.substring].
    + reflexivity.
    + cbn [has_char]. rewrite Hx. now apply IH.
    + now apply IH.
Qed.

Lemma has_char_splitext_root (q : string) :
  has_char posixpath.sep q = false ->
  has_char posixpath.sep (posixpath.splitext_root q) = false.
Proof.
  intros Hq. unfold posixpath.splitext_root, posixpath.split_at_last_sep.
  rewrite (rsplit_char_none _ _ Hq).
  destruct (PyStr.rsplit_char "." q) as [[stem_dot ext] |] eqn:Hdot; [| exact Hq].
  destruct (posixpath.has_non_dot _); [| exact Hq].
  rewrite append_nil_l. apply has_char_substring.
  destruct (rsplit_char_some _ _ _ _ Hdot) as [-> _].
  rewrite has_char_app in Hq. now apply orb_false_iff in Hq as [Hq _].
Qed.

(** The module base name that [set_info] derives holds no separator. *)
Lemma has_char_module_basename (path : string) :
  has_char posixpath.sep (posixpath.splitext_root (posixpath.basename path)) = false.
Proof. apply has_char_splitext_root, has_char_basename. Qed.

Variables (src base : string) (t : datetime.t).
Hypothesis Hbase : has_char posixpath.sep base = false.

Let p : string := posixpath.join (logs_dir src) (log_file_name base t).

Lemma log_path_shape :
  p = logs_dir src +:+ "/" +:+ log_file_name base t.
Proof. apply logs_dir_join. now apply has_char_log_file_name. Qed.

Lemma log_path_nonempty : PyStr.is_empty p = false.
Proof.
  rewrite log_path_shape. pose proof (logs_dir_nonempty src) as H.
  destruct (logs_dir src); [contradiction | reflexivity].
Qed.

Lemma log_path_norm : FS.norm p = p.
Proof.
  rewrite log_path_shape. unfold FS.norm.
  rewrite all_char_app, logs_dir_all_sep, andb_false_l, andb_false_r.
  unfold log_file_name.
  change ".log" with (".lo" +:+ "g"). rewrite <- !append_assoc.
  now apply rstrip_char_keep.
Qed.

Lemma log_path_parent : FS.parent p = logs_dir src.
Proof.
  unfold FS.parent. rewrite log_path_norm. apply log_file_dirname.
  now apply has_char_log_file_name.
Qed.

Lemma log_path_not_logs_dir : p <> logs_dir src.
Proof.
  rewrite log_path_shape. intros H. apply (f_equal String.length) in H.
  rewrite !append_length in H. cbn [String.length] in H. lia.
Qed.

End SourcePath.

Section LogFileOpening.

Variables (src base : string) (t : datetime.t).
Hypothesis Hbase : has_char posixpath.sep base = false.

Local Abbreviation logs := (logs_dir src).
Local Abbreviation p := (posixpath.join (logs_dir src) (log_file_name base t)).

(** In an existing [logs] directory that accepts entries, the log file can
    be opened. *)
Lemma open_in_logs_dir (fs : FS.t) :
  FS.isdir fs p = false ->
  FS.isdir fs logs = true ->
  FS.norm logs ∉ FS.readonly fs ->
  exists f1 : FS.t, FS.open_append fs p = Ok f1.
Proof.
  intros Hnodir Hdir Hrw. unfold FS.open_append. rewrite Hnodir.
  destruct (FS.isfile fs p); [eauto |].
  unfold FS.check_create.
  rewrite (log_path_nonempty src base t Hbase), (log_path_parent src base t Hbase).
  pose proof (logs_dir_nonempty src) as Hne. apply is_empty_false in Hne.
  rewrite Hne, Hdir.
  rewrite bool_decide_eq_false_2 by exact Hrw. eauto.
Qed.

(** Where the [logs] directory is missing and its parent accepts a new
    entry, the directory is made, and the log file can be opened in it. *)
Lemma mkdir_then_open (fs : FS.t) :
  FS.isdir fs p = false ->
  FS.exists_ fs logs = false ->
  FS.check_create fs logs = Ok tt ->
  exists f1 : FS.t,
    FS.mkdir fs logs
    = Ok (FS.mk ({[ logs ]} ∪ FS.dirs fs) (FS.files fs) (FS.readonly fs ∖ {[ logs ]}))
    /\ FS.open_append
         (FS.mk ({[ logs ]} ∪ FS.dirs fs) (FS.files fs) (FS.readonly fs ∖ {[ logs ]})) p
       = Ok f1.
Proof.
  intros Hnodir Habsent Hparent.
  set (fs1 := FS.mk ({[ logs ]} ∪ FS.dirs fs) (FS.files fs) (FS.readonly fs ∖ {[ logs ]})).
  assert (Hmk : FS.mkdir fs logs = Ok fs1).
  { unfold FS.mkdir. rewrite Habsent, Hparent, logs_dir_norm. reflexivity. }
  assert (Hdir1 : FS.isdir fs1 logs = true).
  { unfold FS.isdir. pose proof (logs_dir_nonempty src) as Hne.
    apply is_empty_false in Hne. rewrite Hne, logs_dir_norm. cbn [negb andb FS.dirs fs1].
    apply bool_decide_eq_true. apply elem_of_union. left.
    now apply elem_of_singleton. }
  assert (Hnodir1 : FS.isdir fs1 p = false).
  { unfold FS.isdir in *. rewrite (log_path_nonempty src base t Hbase) in *.
    cbn [negb andb] in *. rewrite (log_path_norm src base t Hbase) in *.
    apply bool_decide_eq_false in Hnodir. apply bool_decide_eq_false.
    cbn [FS.dirs fs1]. pose proof (log_path_not_logs_dir src base t Hbase) as Hne.
    intros [Hin | Hin]%elem_of_union; [| contradiction].
    apply elem_of_singleton in Hin. contradiction. }
  assert (Hrw : FS.norm logs ∉ FS.readonly fs1).
  { rewrite logs_dir_norm. cbn [FS.readonly fs1].
    intros [_ Hout]%elem_of_difference. apply Hout. now apply elem_of_singleton. }
  destruct (open_in_logs_dir fs1 Hnodir1 Hdir1 Hrw) as [f1 Hf1].
  exists f1. split; [exact Hmk | exact Hf1].
Qed.

End LogFileOpening.

Section Construction.

Context `{PyBuiltins}.

Variables (path : string) (e : Log.Env).

Local Abbreviation src := (posixpath.dirname path).
Local Abbreviation base := (posixpath.splitext_root (posixpath.basename path)).
Local Abbreviation logs := (logs_dir src).
Local Abbreviation p := (session_log_path path e).

Lemma captured_filepathname : _ExecInfo._get_filepathname (captured path e) = Ok p.
Proof. reflexivity. Qed.

Lemma captured_header (l : option unit) :
  Log._get_header (Log.mk path (captured path e) l) = Ok (session_header path e).
Proof.
  unfold Log._get_header. cbn [Log._exec_info].
  rewrite captured_filepathname.
  unfold session_header, header_text. cbn [mbind result_bind _ExecInfo._get_module_filepathname
    captured _ExecInfo.set_info _ExecInfo.initial _ExecInfo._directories
    _Directories.initial _ExecInfo._module_basename of_option].
  rewrite ?append_assoc. reflexivity.
Qed.

(** [initialize] on the captured metadata: the handlers are installed and
    the header is the first record written. *)
Lemma initialize_captured (fs0 f1 : FS.t) (err : string) (lvl : Z) :
  FS.open_append fs0 p = Ok f1 ->
  Log.initialize
    (Log.mkState (Log.mk path (captured path e) None)
       (Log.mkWorld e fs0 err (logging.mkLogger lvl [])))
  = (Ok tt,
     Log.mkState (Log.mk path (captured path e) (Some tt))
       (Log.mkWorld e
          (FS.append f1 p (file_fyi_text (glyph logging.INFO)
                             (info_record e (session_header path e))))
          err (logging.mkLogger 10 (installed p)))).
Proof.
  intros Hopen. unfold Log.initialize. run_monad.
  rewrite captured_filepathname. run_monad.
  rewrite (setup_with_file p _ _ f1); [| reflexivity | exact Hopen].
  run_monad. rewrite captured_header. run_monad.
  unfold Log.info.
  rewrite (log_call_installed p); [| reflexivity | reflexivity | lia].
  reflexivity.
Qed.


(** [Log(path)] where the [logs] directory exists and accepts entries. *)
Lemma new_in_logs_dir (fs0 : FS.t) (err : string) (lvl : Z) :
  FS.isdir fs0 p = false ->
  FS.isdir fs0 logs = true ->
  FS.norm logs ∉ FS.readonly fs0 ->
  exists f1 : FS.t,
    FS.open_append fs0 p = Ok f1
    /\ Log.new path (Log.mkWorld e fs0 err (logging.mkLogger lvl []))
       = (Ok tt,
          Log.mkState (Log.mk path (captured path e) (Some tt))
            (Log.mkWorld e
               (FS.append f1 p (file_fyi_text (glyph logging.INFO)
                                  (info_record e (session_header path e))))
               err (logging.mkLogger 10 (installed p)))).
Proof.
  intros Hnodir Hdir Hrw.
  destruct (open_in_logs_dir src base (Log.now e) (has_char_module_basename path)
              fs0 Hnodir Hdir Hrw) as [f1 Hopen].
  exists f1. split; [exact Hopen |].
  unfold Log.new, Log.__post_init__. run_monad.
  fold (captured path e). cbn [of_option _ExecInfo.initial captured _ExecInfo.set_info
    _ExecInfo._directories _Directories.initial].
  fold (captured path e). fold logs.
  unfold FS.exists_. rewrite Hdir. cbn [orb negb].
  apply (initialize_captured fs0 f1 err lvl Hopen).
Qed.

(** [Log(path)] where the [logs] directory is missing and can be made. *)
Lemma new_makes_logs_dir (fs0 : FS.t) (err : string) (lvl : Z) :
  FS.isdir fs0 p = false ->
  FS.exists_ fs0 logs = false ->
  FS.check_create fs0 logs = Ok tt ->
  exists f1 : FS.t,
    FS.open_append
      (FS.mk ({[ logs ]} ∪ FS.dirs fs0) (FS.files fs0) (FS.readonly fs0 ∖ {[ logs ]})) p
    = Ok f1
    /\ Log.new path (Log.mkWorld e fs0 err (logging.mkLogger lvl []))
       = (Ok tt,
          Log.mkState (Log.mk path (captured path e) (Some tt))
            (Log.mkWorld e
               (FS.append
                  (FS.append f1 p (file_fyi_text (glyph logging.INFO)
                                     (info_record e (session_header path e))))
                  p (file_alert_text (glyph logging.WARNING)
                       (warning_record e (notice_text src logs))))
               (err +:+ stderr_alert_text (warning_record e (notice_text src logs)))
               (logging.mkLogger 10 (installed p)))).
Proof.
  intros Hnodir Habsent Hparent.
  destruct (mkdir_then_open src base (Log.now e) (has_char_module_basename path)
              fs0 Hnodir Habsent Hparent) as [f1 [Hmk Hopen]].
  exists f1. split; [exact Hopen |].
  unfold Log.new, Log.__post_init__. run_monad.
  fold (captured path e). cbn [of_option _ExecInfo.initial captured _ExecInfo.set_info
    _ExecInfo._directories _Directories.initial].
  fold (captured path e). fold logs.
  rewrite Habsent. cbn [negb]. rewrite Hmk. run_monad.
  rewrite (initialize_captured _ f1 err lvl Hopen). run_monad.
  unfold Log.warning.
  rewrite (log_call_installed p); [| reflexivity | reflexivity | lia].
  reflexivity.
Qed.


End Construction.

Lemma open_append_content (fs f1 : FS.t) (p : string) :
  FS.open_append fs p = Ok f1 ->
  default "" (FS.files f1 !! p) = default "" (FS.files fs !! p)
  /\ (forall q : string, q <> p -> FS.files f1 !! q = FS.files fs !! q)
  /\ FS.dirs f1 = FS.dirs fs.
Proof.
  intros Hopen. destruct (open_append_dirs fs f1 p Hopen) as (Hdirs & _ & _ & Hfiles).
  rewrite Hfiles. destruct (FS.files fs !! p) as [c |] eqn:Hp.
  - rewrite Hp. split; [reflexivity |]. split; [reflexivity | exact Hdirs].
  - rewrite lookup_insert_eq. split; [reflexivity |]. split; [| exact Hdirs].
    intros q Hq. apply lookup_insert_ne. congruence.
Qed.




(** ** A run, from construction to termination *)

(** The log file of the example session after a DEBUG and a WARNING record
    and the termination into [/srv/final]. *)
Example run_to_the_end :
  let st := snd ((Log.debug "step";; Log.warning "careful";;
                  Log.terminate (Some "/srv/final")) (@Example.session ascii_builtins)) in
  FS.files (Log.fs (Log.world st)) !! "/srv/final/test_20240101000000.log"
  = FS.files (Log.fs (Log.world st)) !! Example.log_path
  /\ dom (FS.files (Log.fs (Log.world st)))
     = ({[ "/app/logs/test_20240101000000.log";
           "/srv/final/test_20240101000000.log" ]} : gset string)
  /\ PyStr.contains "= ELAPSED: 2m 5s 456ms 699μs"
       (default "" (FS.files (Log.fs (Log.world st)) !! Example.log_path)) = true
  /\ PyStr.contains "LOG: /srv/final/test_20240101000000.log"
       (default "" (FS.files (Log.fs (Log.world st)) !! Example.log_path)) = true.
Proof. cbv zeta. split_conj; vm_compute; reflexivity. Qed.

(** What [shutil.copy] makes of other final directories: a name that does
    not exist in an existing directory becomes a copy of the log file; the
    empty string, the [logs] directory itself, a missing directory
    written with a closing separator and a name in a missing directory
    make the copy fail, after the footer has announced the copy. *)
Example other_final_directories :
  fst (Log.terminate (Some "/srv/newdir") (@Example.session ascii_builtins)) = Ok tt
  /\ FS.isfile (Log.fs (Log.world (snd (Log.terminate (Some "/srv/newdir")
                                          (@Example.session ascii_builtins)))))
       "/srv/newdir" = true
  /\ fst (Log.terminate (Some "") (@Example.session ascii_builtins))
     = Raise (FileNotFoundError "")
  /\ fst (Log.terminate (Some "/app/logs") (@Example.session ascii_builtins))
     = Raise (SameFileError "/app/logs/test_20240101000000.log")
  /\ fst (Log.terminate (Some "/app/logs/") (@Example.session ascii_builtins))
     = Raise (SameFileError "/app/logs/test_20240101000000.log")
  /\ fst (Log.terminate (Some "/srv/newdir/") (@Example.session ascii_builtins))
     = Raise (FileNotFoundError "/srv/newdir/")
  /\ fst (Log.terminate (Some "/srv/missing/final") (@Example.session ascii_builtins))
     = Raise (FileNotFoundError "/srv/missing/final").
Proof. split_conj; vm_compute; reflexivity. Qed.

(** * Further properties of the package *)


Lemma emit_log_call (s : logging.Severity) (msg : string) :
  emit s msg = Log.log_call (logging.rank s) (method_name s) (method_line s) msg.
Proof. destruct s; reflexivity. Qed.

Lemma rank_enabled (s : logging.Severity) : 10 <= logging.rank s.
Proof. destruct s; cbn; lia. Qed.

(** A bound root logger at level DEBUG hands every record from DEBUG
    upwards to its handlers. *)
Lemma log_call_handlers (hs : list logging.Handler) (st : Log.State) (lvl : Z)
    (func : string) (line : Z) (msg : string) :
  Log._log (Log.self st) = Some tt ->
  Log.root (Log.world st) = logging.mkLogger 10 hs ->
  10 <= lvl ->
  Log.log_call lvl func line msg st
  = (Ok tt,
     Log.mkState (Log.self st)
       (Log.deliver
          (logging.callHandlers hs (Log.makeRecord (Log.env (Log.world st)) lvl func line msg))
          (Log.world st))).
Proof.
  intros Hlog Hroot Hlvl. destruct st as [s w]. cbn [Log.self Log.world] in *.
  unfold Log.log_call. run_monad. rewrite Hlog. run_monad.
  unfold logging.isEnabledFor. rewrite Hroot. run_monad.
  destruct (Z.leb_spec 10 lvl) as [_ | Habs]; [| lia].
  reflexivity.
Qed.

Lemma callHandlers_console (r : logging.LogRecord) :
  logging.callHandlers installed_console r = routed_console r.
Proof.
  unfold installed_console, routed_console, logging.callHandlers, logging.handle.
  unfold Log.handler_stderr_fyi, Log.handler_stderr_alert.
  cbn [logging.level logging.filters logging.formatter logging.stream
       logging.variable logging.run_filters logging.predicate].
  unfold Log.filter_fyi, Log.filter_alert.
  destruct (logging.levelno r <? 10) eqn:E10;
    destruct (logging.levelno r <? 30) eqn:E30;
    destruct (30 <=? logging.levelno r) eqn:E30';
    try (exfalso;
         first [apply Z.ltb_lt in E10 | apply Z.ltb_ge in E10];
         first [apply Z.ltb_lt in E30 | apply Z.ltb_ge in E30];
         first [apply Z.leb_le in E30' | apply Z.leb_gt in E30'];
         lia);
    repeat first
      [ rewrite E10 | rewrite E30 | rewrite E30'
      | rewrite format_stderr_fyi | rewrite format_stderr_alert
      | progress cbn iota beta ];
    unfold stderr_fyi_text, stderr_alert_text;
    rewrite ?append_assoc; reflexivity.
Qed.

Lemma routed_emitted (p : string) (e : Log.Env) (s : logging.Severity) (msg : string) :
  routed p (emitted_record e s msg)
  = if is_alert s then
      [logging.mkDelivery "handler_file_alert" (logging.FileStream p)
         (file_alert_text (glyph s) (emitted_record e s msg));
       logging.mkDelivery "handler_stderr_alert" logging.Stderr
         (stderr_alert_text (emitted_record e s msg))]
    else
      [logging.mkDelivery "handler_file_fyi" (logging.FileStream p)
         (file_fyi_text (glyph s) (emitted_record e s msg))].
Proof.
  unfold routed, emitted_record, Log.makeRecord.
  cbn [logging.levelno logging.levelname].
  rewrite glyph_flag_of. destruct s; reflexivity.
Qed.

Lemma routed_console_emitted (e : Log.Env) (s : logging.Severity) (msg : string) :
  routed_console (emitted_record e s msg)
  = [if is_alert s then
       logging.mkDelivery "handler_stderr_alert" logging.Stderr
         (stderr_alert_text (emitted_record e s msg))
     else
       logging.mkDelivery "handler_stderr_fyi" logging.Stderr
         (stderr_fyi_text (emitted_record e s msg))].
Proof.
  unfold routed_console, emitted_record, Log.makeRecord.
  cbn [logging.levelno]. destruct s; reflexivity.
Qed.

(** X1: in an active session each of the five methods [debug], [info],
    [warning], [error] and [critical] succeeds and leaves the session
    active and its object unchanged.  [debug] and [info] append one short
    rendering with their glyph to the log file and write nothing to the
    standard error stream; [warning], [error] and [critical] append one
    long rendering with their glyph to the log file and the same
    rendering without the glyph to the standard error stream. *)
Theorem emit_routing (src base p : string) (st : Log.State) (s : logging.Severity)
    (msg : string) :
  active src base p st ->
  let w := Log.world st in
  let r := emitted_record (Log.env w) s msg in
  exists st' : Log.State,
    emit s msg st = (Ok tt, st')
    /\ Log.self st' = Log.self st
    /\ Log.fs (Log.world st')
       = FS.append (Log.fs w) p
           (if is_alert s then file_alert_text (glyph s) r else file_fyi_text (glyph s) r)
    /\ Log.stderr (Log.world st')
       = (if is_alert s then Log.stderr w +:+ stderr_alert_text r else Log.stderr w)
    /\ active src base p st'.
Proof.
  intros Hactive w r. subst w r.
  pose proof Hactive as (Hlog & Hroot & Hrest).
  rewrite emit_log_call.
  rewrite (log_call_installed p st _ _ _ _ Hlog Hroot (rank_enabled s)).
  fold (emitted_record (Log.env (Log.world st)) s msg).
  rewrite routed_emitted.
  eexists. split; [reflexivity |]. cbn [Log.self Log.world].
  destruct (is_alert s); cbn [Log.deliver fold_left Log.write logging.to_stream logging.text
    Log.fs Log.stderr Log.root Log.env];
    (split; [reflexivity |]; split; [reflexivity |]; split; [reflexivity |]);
    unfold active; cbn [Log.self Log.world Log.root];
    (split; [exact Hlog |]; split; [exact Hroot | exact Hrest]).
Qed.

Lemma emit_routing_witness :
  exists st' : Log.State,
    emit logging.ERROR "boom" (@Example.session ascii_builtins) = (Ok tt, st')
    /\ Log.stderr (Log.world st')
       = Log.stderr (Log.world (@Example.session ascii_builtins))
         +:+ stderr_alert_text
               (emitted_record (Log.env (Log.world (@Example.session ascii_builtins)))
                  logging.ERROR "boom").
Proof.
  pose proof (emit_routing "/app" "test" Example.log_path
                (@Example.session ascii_builtins) logging.ERROR "boom"
                ltac:(run_example)) as H.
  cbv zeta in H. destruct H as [st' (Hrun & _ & _ & Herr & _)].
  exists st'. split; [exact Hrun | exact Herr].
Defined.

(** ** [setup] without a log file *)

Lemma setup_console (s : Log.t) (w : Log.World) :
  logging.handlers (Log.root w) = [] ->
  Log.setup None (Log.mkState s w)
  = (Ok tt,
     Log.mkState (Log.mk (Log._module_filepathname s) (Log._exec_info s) (Some tt))
       (Log.mkWorld (Log.env w) (Log.fs w) (Log.stderr w)
          (logging.mkLogger 10 installed_console))).
Proof.
  intros Hfresh.
  unfold Log.setup, Log.getLogger, Log.setLevel, Log.addHandler.
  run_monad. rewrite Hfresh. reflexivity.
Qed.

(** X2: [setup] without a log file, on a root logger that had no
    handlers, binds the logger, lowers its level to DEBUG, installs the
    two console handlers and leaves the file system alone.  From then on
    every record is written exactly once, to the standard error stream:
    in the short format below WARNING, without a glyph, and in the long
    format from WARNING upwards; each of the five methods succeeds, and
    none of them touches the file system. *)
Theorem setup_without_file (st : Log.State) :
  let w := Log.world st in
  logging.handlers (Log.root w) = [] ->
  exists st1 : Log.State,
    Log.setup None st = (Ok tt, st1)
    /\ Log._log (Log.self st1) = Some tt
    /\ Log.root (Log.world st1) = logging.mkLogger 10 installed_console
    /\ Log.fs (Log.world st1) = Log.fs w
    /\ Log.stderr (Log.world st1) = Log.stderr w
    /\ (forall r : logging.LogRecord,
          logging.callHandlers installed_console r
          = if logging.levelno r <? 10 then []
            else if logging.levelno r <? 30 then
              [logging.mkDelivery "handler_stderr_fyi" logging.Stderr
                 (short_body r +:+ PyStr.nl)]
            else
              [logging.mkDelivery "handler_stderr_alert" logging.Stderr
                 (PyStr.nl +:+ long_body r +:+ PyStr.nl)])
    /\ (forall (sev : logging.Severity) (msg : string),
          let r := emitted_record (Log.env w) sev msg in
          exists st2 : Log.State,
            emit sev msg st1 = (Ok tt, st2)
            /\ Log.fs (Log.world st2) = Log.fs w
            /\ Log.stderr (Log.world st2)
               = Log.stderr w
                 +:+ (if is_alert sev then stderr_alert_text r else stderr_fyi_text r)).
Proof.
  destruct st as [s w]. cbv zeta. cbn [Log.world].
  intros Hfresh. eexists. split; [apply (setup_console s w Hfresh) |].
  cbn [Log.self Log.world Log._log Log.root Log.fs Log.stderr].
  split; [reflexivity |]. split; [reflexivity |]. split; [reflexivity |].
  split; [reflexivity |]. split; [exact callHandlers_console |].
  intros sev msg. rewrite emit_log_call.
  rewrite (log_call_handlers installed_console);
    [| reflexivity | reflexivity | apply rank_enabled].
  cbn [Log.self Log.world Log.env].
  fold (emitted_record (Log.env w) sev msg).
  rewrite callHandlers_console, routed_console_emitted.
  eexists. split; [reflexivity |].
  destruct (is_alert sev); split; reflexivity.
Qed.

Lemma setup_without_file_witness :
  let st := Log.mkState (Log.mk "/app/test.py" (captured "/app/test.py" Example.env) None)
              Example.world in
  exists st1 st2 : Log.State,
    Log.setup None st = (Ok tt, st1)
    /\ emit logging.INFO "hello" st1 = (Ok tt, st2)
    /\ Log.fs (Log.world st2) = Log.fs Example.world
    /\ Log.stderr (Log.world st2)
       = "hello " +:+ PyStr.nl +:+ "2024-01-01 00:00:00 +0000 - root - INFO" +:+ PyStr.nl.
Proof.
  intros st.
  pose proof (setup_without_file st) as H. cbv zeta in H.
  destruct H as [st1 (Hsetup & _ & _ & _ & _ & _ & Hemit)]; [reflexivity |].
  destruct (Hemit logging.INFO "hello") as [st2 (Hrun & Hfs & Herr)].
  exists st1, st2. split; [exact Hsetup |]. split; [exact Hrun |].
  split; [exact Hfs |]. rewrite Herr. vm_compute. reflexivity.
Defined.

(** ** [setup] on a root logger that has handlers already *)

(** The root logger is one per process: [setup] adds its handlers behind
    those the logger has, and removes none. *)
Lemma setup_appends (p : string) (s : Log.t) (w : Log.World) (f1 : FS.t) :
  FS.open_append (Log.fs w) p = Ok f1 ->
  Log.setup (Some p) (Log.mkState s w)
  = (Ok tt,
     Log.mkState (Log.mk (Log._module_filepathname s) (Log._exec_info s) (Some tt))
       (Log.mkWorld (Log.env w) f1 (Log.stderr w)
          (logging.mkLogger 10 (logging.handlers (Log.root w) ++ installed p)%list))).
Proof.
  intros Hopen.
  unfold Log.setup, Log.getLogger, Log.setLevel, Log.open_FileHandler, Log.addHandler.
  run_monad. rewrite Hopen. run_monad.
  rewrite (open_append_again _ _ _ Hopen). run_monad.
  rewrite <- !app_assoc. reflexivity.
Qed.

Lemma routed_stamped (p flag : string) (r : logging.LogRecord) :
  routed p (logging.set_cntxt_flag flag r) = routed p r.
Proof. destruct r; reflexivity. Qed.

(** What each handler of a session does with a record. *)
Lemma handle_file_fyi (p : string) (r : logging.LogRecord) :
  logging.handle (Log.handler_file_fyi p) r
  = if (logging.levelno r <? 10) || negb (logging.levelno r <? 30) then (None, r)
    else (Some (logging.mkDelivery "handler_file_fyi" (logging.FileStream p)
                  (file_fyi_text (flag_of (logging.levelname r)) r)),
          logging.set_cntxt_flag (flag_of (logging.levelname r)) r).
Proof.
  unfold logging.handle, Log.handler_file_fyi.
  cbn [logging.level logging.filters logging.formatter logging.stream
       logging.variable logging.run_filters logging.predicate].
  unfold Log.filter_fyi.
  destruct (logging.levelno r <? 10); [reflexivity |].
  destruct (logging.levelno r <? 30); [| reflexivity].
  cbn [orb negb]. rewrite filter_add_cntxt_flag, format_file_fyi.
  unfold file_fyi_text. rewrite ?append_assoc. reflexivity.
Qed.

Lemma handle_file_alert (p : string) (r : logging.LogRecord) :
  logging.handle (Log.handler_file_alert p) r
  = if logging.levelno r <? 30 then (None, r)
    else (Some (logging.mkDelivery "handler_file_alert" (logging.FileStream p)
                  (file_alert_text (flag_of (logging.levelname r)) r)),
          logging.set_cntxt_flag (flag_of (logging.levelname r)) r).
Proof.
  unfold logging.handle, Log.handler_file_alert.
  cbn [logging.level logging.filters logging.formatter logging.stream
       logging.variable logging.run_filters logging.predicate].
  unfold Log.filter_alert.
  destruct (Z.ltb_spec (logging.levelno r) 30) as [Hlt | Hge]; [reflexivity |].
  destruct (Z.leb_spec 30 (logging.levelno r)) as [_ | Habs]; [| lia].
  rewrite filter_add_cntxt_flag, format_file_alert.
  unfold file_alert_text. rewrite ?append_assoc. reflexivity.
Qed.

Lemma handle_stderr_alert (r : logging.LogRecord) :
  logging.handle Log.handler_stderr_alert r
  = if logging.levelno r <? 30 then (None, r)
    else (Some (logging.mkDelivery "handler_stderr_alert" logging.Stderr
                  (stderr_alert_text r)), r).
Proof.
  unfold logging.handle, Log.handler_stderr_alert.
  cbn [logging.level logging.filters logging.formatter logging.stream
       logging.variable logging.run_filters logging.predicate].
  unfold Log.filter_alert.
  destruct (Z.ltb_spec (logging.levelno r) 30) as [Hlt | Hge]; [reflexivity |].
  destruct (Z.leb_spec 30 (logging.levelno r)) as [_ | Habs]; [| lia].
  rewrite format_stderr_alert. reflexivity.
Qed.

Lemma stderr_alert_text_stamped (flag : string) (r : logging.LogRecord) :
  stderr_alert_text (logging.set_cntxt_flag flag r) = stderr_alert_text r.
Proof. destruct r; reflexivity. Qed.

Lemma callHandlers_cons (h : logging.Handler) (hs : list logging.Handler)
    (r : logging.LogRecord) :
  logging.callHandlers (h :: hs) r
  = match logging.handle h r with
    | (Some d, r') => d :: logging.callHandlers hs r'
    | (None, r') => logging.callHandlers hs r'
    end.
Proof. cbn [logging.callHandlers]. destruct (logging.handle h r) as [[d |] r']; reflexivity. Qed.

(** The handlers of a session hand the record on as their filters left
    it: stamped with the glyph of its level name, unless no handler took
    it. *)
Lemma callHandlers_installed_then (q : string) (hs : list logging.Handler)
    (r : logging.LogRecord) :
  logging.callHandlers (installed q ++ hs)%list r
  = (routed q r
     ++ logging.callHandlers hs
          (if logging.levelno r <? 10 then r
           else logging.set_cntxt_flag (flag_of (logging.levelname r)) r))%list.
Proof.
  unfold installed, routed. cbn [app].
  rewrite callHandlers_cons, handle_file_fyi.
  destruct (Z.ltb_spec (logging.levelno r) 10) as [H10 | H10].
  - cbn [orb]. rewrite callHandlers_cons, handle_file_alert.
    destruct (Z.ltb_spec (logging.levelno r) 30) as [_ | H30]; [| lia].
    rewrite callHandlers_cons, handle_stderr_alert.
    destruct (Z.ltb_spec (logging.levelno r) 30) as [_ | H30]; [| lia].
    reflexivity.
  - destruct (Z.ltb_spec (logging.levelno r) 30) as [H30 | H30]; cbn [orb negb].
    + rewrite callHandlers_cons, handle_file_alert, set_cntxt_flag_levelno.
      destruct (Z.ltb_spec (logging.levelno r) 30) as [_ | Habs]; [| lia].
      rewrite callHandlers_cons, handle_stderr_alert, set_cntxt_flag_levelno.
      destruct (Z.ltb_spec (logging.levelno r) 30) as [_ | Habs]; [| lia].
      reflexivity.
    + rewrite callHandlers_cons, handle_file_alert.
      destruct (Z.ltb_spec (logging.levelno r) 30) as [Habs | _]; [lia |].
      rewrite callHandlers_cons, handle_stderr_alert, set_cntxt_flag_levelno.
      destruct (Z.ltb_spec (logging.levelno r) 30) as [Habs | _]; [lia |].
      rewrite stderr_alert_text_stamped. reflexivity.
Qed.

Lemma callHandlers_two_sessions (q p : string) (r : logging.LogRecord) :
  logging.callHandlers (installed q ++ installed p)%list r
  = (routed q r ++ routed p r)%list.
Proof.
  rewrite callHandlers_installed_then, callHandlers_installed.
  destruct (logging.levelno r <? 10); [reflexivity |].
  now rewrite routed_stamped.
Qed.

(** X3: the root logger is shared by the process, and [setup] only adds
    handlers.  Where the handlers of a session writing to [q] are
    installed already, as after a second [Log(...)] in the same process or
    a second [initialize()], [setup] with the log file [p] leaves six
    handlers, and every record is delivered by both sets in turn: a
    WARNING is appended to both log files, or twice to the same file when
    [q] is [p], and is written twice to the standard error stream. *)
Theorem setup_adds_to_earlier_handlers (q p : string) (st : Log.State) (f1 : FS.t) :
  let w := Log.world st in
  logging.handlers (Log.root w) = installed q ->
  FS.open_append (Log.fs w) p = Ok f1 ->
  exists st1 : Log.State,
    Log.setup (Some p) st = (Ok tt, st1)
    /\ logging.handlers (Log.root (Log.world st1)) = (installed q ++ installed p)%list
    /\ (forall r : logging.LogRecord,
          logging.callHandlers (logging.handlers (Log.root (Log.world st1))) r
          = (routed q r ++ routed p r)%list)
    /\ (forall msg : string,
          let r := warning_record (Log.env w) msg in
          exists st2 : Log.State,
            Log.warning msg st1 = (Ok tt, st2)
            /\ Log.fs (Log.world st2)
               = FS.append (FS.append f1 q (file_alert_text (glyph logging.WARNING) r))
                   p (file_alert_text (glyph logging.WARNING) r)
            /\ Log.stderr (Log.world st2)
               = Log.stderr w +:+ stderr_alert_text r +:+ stderr_alert_text r).
Proof.
  destruct st as [s w]. cbv zeta. cbn [Log.world].
  intros Hearlier Hopen. eexists. split; [apply (setup_appends p s w f1 Hopen) |].
  cbn [Log.self Log.world Log.root logging.handlers]. rewrite Hearlier.
  split; [reflexivity |]. split; [exact (callHandlers_two_sessions q p) |].
  intros msg. unfold Log.warning.
  rewrite (log_call_handlers (installed q ++ installed p)%list);
    [| reflexivity | reflexivity | lia].
  cbn [Log.self Log.world Log.env].
  rewrite callHandlers_two_sessions.
  eexists. split; [reflexivity |].
  cbn [Log.world Log.fs Log.stderr]. rewrite <- append_assoc.
  split; reflexivity.
Qed.

Lemma setup_adds_to_earlier_handlers_witness :
  exists st1 st2 : Log.State,
    Log.setup (Some Example.log_path) (@Example.session ascii_builtins) = (Ok tt, st1)
    /\ Log.warning "twice" st1 = (Ok tt, st2)
    /\ Log.stderr (Log.world st2)
       = stderr_alert_text (warning_record
                              (Log.env (Log.world (@Example.session ascii_builtins)))
                              "twice")
         +:+ stderr_alert_text (warning_record
                                  (Log.env (Log.world (@Example.session ascii_builtins)))
                                  "twice").
Proof.
  pose proof (setup_adds_to_earlier_handlers Example.log_path Example.log_path
                (@Example.session ascii_builtins)
                (Log.fs (Log.world (@Example.session ascii_builtins)))) as H.
  cbv zeta in H.
  destruct H as [st1 (Hsetup & _ & _ & Hwarn)];
    [vm_compute; reflexivity | vm_compute; reflexivity |].
  destruct (Hwarn "twice") as [st2 (Hrun & _ & Herr)].
  exists st1, st2. split; [exact Hsetup |]. split; [exact Hrun | exact Herr].
Defined.

(** ** Records of any logger *)

Lemma startswith_skip (a t s : string) :
  PyStr.startswith t s = true -> PyStr.startswith (a +:+ t) (a +:+ s) = true.
Proof.
  intros H. induction a as [|x a IH]; [exact H |].
  rewrite !append_cons. cbn [PyStr.startswith]. now rewrite Ascii.eqb_refl, IH.
Qed.

(** X4: the handlers of a session treat a record of any logger, at any
    level and under any level name, by two rules.  The level number alone
    decides the route: nothing below DEBUG; the log file, by its FYI
    handler, from DEBUG up to WARNING; the log file, by its ALERT handler,
    and the standard error stream from WARNING upwards.  The level name
    alone decides the glyph that opens the rendering in the log file,
    before the message; a name other than the five standard ones, as of a
    custom level, gets the empty glyph, and the rendering on the standard
    error stream opens with the message.  A flag that the record carries
    already is overwritten. *)
Theorem records_are_routed_by_level (p : string) (r : logging.LogRecord) :
  let flag := flag_of (logging.levelname r) in
  let written := logging.callHandlers (installed p) r in
  let opening := logging.message r +:+ " " +:+ PyStr.nl in
  (logging.levelno r < 10 -> written = [])
  /\ (10 <= logging.levelno r < 30 ->
      exists text : string,
        written = [logging.mkDelivery "handler_file_fyi" (logging.FileStream p) text]
        /\ PyStr.startswith (PyStr.nl +:+ flag +:+ " " +:+ opening) text = true)
  /\ (30 <= logging.levelno r ->
      exists text console : string,
        written = [logging.mkDelivery "handler_file_alert" (logging.FileStream p) text;
                   logging.mkDelivery "handler_stderr_alert" logging.Stderr console]
        /\ PyStr.startswith (PyStr.nl +:+ flag +:+ " " +:+ opening) text = true
        /\ PyStr.startswith (PyStr.nl +:+ opening) console = true)
  /\ (~ In (logging.levelname r) ["DEBUG"; "INFO"; "WARNING"; "ERROR"; "CRITICAL"] ->
      flag = "")
  /\ (forall earlier : string,
        logging.callHandlers (installed p) (logging.set_cntxt_flag earlier r)
        = logging.callHandlers (installed p) r).
Proof.
  cbv zeta. rewrite callHandlers_installed. unfold routed.
  split; [| split; [| split; [| split]]].
  - intros H. apply Z.ltb_lt in H. now rewrite H.
  - intros [H1 H2]. apply Z.ltb_ge in H1. apply Z.ltb_lt in H2. rewrite H1, H2.
    eexists. split; [reflexivity |].
    unfold file_fyi_text, short_body. rewrite !append_assoc.
    do 5 apply startswith_skip. apply startswith_app.
  - intros H.
    assert (H1 : (logging.levelno r <? 10) = false) by (apply Z.ltb_ge; lia).
    assert (H2 : (logging.levelno r <? 30) = false) by (apply Z.ltb_ge; lia).
    rewrite H1, H2. eexists. eexists. split; [reflexivity |].
    unfold file_alert_text, stderr_alert_text, long_body, short_body.
    rewrite !append_assoc. split.
    + do 5 apply startswith_skip. apply startswith_app.
    + do 3 apply startswith_skip. apply startswith_app.
  - intros Hname. unfold flag_of.
    repeat match goal with
           | |- context [String.eqb ?a ?b] =>
               destruct (String.eqb_spec a b) as [Heq | _];
               [exfalso; apply Hname; rewrite Heq; cbn; tauto |]
           end.
    reflexivity.
  - intros earlier. rewrite callHandlers_installed. apply routed_stamped.
Qed.

Lemma records_are_routed_by_level_witness :
  let r := logging.mkRecord "lib.util" 25 (logging.getLevelName 25) "note"
             "2024-01-01 00:00:00 +0000" "MainThread" "MainProcess"
             "/app/lib/util.py" "util" "run" 7 None in
  (exists text : string,
     logging.callHandlers (installed "/app/logs/x.log") r
     = [logging.mkDelivery "handler_file_fyi" (logging.FileStream "/app/logs/x.log") text]
     /\ PyStr.startswith (PyStr.nl +:+ " note " +:+ PyStr.nl) text = true)
  /\ flag_of (logging.levelname r) = "".
Proof.
  intros r.
  pose proof (records_are_routed_by_level "/app/logs/x.log" r) as H.
  cbv zeta in H. destruct H as (_ & Hfyi & _ & Hflag & _).
  split.
  - destruct Hfyi as [text [Hwritten Hstarts]]; [cbn; lia |].
    exists text. split; [exact Hwritten | exact Hstarts].
  - apply Hflag. cbn. intros [H | [H | [H | [H | [H | []]]]]]; discriminate.
Defined.

(** ** The module file and the ROOT line of the header *)

Section ModulePath.

(** Appending on the left is injective. *)
Lemma append_inv_l (a b c : string) : a +:+ b = a +:+ c -> b = c.
Proof.
  induction a as [|x a IH]; [now rewrite !append_nil_l |].
  rewrite !append_cons. intros [= H]. now apply IH.
Qed.

Lemma rstrip_char_id (c : ascii) (a : string) :
  PyStr.endswith_char c a = false -> PyStr.rstrip_char c a = a.
Proof.
  induction a as [|x a IH]; [reflexivity |].
  destruct a as [|y a].
  - cbn [PyStr.endswith_char PyStr.rstrip_char]. now intros ->.
  - rewrite endswith_char_cons. intros H. cbn [PyStr.rstrip_char] in *.
    rewrite (IH H). reflexivity.
Qed.

Lemma substring_prefix (a b : string) :
  String.substring 0 (String.length a) (a +:+ b) = a.
Proof.
  induction a as [|x a IH].
  - rewrite append_nil_l. destruct b; reflexivity.
  - rewrite append_cons. cbn [String.length String.substring]. now rewrite IH.
Qed.

Lemma all_char_endswith (c : ascii) (s : string) :
  PyStr.all_char c s = true -> s <> "" -> PyStr.endswith_char c s = true.
Proof.
  induction s as [|x s IH]; [contradiction |].
  cbn [PyStr.all_char]. intros [Hx Hs]%andb_true_iff _.
  destruct s as [|y s]; [exact Hx |].
  rewrite endswith_char_cons. now apply IH.
Qed.

(** A path splits behind a head that ends with the separator, where the
    rest holds none. *)
Lemma rsplit_char_head (c : ascii) (h t : string) :
  PyStr.endswith_char c h = true ->
  has_char c t = false ->
  PyStr.rsplit_char c (h +:+ t) = Some (h, t).
Proof.
  intros Hh Ht. induction h as [|x h IH]; [discriminate |].
  rewrite append_cons. cbn [PyStr.rsplit_char]. destruct h as [|y h].
  - rewrite append_nil_l, (rsplit_char_none c t Ht).
    cbn [PyStr.endswith_char] in Hh. now rewrite Hh.
  - rewrite endswith_char_cons in Hh. now rewrite (IH Hh).
Qed.

(** What [join] puts in front of a relative second part. *)
Lemma join_relative (a b : string) :
  PyStr.startswith "/" b = false ->
  posixpath.join a b
  = (if PyStr.is_empty a || PyStr.endswith_char posixpath.sep a then a else a +:+ "/")
    +:+ b.
Proof.
  intros Hb. unfold posixpath.join, posixpath.sep_str. rewrite Hb.
  destruct (PyStr.is_empty a || PyStr.endswith_char posixpath.sep a);
    [reflexivity | now rewrite append_assoc].
Qed.

Variables (dir stem ext : string).
Hypothesis Hdir : PyStr.all_char posixpath.sep dir = true
                  \/ PyStr.endswith_char posixpath.sep dir = false.
Hypothesis Hstem : has_char posixpath.sep stem = false.
Hypothesis Hdots : posixpath.has_non_dot stem = true.
Hypothesis Hext : has_char posixpath.sep ext = false.
Hypothesis Hext_dot : has_char "."%char ext = false.

Local Abbreviation name := (stem +:+ "." +:+ ext).
Local Abbreviation path := (posixpath.join dir (stem +:+ "." +:+ ext)).

Lemma name_no_sep : has_char posixpath.sep name = false.
Proof using Hstem Hext. now rewrite !has_char_app, Hstem, Hext. Qed.

Lemma splitext_root_name : posixpath.splitext_root name = stem.
Proof using Hstem Hdots Hext Hext_dot.
  unfold posixpath.splitext_root, posixpath.split_at_last_sep.
  rewrite (rsplit_char_none _ _ name_no_sep).
  change (stem +:+ "." +:+ ext) with (stem +:+ String "."%char ext).
  rewrite (rsplit_char_last "."%char stem ext Hext_dot).
  rewrite append_length. cbn [String.length].
  replace (String.length stem + 1 - 1)%nat with (String.length stem) by lia.
  rewrite substring_prefix, Hdots. apply append_nil_l.
Qed.

Lemma split_path :
  posixpath.split_at_last_sep path
  = (if PyStr.is_empty dir || PyStr.endswith_char posixpath.sep dir then dir
     else dir +:+ "/", name).
Proof using Hstem Hext.
  clear Hdir.
  rewrite (join_relative dir name (has_char_startswith _ name_no_sep)).
  unfold posixpath.split_at_last_sep.
  destruct (PyStr.is_empty dir) eqn:Hemp; cbn [orb].
  - apply is_empty_true in Hemp. rewrite Hemp, append_nil_l.
    now rewrite (rsplit_char_none _ _ name_no_sep).
  - destruct (PyStr.endswith_char posixpath.sep dir) eqn:Hend.
    + now rewrite (rsplit_char_head _ _ _ Hend name_no_sep).
    + rewrite (rsplit_char_head _ (dir +:+ "/") name); [reflexivity | | exact name_no_sep].
      now rewrite (endswith_char_app _ "/"%char dir "").
Qed.

Lemma basename_path : posixpath.basename path = name.
Proof using Hstem Hext. unfold posixpath.basename. now rewrite split_path. Qed.

Lemma dirname_path :
  posixpath.dirname path = dir.
Proof using Hdir Hstem Hext.
  unfold posixpath.dirname. rewrite split_path. cbn [fst].
  destruct (PyStr.is_empty dir) eqn:Hemp; cbn [orb].
  - rewrite Hemp. reflexivity.
  - assert (Hne : dir <> "") by (intros E; rewrite E in Hemp; discriminate).
    destruct Hdir as [Hall | Hend].
    + rewrite (all_char_endswith _ _ Hall Hne). now rewrite Hemp, Hall.
    + rewrite Hend. rewrite is_empty_app_cons, all_char_app.
      assert (Hnot : PyStr.all_char posixpath.sep dir = false).
      { destruct (PyStr.all_char posixpath.sep dir) eqn:Hall; [| reflexivity].
        rewrite (all_char_endswith _ _ Hall Hne) in Hend. discriminate. }
      rewrite Hnot. cbn [andb negb].
      change "/" with (String posixpath.sep ""). rewrite rstrip_char_drop.
      now apply rstrip_char_id.
Qed.

End ModulePath.

(** X5: the ROOT line of the header is rebuilt from the directory and the
    base name that [set_info] keeps of the module file, with the extension
    [py] put back.  For a module file [join(dir, stem.ext)], where [dir]
    has no closing separator or consists of separators only, where [stem]
    holds a character other than the dot, and where neither [stem] nor
    [ext] holds a separator nor [ext] a dot, [_get_module_filepathname]
    gives [join(dir, stem.py)]: the path of the module file when its
    extension is [py], and the path of another file for any other
    extension. *)
Theorem module_path_round_trip (dir stem ext : string) (argv : list string)
    (e : _ExecInfo.t) :
  PyStr.all_char posixpath.sep dir = true
  \/ PyStr.endswith_char posixpath.sep dir = false ->
  has_char posixpath.sep stem = false ->
  posixpath.has_non_dot stem = true ->
  has_char posixpath.sep ext = false ->
  has_char "."%char ext = false ->
  let path := posixpath.join dir (stem +:+ "." +:+ ext) in
  let shown := posixpath.join dir (stem +:+ ".py") in
  _ExecInfo._get_module_filepathname (_ExecInfo.set_info path argv e) = Ok shown
  /\ _ExecInfo._module_basename (_ExecInfo.set_info path argv e) = Some stem
  /\ _ExecInfo.initial (_ExecInfo.set_info path argv e) = Some dir
  /\ (shown = path <-> ext = "py").
Proof.
  intros Hdir Hstem Hdots Hext Hext_dot. cbv zeta.
  unfold _ExecInfo._get_module_filepathname, _ExecInfo.set_info, _ExecInfo.initial.
  cbn [_ExecInfo._module_basename _ExecInfo._directories _Directories.initial
       of_option mbind result_bind].
  rewrite (basename_path dir stem ext Hstem Hext),
    (dirname_path dir stem ext Hdir Hstem Hext),
    (splitext_root_name stem ext Hstem Hdots Hext Hext_dot).
  split; [reflexivity |]. split; [reflexivity |]. split; [reflexivity |].
  assert (Hrel : forall x : string,
             PyStr.startswith "/" (stem +:+ "." +:+ x) = false).
  { intros x. destruct stem as [|a s]; [discriminate |].
    rewrite append_cons. cbn [has_char] in Hstem.
    apply orb_false_iff in Hstem as [Ha _].
    cbn [PyStr.startswith]. unfold posixpath.sep in Ha.
    now rewrite (Ascii.eqb_sym "/"%char a), Ha. }
  change (stem +:+ ".py") with (stem +:+ "." +:+ "py").
  rewrite !join_relative by apply Hrel.
  split.
  - intros H. apply append_inv_l in H. apply append_inv_l in H.
    apply append_inv_l in H. now symmetry.
  - now intros ->.
Qed.

Lemma module_path_round_trip_witness :
  _ExecInfo._get_module_filepathname
    (_ExecInfo.set_info "/app/test.py" ["test.py"]
       (_ExecInfo.new "alice" "Linux" "3.12.0" (datetime.mk 2024 1 1 0 0 0 0)))
  = Ok "/app/test.py"
  /\ _ExecInfo._get_module_filepathname
       (_ExecInfo.set_info "tools/run.pyw" ["run.pyw"]
          (_ExecInfo.new "alice" "Linux" "3.12.0" (datetime.mk 2024 1 1 0 0 0 0)))
     = Ok "tools/run.py".
Proof.
  split.
  - exact (proj1 (module_path_round_trip "/app" "test" "py" ["test.py"]
                    (_ExecInfo.new "alice" "Linux" "3.12.0" (datetime.mk 2024 1 1 0 0 0 0))
                    (or_intror eq_refl) eq_refl eq_refl eq_refl eq_refl)).
  - exact (proj1 (module_path_round_trip "tools" "run" "pyw" ["run.pyw"]
                    (_ExecInfo.new "alice" "Linux" "3.12.0" (datetime.mk 2024 1 1 0 0 0 0))
                    (or_intror eq_refl) eq_refl eq_refl eq_refl eq_refl)).
Defined.

(** ** The time stamp in the name of the log file *)

(** Two strings that start with parts of the same length agree part by
    part. *)
Lemma append_inj_length (a a' b b' : string) :
  String.length a = String.length a' ->
  a +:+ b = a' +:+ b' ->
  a = a' /\ b = b'.
Proof.
  revert a'. induction a as [|x a IH]; intros [|x' a'] Hlen H;
    try discriminate.
  - now rewrite !append_nil_l in H.
  - rewrite !append_cons in H. injection H as -> H.
    cbn [String.length] in Hlen. injection Hlen as Hlen.
    destruct (IH a' Hlen H) as [-> ->]. now split.
Qed.

Lemma append_inj_length_r (a a' b b' : string) :
  String.length b = String.length b' ->
  a +:+ b = a' +:+ b' ->
  a = a' /\ b = b'.
Proof.
  intros Hlen H. apply append_inj_length; [| exact H].
  apply (f_equal String.length) in H. rewrite !append_length in H. lia.
Qed.

Lemma uint_of_string_zeros (k : nat) (s : string) (d : Decimal.uint) :
  NilEmpty.uint_of_string s = Some d ->
  NilEmpty.uint_of_string (PyStr.repeat_char "0" k +:+ s)
  = Some (Nat.iter k Decimal.D0 d).
Proof.
  intros Hs. induction k as [|k IH]; [exact Hs |].
  cbn [PyStr.repeat_char]. rewrite append_cons. cbn [NilEmpty.uint_of_string].
  rewrite IH. reflexivity.
Qed.

Lemma of_uint_zeros (k : nat) (d : Decimal.uint) :
  Z.of_uint (Nat.iter k Decimal.D0 d) = Z.of_uint d.
Proof. induction k as [|k IH]; [reflexivity | exact IH]. Qed.

(** A number padded with zeros reads back as the number. *)
Lemma zero_pad_reads_back (w : nat) (n : Z) :
  0 <= n ->
  exists u : Decimal.uint,
    NilEmpty.uint_of_string (PyStr.zero_pad w n) = Some u /\ Z.of_uint u = n.
Proof.
  intros Hn. unfold PyStr.zero_pad, PyStr.of_Z.
  pose proof (DecimalZ.of_to n) as Hback.
  destruct (Z.to_int n) as [u | u] eqn:Hu.
  - exists (Nat.iter (w - String.length (NilZero.string_of_int (Decimal.Pos u))) Decimal.D0
              match u with Decimal.Nil => Decimal.zero | _ => u end).
    split.
    + apply uint_of_string_zeros. cbn [NilZero.string_of_int].
      destruct u; try reflexivity; apply NilEmpty.usu.
    + rewrite of_uint_zeros. destruct u; exact Hback.
  - destruct n; cbn in Hu; try discriminate. lia.
Qed.

(** So padding with zeros is injective. *)
Lemma zero_pad_inj (w : nat) (a b : Z) :
  0 <= a -> 0 <= b -> PyStr.zero_pad w a = PyStr.zero_pad w b -> a = b.
Proof.
  intros Ha Hb Heq.
  destruct (zero_pad_reads_back w a Ha) as [u [Hu <-]].
  destruct (zero_pad_reads_back w b Hb) as [v [Hv <-]].
  rewrite Heq in Hu. congruence.
Qed.

Lemma strftime_inj (t1 t2 : datetime.t) :
  calendar t1 -> calendar t2 ->
  datetime.strftime_YmdHMS t1 = datetime.strftime_YmdHMS t2 ->
  same_second t1 t2.
Proof.
  intros (Hy1 & Hm1 & Hd1 & HH1 & HM1 & HS1) (Hy2 & Hm2 & Hd2 & HH2 & HM2 & HS2).
  unfold datetime.strftime_YmdHMS, same_second.
  assert (L2 : forallb (fun k => Nat.eqb (String.length (PyStr.zero_pad 2 (Z.of_nat k))) 2)
                 (seq 0 100) = true) by (vm_compute; reflexivity).
  intros H.
  apply append_inj_length_r in H as [Hy H];
    [| rewrite !append_length, !(zero_pad_length 2 100 _ L2) by lia; reflexivity].
  apply append_inj_length in H as [Hm H];
    [| rewrite !(zero_pad_length 2 100 _ L2) by lia; reflexivity].
  apply append_inj_length in H as [Hd H];
    [| rewrite !(zero_pad_length 2 100 _ L2) by lia; reflexivity].
  apply append_inj_length in H as [HH H];
    [| rewrite !(zero_pad_length 2 100 _ L2) by lia; reflexivity].
  apply append_inj_length in H as [HM HS];
    [| rewrite !(zero_pad_length 2 100 _ L2) by lia; reflexivity].
  split; [apply (zero_pad_inj 4); [lia | lia | exact Hy] |].
  split; [apply (zero_pad_inj 2); [lia | lia | exact Hm] |].
  split; [apply (zero_pad_inj 2); [lia | lia | exact Hd] |].
  split; [apply (zero_pad_inj 2); [lia | lia | exact HH] |].
  split; [apply (zero_pad_inj 2); [lia | lia | exact HM] |].
  apply (zero_pad_inj 2); [lia | lia | exact HS].
Qed.

(** X6: the name of the log file carries the start time to the second.
    Two sessions of the same module file, started at dates of the calendar
    with a year of four digits, resolve the same log path exactly when
    they start in the same second; the microseconds of the start are not
    in the name.  Two such runs share one log file, which each opens for
    appending. *)
Theorem log_path_same_second (path : string) (e1 e2 : Log.Env) :
  calendar (Log.now e1) ->
  calendar (Log.now e2) ->
  (_ExecInfo._get_filepathname (captured path e1)
   = _ExecInfo._get_filepathname (captured path e2)
   <-> same_second (Log.now e1) (Log.now e2)).
Proof.
  intros Hc1 Hc2. rewrite !captured_filepathname. unfold session_log_path.
  pose proof (has_char_module_basename path) as Hbase.
  rewrite !(log_path_shape _ _ _ Hbase). unfold log_file_name.
  split.
  - intros [= H]. do 4 apply append_inv_l in H. apply append_inv_r in H.
    now apply strftime_inj.
  - intros (Hy & Hm & Hd & HH & HM & HS). unfold datetime.strftime_YmdHMS.
    now rewrite Hy, Hm, Hd, HH, HM, HS.
Qed.

Lemma log_path_same_second_witness :
  let e (us : Z) := Log.mkEnv (datetime.mk 2024 2 29 13 5 9 us) "2024-02-29 13:05:09 +0000"
                      "MainThread" "MainProcess" "/app/lib/classes/log/__init__.py"
                      "alice" "Linux" "3.12.0" ["test.py"] in
  _ExecInfo._get_filepathname (captured "/app/test.py" (e 1))
  = _ExecInfo._get_filepathname (captured "/app/test.py" (e 999999)).
Proof.
  intros e.
  apply (proj2 (log_path_same_second "/app/test.py" (e 1) (e 999999)
                  ltac:(cbv; intuition discriminate) ltac:(cbv; intuition discriminate))).
  repeat split.
Defined.

(** ** What [terminate] keeps *)

Lemma world_kept_refl (w : Log.World) : world_kept w w.
Proof. repeat split. auto. Qed.

Lemma world_kept_trans (w1 w2 w3 : Log.World) :
  world_kept w1 w2 -> world_kept w2 w3 -> world_kept w1 w3.
Proof.
  intros (He1 & Hr1 & Hd1 & Ho1 & Hf1) (He2 & Hr2 & Hd2 & Ho2 & Hf2).
  repeat split; try congruence. auto.
Qed.

Lemma write_kept (d : logging.Delivery) (w : Log.World) : world_kept w (Log.write d w).
Proof.
  unfold Log.write. destruct (logging.to_stream d) as [| p]; [repeat split; auto |].
  repeat split. cbn [Log.fs FS.append FS.files]. intros q Hq.
  destruct (decide (p = q)) as [<- | Hne].
  - rewrite lookup_insert_eq. eauto.
  - now rewrite lookup_insert_ne.
Qed.

Lemma deliver_kept (ds : list logging.Delivery) (w : Log.World) :
  world_kept w (Log.deliver ds w).
Proof.
  revert w. induction ds as [|d ds IH]; intros w; [apply world_kept_refl |].
  cbn [Log.deliver fold_left]. eapply world_kept_trans; [apply write_kept | apply IH].
Qed.

(** A call to the root logger changes nothing of the session object, and
    of the process only what its handlers write. *)
Lemma log_call_kept (lvl : Z) (func : string) (line : Z) (msg : string)
    (st : Log.State) :
  Log.self (snd (Log.log_call lvl func line msg st)) = Log.self st
  /\ world_kept (Log.world st) (Log.world (snd (Log.log_call lvl func line msg st))).
Proof.
  destruct st as [s w]. unfold Log.log_call. run_monad.
  destruct (Log._log s); run_monad; [| split; [reflexivity | apply world_kept_refl]].
  destruct (logging.isEnabledFor (Log.root w) lvl); cbn [snd Log.self Log.world];
    (split; [reflexivity |]); [apply deliver_kept | apply world_kept_refl].
Qed.

Lemma copy_kept (fs f' : FS.t) (src d dst : string) :
  FS.copy fs src d = Ok (dst, f') ->
  FS.dirs f' = FS.dirs fs /\ FS.readonly f' = FS.readonly fs
  /\ forall q : string, is_Some (FS.files fs !! q) -> is_Some (FS.files f' !! q).
Proof.
  unfold FS.copy.
  destruct (FS.isfile fs src && bool_decide (src = _)); [discriminate |].
  destruct (FS.files fs !! src) as [content |]; [| destruct (FS.isdir fs src); discriminate].
  destruct (FS.isdir fs _); [discriminate |].
  destruct (PyStr.endswith_char posixpath.sep _);
    [destruct (negb (FS.isdir fs (FS.parent _)) && FS.isfile fs (FS.parent _));
     discriminate |].
  assert (Hins : forall t : string,
             forall q : string, is_Some (FS.files fs !! q) ->
               is_Some (<[ t := content ]> (FS.files fs) !! q)).
  { intros t q Hq. destruct (decide (t = q)) as [<- | Hne].
    - rewrite lookup_insert_eq. eauto.
    - now rewrite lookup_insert_ne. }
  destruct (FS.isfile fs _).
  - intros [= <- <-]. repeat split. apply Hins.
  - destruct (FS.check_create fs _); [| discriminate].
    intros [= <- <-]. repeat split. apply Hins.
Qed.

Lemma shutil_copy_kept (src d : string) (st : Log.State) :
  Log.self (snd (Log.shutil_copy src d st)) = Log.self st
  /\ world_kept (Log.world st) (Log.world (snd (Log.shutil_copy src d st))).
Proof.
  destruct st as [s w]. unfold Log.shutil_copy. run_monad.
  destruct (FS.copy (Log.fs w) src d) as [[dst f'] |] eqn:Hcopy; run_monad;
    cbn [snd Log.self Log.world]; (split; [reflexivity |]); [| apply world_kept_refl].
  destruct (copy_kept _ _ _ _ _ Hcopy) as (Hd & Ho & Hf).
  repeat split; assumption.
Qed.

(** X7: whatever the state of the session and whatever the outcome,
    success or exception, [terminate] changes of the run metadata only the
    end time and the final directory; it leaves the root logger bound, its
    level and its handlers as they were, so the log file stays open for
    the handlers; it makes and removes no directory and removes no file:
    the log file is not moved. *)
Theorem terminate_keeps (d : option string) (st : Log.State) :
  let st' := snd (Log.terminate d st) in
  same_run (Log._exec_info (Log.self st)) (Log._exec_info (Log.self st'))
  /\ Log._module_filepathname (Log.self st') = Log._module_filepathname (Log.self st)
  /\ Log._log (Log.self st') = Log._log (Log.self st)
  /\ world_kept (Log.world st) (Log.world st').
Proof.
  cbv zeta.
  assert (Hrun : forall e t o,
             same_run e (_ExecInfo.set_final o (_ExecInfo.set_end t e))).
  { intros e t o. repeat split. }
  assert (Hrun' : forall e t, same_run e (_ExecInfo.set_end t e)).
  { intros e t. repeat split. }
  destruct st as [s w]. unfold Log.terminate. run_monad.
  destruct (_ExecInfo._get_filepathname _) as [p |]; run_monad;
    [| cbn [snd Log.self Log.world Log._exec_info Log._module_filepathname Log._log];
       split; [apply Hrun' |]; split; [reflexivity |]; split; [reflexivity |];
       apply world_kept_refl].
  destruct (Log._get_footer _) as [footer |]; run_monad;
    [| cbn [snd Log.self Log.world Log._exec_info Log._module_filepathname Log._log];
       split; [apply Hrun |]; split; [reflexivity |]; split; [reflexivity |];
       apply world_kept_refl].
  match goal with
  | |- context [Log.info footer ?st2] =>
      pose proof (log_call_kept 20 "info" 161 footer st2) as [Hself Hworld];
      fold (Log.info footer) in Hself, Hworld;
      destruct (Log.info footer st2) as [[[] | x] st3]
  end; cbn [snd Log.self Log.world] in Hself, Hworld.
  - destruct d as [dir |].
    + pose proof (shutil_copy_kept p dir st3) as [Hself' Hworld'].
      rewrite Hself', Hself. cbn [Log._exec_info Log._module_filepathname Log._log].
      split; [apply Hrun |]. split; [reflexivity |]. split; [reflexivity |].
      eapply world_kept_trans; eassumption.
    + cbn [snd mret Log.M_ret]. rewrite Hself.
      cbn [Log._exec_info Log._module_filepathname Log._log].
      split; [apply Hrun |]. split; [reflexivity |]. split; [reflexivity | exact Hworld].
  - cbn [snd]. rewrite Hself. cbn [Log._exec_info Log._module_filepathname Log._log].
    split; [apply Hrun |]. split; [reflexivity |]. split; [reflexivity | exact Hworld].
Qed.

(** ** Final directories that are not another directory *)

Section AppendFacts.

Variables (fs : FS.t) (p text : string).

Lemma isfile_append_same : FS.isfile (FS.append fs p text) p = true.
Proof.
  unfold FS.isfile. apply bool_decide_eq_true. rewrite append_files_same. eauto.
Qed.

Lemma isfile_append_other (q : string) :
  q <> p -> FS.isfile (FS.append fs p text) q = FS.isfile fs q.
Proof. intros Hq. unfold FS.isfile. now rewrite append_files_other. Qed.


End AppendFacts.

Section FinalDirectory.

Variables (src base p : string) (st : Log.State).
Hypothesis Hactive : active src base p st.

Local Abbreviation start :=
  (_Timestamps.start (_ExecInfo._timestamps (Log._exec_info (Log.self st)))).
Local Abbreviation file := (log_file_name base start).

Lemma active_file_no_sep : has_char posixpath.sep file = false.
Proof.
  destruct Hactive as (_ & _ & _ & _ & _ & Hbase & _).
  now apply has_char_log_file_name.
Qed.

Lemma active_log_path : p = logs_dir src +:+ "/" +:+ file.
Proof.
  destruct Hactive as (_ & _ & _ & _ & _ & Hbase & ->).
  now apply log_path_shape.
Qed.

Lemma active_log_path_nonempty : p <> "".
Proof.
  rewrite active_log_path. pose proof (logs_dir_nonempty src) as H.
  destruct (logs_dir src); [contradiction | discriminate].
Qed.

(** The final directories under which the footer names the log file
    itself: the [logs] directory, written with or without a closing
    separator. *)
Lemma reported_is_log_path (d : string) :
  p = posixpath.join d file <-> d = logs_dir src \/ d = logs_dir src +:+ "/".
Proof.
  pose proof active_file_no_sep as Hfile.
  rewrite active_log_path.
  rewrite (join_relative d file (has_char_startswith _ Hfile)). split.
  - destruct (PyStr.is_empty d || PyStr.endswith_char posixpath.sep d).
    + intros H. right. rewrite <- append_assoc in H.
      symmetry. exact (append_inv_r _ _ _ H).
    + intros H. left. rewrite <- !append_assoc in H. symmetry.
      apply append_inv_r in H. exact (append_inv_r _ _ _ H).
  - intros [-> | ->].
    + pose proof (logs_dir_nonempty src) as Hne. apply is_empty_false in Hne.
      rewrite Hne, logs_dir_endswith. cbn [orb]. now rewrite append_assoc.
    + rewrite (endswith_char_app _ "/"%char (logs_dir src) ""), orb_true_r.
      now rewrite append_assoc.
Qed.

Lemma isdir_logs_variants (fs : FS.t) (d : string) :
  d = logs_dir src \/ d = logs_dir src +:+ "/" ->
  FS.isdir fs d = FS.isdir fs (logs_dir src).
Proof.
  intros [-> | ->]; [reflexivity |].
  unfold FS.isdir. rewrite logs_dir_sep_norm, logs_dir_norm, is_empty_app_cons.
  pose proof (logs_dir_nonempty src) as Hne. apply is_empty_false in Hne.
  now rewrite Hne.
Qed.

End FinalDirectory.

(** Whatever becomes of the copy, the footer written for a final
    directory says that the log was copied. *)
Lemma footer_announces_copy (g d log_path elapsed : string) (e : Log.Env)
    (end_time start : datetime.t) :
  PyStr.contains Log.note_copied
    (file_fyi_text g
       (info_record e (footer_text (Some d) log_path end_time start elapsed))) = true.
Proof.
  unfold file_fyi_text, short_body, info_record.
  cbn [logging.message Log.makeRecord]. unfold footer_text.
  rewrite !append_assoc.
  do 5 apply contains_skip. apply contains_here, startswith_app.
Qed.

(** X8: terminating an active session into its own [logs] directory,
    written with or without a closing separator, fails.  The footer is
    written first and says that the log was copied; the copy then finds
    that source and destination are the same file and raises
    [SameFileError]; no other file is touched. *)
Theorem terminate_into_logs_directory (src base p d : string) (st : Log.State)
    (elapsed : string) :
  active src base p st ->
  _Timestamps._get_elapsed
    (_Timestamps.mk (_Timestamps.start (_ExecInfo._timestamps (Log._exec_info (Log.self st))))
       (Some (Log.now (Log.env (Log.world st))))) = Ok elapsed ->
  d = logs_dir src \/ d = logs_dir src +:+ "/" ->
  FS.isdir (Log.fs (Log.world st)) (logs_dir src) = true ->
  let footer :=
    footer_text (Some d) p (Log.now (Log.env (Log.world st)))
      (_Timestamps.start (_ExecInfo._timestamps (Log._exec_info (Log.self st))))
      elapsed in
  let text := file_fyi_text (glyph logging.INFO)
                (info_record (Log.env (Log.world st)) footer) in
  exists st' : Log.State,
    Log.terminate (Some d) st = (Raise (SameFileError p), st')
    /\ Log.fs (Log.world st') = FS.append (Log.fs (Log.world st)) p text
    /\ PyStr.contains Log.note_copied text = true
    /\ (forall q : string,
          q <> p ->
          FS.files (Log.fs (Log.world st')) !! q = FS.files (Log.fs (Log.world st)) !! q).
Proof.
  intros Hactive Hel Hd Hdir. cbv zeta.
  pose proof (terminate_active src base p st Hactive (Some d) elapsed Hel) as Hrun.
  cbv beta iota zeta in Hrun.
  pose proof (proj2 (reported_is_log_path src base p st Hactive d) Hd) as Hsame.
  rewrite <- Hsame in Hrun.
  eexists. split.
  - rewrite Hrun. unfold Log.shutil_copy. run_monad.
    unfold FS.copy. rewrite append_isdir, (isdir_logs_variants src _ d Hd), Hdir.
    destruct Hactive as (_ & _ & _ & _ & _ & Hbase & Hp).
    assert (Hname : posixpath.basename p
                    = log_file_name base
                        (_Timestamps.start
                           (_ExecInfo._timestamps (Log._exec_info (Log.self st))))).
    { rewrite Hp at 1. apply log_file_basename. now apply has_char_log_file_name. }
    rewrite Hname, <- Hsame, isfile_append_same.
    rewrite bool_decide_eq_true_2 by reflexivity. reflexivity.
  - cbn [Log.world Log.fs].
    split; [reflexivity |]. split; [apply footer_announces_copy |].
    intros q Hq. now apply append_files_other.
Qed.

Lemma terminate_into_logs_directory_witness :
  exists st' : Log.State,
    Log.terminate (Some "/app/logs/") (@Example.session ascii_builtins)
    = (Raise (SameFileError Example.log_path), st').
Proof.
  pose proof (terminate_into_logs_directory "/app" "test" Example.log_path "/app/logs/"
                (@Example.session ascii_builtins) "2m 5s 456ms 699μs"
                ltac:(run_example) ltac:(run_example)
                (or_intror eq_refl) ltac:(vm_compute; reflexivity)) as H.
  cbv zeta in H. destruct H as [st' [Hrun _]].
  exists st'. exact Hrun.
Defined.

(** X9: terminating an active session with the empty string as final
    directory does not leave the log where it is.  The empty string is a
    final directory like another: the footer says that the log was copied
    and names the log file by its bare name, and the copy to a file with
    an empty name then raises [FileNotFoundError]. *)
Theorem terminate_empty_directory_name (src base p : string) (st : Log.State)
    (elapsed : string) :
  active src base p st ->
  _Timestamps._get_elapsed
    (_Timestamps.mk (_Timestamps.start (_ExecInfo._timestamps (Log._exec_info (Log.self st))))
       (Some (Log.now (Log.env (Log.world st))))) = Ok elapsed ->
  FS.isfile (Log.fs (Log.world st)) "" = false ->
  let start := _Timestamps.start (_ExecInfo._timestamps (Log._exec_info (Log.self st))) in
  let footer :=
    footer_text (Some "") (log_file_name base start) (Log.now (Log.env (Log.world st)))
      start elapsed in
  let text := file_fyi_text (glyph logging.INFO)
                (info_record (Log.env (Log.world st)) footer) in
  exists st' : Log.State,
    Log.terminate (Some "") st = (Raise (FileNotFoundError ""), st')
    /\ Log.fs (Log.world st') = FS.append (Log.fs (Log.world st)) p text
    /\ PyStr.contains Log.note_copied text = true
    /\ _ExecInfo._get_filepathname (Log._exec_info (Log.self st'))
       = Ok (log_file_name base start).
Proof.
  intros Hactive Hel Hnofile. cbv zeta.
  pose proof (terminate_active src base p st Hactive (Some "") elapsed Hel) as Hrun.
  cbv beta iota zeta in Hrun.
  pose proof (ended_filepathname src base p st Hactive (Some "")) as Hreported.
  cbv beta iota in Hreported.
  pose proof (active_file_no_sep src base p st Hactive) as Hfile.
  pose proof (active_log_path_nonempty src base p st Hactive) as Hne.
  assert (Hjoin : posixpath.join ""
                    (log_file_name base
                       (_Timestamps.start
                          (_ExecInfo._timestamps (Log._exec_info (Log.self st)))))
                  = log_file_name base
                      (_Timestamps.start
                         (_ExecInfo._timestamps (Log._exec_info (Log.self st))))).
  { rewrite (join_relative _ _ (has_char_startswith _ Hfile)). apply append_nil_l. }
  rewrite Hjoin in Hrun, Hreported.
  eexists. split.
  - rewrite Hrun. unfold Log.shutil_copy. run_monad.
    unfold FS.copy. change (FS.isdir _ "") with false. cbv iota.
    rewrite isfile_append_same, append_files_same.
    rewrite bool_decide_eq_false_2 by exact Hne. cbn [andb].
    change (PyStr.endswith_char posixpath.sep "") with false. cbv iota.
    rewrite isfile_append_other by congruence. rewrite Hnofile.
    reflexivity.
  - cbn [Log.world Log.fs Log.self].
    split; [reflexivity |]. split; [apply footer_announces_copy | exact Hreported].
Qed.

Lemma terminate_empty_directory_name_witness :
  exists st' : Log.State,
    Log.terminate (Some "") (@Example.session ascii_builtins)
    = (Raise (FileNotFoundError ""), st')
    /\ _ExecInfo._get_filepathname (Log._exec_info (Log.self st'))
       = Ok "test_20240101000000.log".
Proof.
  pose proof (terminate_empty_directory_name "/app" "test" Example.log_path
                (@Example.session ascii_builtins) "2m 5s 456ms 699μs"
                ltac:(run_example) ltac:(run_example)
                ltac:(vm_compute; reflexivity)) as H.
  cbv zeta in H. destruct H as [st' (Hrun & _ & _ & Hpath)].
  exists st'. split; [exact Hrun |]. rewrite Hpath. vm_compute. reflexivity.
Defined.



(** ** The copy into a final directory, case by case *)

Section CopyFacts.








Variables (fs : FS.t) (p text : string).
Hypothesis Hlog : FS.isfile fs p = true.




End CopyFacts.




(** ** After [terminate] *)

(** Where [terminate] succeeds on an active session, it leaves the
    session object with the end time and the final directory recorded,
    and the root logger as it was. *)
Lemma terminate_ok_shape (src base p : string) (d : option string)
    (st st' : Log.State) :
  active src base p st ->
  Log.terminate d st = (Ok tt, st') ->
  Log.self st' = ended d st /\ Log.root (Log.world st') = Log.root (Log.world st).
Proof.
  intros Hactive.
  destruct (_Timestamps._get_elapsed
              (_Timestamps.mk
                 (_Timestamps.start (_ExecInfo._timestamps (Log._exec_info (Log.self st))))
                 (Some (Log.now (Log.env (Log.world st)))))) as [elapsed | x] eqn:Hel.
  - rewrite (terminate_active src base p st Hactive d elapsed Hel).
    cbv beta iota zeta. destruct d as [dir |].
    + unfold Log.shutil_copy. run_monad.
      destruct (FS.copy _ p dir) as [[dst f'] | x]; run_monad; [| discriminate].
      intros [= <-]. split; reflexivity.
    + intros [= <-]. split; reflexivity.
  - rewrite (terminate_elapsed_fails src base p st d x Hactive Hel). discriminate.
Qed.

(** X11: [terminate] does not close the session.  After a successful
    [terminate] of an active session, in any later state of the process
    that has the session object and the root logger as [terminate] left
    them, each of the five methods still succeeds and still appends its
    record to the log file at its original path, and to no other file: a
    copy made in a final directory does not receive it.  The session
    object itself resolves the log path under the final directory from
    then on. *)
Theorem emit_after_terminate (src base p : string) (d : option string)
    (st st' st2 : Log.State) (s : logging.Severity) (msg : string) :
  active src base p st ->
  Log.terminate d st = (Ok tt, st') ->
  Log.self st2 = Log.self st' ->
  Log.root (Log.world st2) = Log.root (Log.world st') ->
  let file := log_file_name base
                (_Timestamps.start (_ExecInfo._timestamps (Log._exec_info (Log.self st)))) in
  let r := emitted_record (Log.env (Log.world st2)) s msg in
  exists st3 : Log.State,
    emit s msg st2 = (Ok tt, st3)
    /\ Log.fs (Log.world st3)
       = FS.append (Log.fs (Log.world st2)) p
           (if is_alert s then file_alert_text (glyph s) r else file_fyi_text (glyph s) r)
    /\ (forall q : string,
          q <> p ->
          FS.files (Log.fs (Log.world st3)) !! q = FS.files (Log.fs (Log.world st2)) !! q)
    /\ _ExecInfo._get_filepathname (Log._exec_info (Log.self st3))
       = Ok match d with
            | None => p
            | Some dir => posixpath.join dir file
            end.
Proof.
  intros Hactive Hterm Hself Hroot. cbv zeta.
  destruct (terminate_ok_shape src base p d st st' Hactive Hterm) as [Hshape Hroot'].
  pose proof Hactive as (Hlog & Hinstalled & _).
  assert (Hlog2 : Log._log (Log.self st2) = Some tt)
    by (rewrite Hself, Hshape; exact Hlog).
  assert (Hinstalled2 : Log.root (Log.world st2) = logging.mkLogger 10 (installed p))
    by (rewrite Hroot, Hroot'; exact Hinstalled).
  rewrite emit_log_call.
  rewrite (log_call_installed p st2 _ _ _ _ Hlog2 Hinstalled2 (rank_enabled s)).
  fold (emitted_record (Log.env (Log.world st2)) s msg).
  rewrite routed_emitted.
  eexists. split; [reflexivity |]. cbn [Log.self Log.world].
  rewrite Hself, Hshape, (ended_filepathname src base p st Hactive d).
  destruct (is_alert s); cbn [Log.deliver fold_left Log.write logging.to_stream logging.text
    Log.fs Log.stderr Log.root Log.env];
    (split; [reflexivity |]; split; [| reflexivity]);
    intros q Hq; now apply append_files_other.
Qed.

Lemma emit_after_terminate_witness :
  let st' := snd (Log.terminate (Some "/srv/final") (@Example.session ascii_builtins)) in
  exists st3 : Log.State,
    emit logging.INFO "late" st' = (Ok tt, st3)
    /\ FS.files (Log.fs (Log.world st3)) !! "/srv/final/test_20240101000000.log"
       = FS.files (Log.fs (Log.world st')) !! "/srv/final/test_20240101000000.log"
    /\ _ExecInfo._get_filepathname (Log._exec_info (Log.self st3))
       = Ok "/srv/final/test_20240101000000.log".
Proof.
  intros st'.
  pose proof (emit_after_terminate "/app" "test" Example.log_path (Some "/srv/final")
                (@Example.session ascii_builtins) st' st' logging.INFO "late"
                ltac:(run_example) ltac:(vm_compute; reflexivity) eq_refl eq_refl) as H.
  cbv zeta in H. destruct H as [st3 (Hrun & _ & Hothers & Hpath)].
  exists st3. split; [exact Hrun |]. split.
  - apply Hothers. discriminate.
  - rewrite Hpath. vm_compute. reflexivity.
Defined.

(** ** A second [terminate] *)

(** [terminate] on a session whose root logger is bound and configured
    for the log file [p], whatever final directory is recorded: the path
    handed to the copy is resolved with the final directory recorded
    before, the footer with the new one. *)
Lemma terminate_bound (src base p : string) (st : Log.State) (d : option string)
    (elapsed : string) :
  Log._log (Log.self st) = Some tt ->
  Log.root (Log.world st) = logging.mkLogger 10 (installed p) ->
  _ExecInfo.initial (Log._exec_info (Log.self st)) = Some src ->
  _ExecInfo._module_basename (Log._exec_info (Log.self st)) = Some base ->
  let start := _Timestamps.start (_ExecInfo._timestamps (Log._exec_info (Log.self st))) in
  let now := Log.now (Log.env (Log.world st)) in
  let file := log_file_name base start in
  let resolve (final : option string) :=
    match final with
    | None => posixpath.join (logs_dir src) file
    | Some dir => posixpath.join dir file
    end in
  _Timestamps._get_elapsed (_Timestamps.mk start (Some now)) = Ok elapsed ->
  let written :=
    Log.mkState (ended d st)
      (Log.mkWorld (Log.env (Log.world st))
         (FS.append (Log.fs (Log.world st)) p
            (file_fyi_text (glyph logging.INFO)
               (info_record (Log.env (Log.world st))
                  (footer_text d (resolve d) now start elapsed))))
         (Log.stderr (Log.world st))
         (Log.root (Log.world st))) in
  Log.terminate d st
  = match d with
    | Some dir =>
        Log.shutil_copy (resolve (_ExecInfo.final (Log._exec_info (Log.self st)))) dir written
    | None => (Ok tt, written)
    end.
Proof.
  intros Hlog Hroot Hinit Hbase. cbv zeta. intros Hel.
  assert (Hpath : _ExecInfo._get_filepathname (Log._exec_info (Log.self st))
                  = Ok match _ExecInfo.final (Log._exec_info (Log.self st)) with
                       | None =>
                           posixpath.join (logs_dir src)
                             (log_file_name base
                                (_Timestamps.start
                                   (_ExecInfo._timestamps (Log._exec_info (Log.self st)))))
                       | Some dir =>
                           posixpath.join dir
                             (log_file_name base
                                (_Timestamps.start
                                   (_ExecInfo._timestamps (Log._exec_info (Log.self st)))))
                       end).
  { rewrite (get_filepathname_unfold _ base Hbase), Hinit.
    destruct (_ExecInfo.final _); reflexivity. }
  assert (Hended : _ExecInfo._get_filepathname (Log._exec_info (ended d st))
                   = Ok match d with
                        | None =>
                            posixpath.join (logs_dir src)
                              (log_file_name base
                                 (_Timestamps.start
                                    (_ExecInfo._timestamps (Log._exec_info (Log.self st)))))
                        | Some dir =>
                            posixpath.join dir
                              (log_file_name base
                                 (_Timestamps.start
                                    (_ExecInfo._timestamps (Log._exec_info (Log.self st)))))
                        end).
  { unfold ended. cbn [Log._exec_info].
    rewrite (get_filepathname_unfold _ base);
      [| rewrite basename_set_final, basename_set_end; exact Hbase].
    rewrite final_set_final, initial_set_final, initial_set_end,
      timestamps_set_final, timestamps_set_end, Hinit.
    destruct d; reflexivity. }
  assert (Hfooter : Log._get_footer (ended d st)
                    = Ok (footer_text d
                            match d with
                            | None =>
                                posixpath.join (logs_dir src)
                                  (log_file_name base
                                     (_Timestamps.start
                                        (_ExecInfo._timestamps
                                           (Log._exec_info (Log.self st)))))
                            | Some dir =>
                                posixpath.join dir
                                  (log_file_name base
                                     (_Timestamps.start
                                        (_ExecInfo._timestamps
                                           (Log._exec_info (Log.self st)))))
                            end
                            (Log.now (Log.env (Log.world st)))
                            (_Timestamps.start
                               (_ExecInfo._timestamps (Log._exec_info (Log.self st))))
                            elapsed)).
  { unfold Log._get_footer. rewrite Hended.
    unfold ended. cbn [Log._exec_info].
    rewrite final_set_final, timestamps_set_final, timestamps_set_end.
    rewrite Hel. cbn [_Timestamps.end_ _Timestamps.start of_option mbind result_bind].
    unfold footer_text.
    destruct d; rewrite ?append_assoc; reflexivity. }
  unfold Log.terminate. unfold ended in *.
  destruct st as [s w]. cbn [Log.self Log.world] in *.
  run_monad. rewrite filepathname_set_end, Hpath. run_monad.
  rewrite Hfooter. run_monad.
  unfold Log.info.
  rewrite (log_call_installed p); [| exact Hlog | exact Hroot | lia].
  cbn [Log.self Log.world Log.env].
  destruct d; reflexivity.
Qed.

Lemma basename_join (d file : string) :
  d <> "" ->
  has_char posixpath.sep file = false ->
  posixpath.basename (posixpath.join d file) = file.
Proof.
  intros Hd Hfile.
  rewrite (join_relative d file (has_char_startswith _ Hfile)).
  unfold posixpath.basename, posixpath.split_at_last_sep.
  apply is_empty_false in Hd. rewrite Hd. cbn [orb].
  destruct (PyStr.endswith_char posixpath.sep d) eqn:Hend.
  - now rewrite (rsplit_char_head _ _ _ Hend Hfile).
  - rewrite (rsplit_char_head _ (d +:+ "/") file); [reflexivity | | exact Hfile].
    now rewrite (endswith_char_app _ "/"%char d "").
Qed.

(** X12: a second [terminate], in any later state of the process that has
    the session object and the root logger as a successful
    [terminate] into [d] left them.  The footer is written again, to the
    log file at its original path; but the path handed to the copy is now
    resolved under [d], the final directory recorded by the first call:
    what is copied is the first copy, which lacks the second footer, not
    the log file.  Terminating into the directory [d] once more raises
    [SameFileError] while the first copy is in place. *)
Theorem terminate_again (src base p d : string) (d2 : option string)
    (st st1 st2 : Log.State) (elapsed2 : string) :
  active src base p st ->
  Log.terminate (Some d) st = (Ok tt, st1) ->
  Log.self st2 = Log.self st1 ->
  Log.root (Log.world st2) = Log.root (Log.world st1) ->
  let start := _Timestamps.start (_ExecInfo._timestamps (Log._exec_info (Log.self st))) in
  let now2 := Log.now (Log.env (Log.world st2)) in
  let file := log_file_name base start in
  let first_copy := posixpath.join d file in
  _Timestamps._get_elapsed (_Timestamps.mk start (Some now2)) = Ok elapsed2 ->
  let reported :=
    match d2 with
    | None => p
    | Some dir2 => posixpath.join dir2 file
    end in
  let text := file_fyi_text (glyph logging.INFO)
                (info_record (Log.env (Log.world st2))
                   (footer_text d2 reported now2 start elapsed2)) in
  let written :=
    Log.mkState (ended d2 st2)
      (Log.mkWorld (Log.env (Log.world st2))
         (FS.append (Log.fs (Log.world st2)) p text)
         (Log.stderr (Log.world st2)) (Log.root (Log.world st2))) in
  Log.terminate d2 st2
  = match d2 with
    | Some dir2 => Log.shutil_copy first_copy dir2 written
    | None => (Ok tt, written)
    end
  /\ (d2 = Some d ->
      FS.isdir (Log.fs (Log.world st2)) d = true ->
      FS.isfile (Log.fs (Log.world st2)) first_copy = true ->
      Log.terminate d2 st2 = (Raise (SameFileError first_copy), written)).
Proof.
  intros Hactive Hterm Hself Hroot. cbv zeta. intros Hel.
  destruct (terminate_ok_shape src base p (Some d) st st1 Hactive Hterm) as [Hshape Hroot1].
  pose proof (active_file_no_sep src base p st Hactive) as Hfile.
  pose proof Hactive as (Hlog & Hinstalled & Hinit & _ & Hbase & _ & Hp).
  assert (Hexec : Log._exec_info (Log.self st2)
                  = _ExecInfo.set_final (Some d)
                      (_ExecInfo.set_end (Log.now (Log.env (Log.world st)))
                         (Log._exec_info (Log.self st))))
    by (rewrite Hself, Hshape; reflexivity).
  match goal with |- ?A /\ _ => assert (Hrun : A) end.
  { pose proof (terminate_bound src base p st2 d2 elapsed2) as H.
    cbv zeta in H. rewrite Hexec in H.
    rewrite final_set_final, initial_set_final, initial_set_end, basename_set_final,
      basename_set_end, timestamps_set_final, timestamps_set_end in H.
    cbn [_Timestamps.start] in H. rewrite <- Hp in H.
    rewrite H; [destruct d2; reflexivity | | | exact Hinit | exact Hbase | exact Hel].
    - rewrite Hself, Hshape. exact Hlog.
    - rewrite Hroot, Hroot1. exact Hinstalled. }
  split; [exact Hrun |].
  intros -> Hdir Hcopy. rewrite Hrun.
  unfold Log.shutil_copy. run_monad. unfold FS.copy.
  rewrite append_isdir, Hdir.
  assert (Hd : d <> "") by (intros ->; discriminate).
  rewrite (basename_join _ _ Hd Hfile).
  assert (Hthere : FS.isfile
                     (FS.append (Log.fs (Log.world st2)) p
                        (file_fyi_text (glyph logging.INFO)
                           (info_record (Log.env (Log.world st2))
                              (footer_text (Some d)
                                 (posixpath.join d
                                    (log_file_name base
                                       (_Timestamps.start
                                          (_ExecInfo._timestamps
                                             (Log._exec_info (Log.self st))))))
                                 (Log.now (Log.env (Log.world st2)))
                                 (_Timestamps.start
                                    (_ExecInfo._timestamps (Log._exec_info (Log.self st))))
                                 elapsed2))))
                     (posixpath.join d
                        (log_file_name base
                           (_Timestamps.start
                              (_ExecInfo._timestamps (Log._exec_info (Log.self st))))))
                   = true).
  { destruct (decide (posixpath.join d
                        (log_file_name base
                           (_Timestamps.start
                              (_ExecInfo._timestamps (Log._exec_info (Log.self st))))) = p))
      as [-> | Hne].
    - apply isfile_append_same.
    - rewrite isfile_append_other by exact Hne. exact Hcopy. }
  rewrite Hthere. rewrite bool_decide_eq_true_2 by reflexivity. reflexivity.
Qed.

Lemma terminate_again_witness :
  let st1 := snd (Log.terminate (Some "/srv/final") (@Example.session ascii_builtins)) in
  exists st3 : Log.State,
    Log.terminate (Some "/srv/final") st1
    = (Raise (SameFileError "/srv/final/test_20240101000000.log"), st3).
Proof.
  intros st1.
  pose proof (terminate_again "/app" "test" Example.log_path "/srv/final"
                (Some "/srv/final") (@Example.session ascii_builtins) st1 st1
                "2m 5s 456ms 699μs"
                ltac:(run_example) ltac:(vm_compute; reflexivity) eq_refl eq_refl
                ltac:(vm_compute; reflexivity)) as H.
  cbv zeta in H. destruct H as [_ Hsame].
  eexists. rewrite (Hsame eq_refl); [reflexivity | |]; vm_compute; reflexivity.
Defined.

(** ** A log file that cannot be opened *)

(** X13: where the [logs] entry exists and the log file cannot be opened
    in it, [Log(path)] raises the error of the open.  Nothing is written,
    to the file system or to the standard error stream, and no handler is
    installed; but the root logger is bound and its level is lowered to
    DEBUG already, and stays so.  This is what happens when [logs] is a
    regular file, which passes for an existing [logs] directory: the open
    raises [NotADirectoryError]; and when the [logs] directory accepts no
    new entry: the open raises [PermissionError]. *)
Theorem construction_cannot_open_log_file `{PyBuiltins} (path : string) (w : Log.World)
    (x : exn) :
  let logs := logs_dir (posixpath.dirname path) in
  let p := session_log_path path (Log.env w) in
  FS.exists_ (Log.fs w) logs = true ->
  (FS.open_append (Log.fs w) p = Raise x ->
   exists st : Log.State,
     Log.new path w = (Raise x, st)
     /\ Log.fs (Log.world st) = Log.fs w
     /\ Log.stderr (Log.world st) = Log.stderr w
     /\ Log.root (Log.world st) = logging.mkLogger 10 (logging.handlers (Log.root w))
     /\ Log._log (Log.self st) = Some tt)
  /\ (FS.isdir (Log.fs w) logs = false ->
      FS.exists_ (Log.fs w) p = false ->
      FS.open_append (Log.fs w) p = Raise (NotADirectoryError p))
  /\ (FS.isdir (Log.fs w) logs = true ->
      FS.norm logs ∈ FS.readonly (Log.fs w) ->
      FS.exists_ (Log.fs w) p = false ->
      FS.open_append (Log.fs w) p = Raise (PermissionError p)).
Proof.
  cbv zeta. intros Hexists.
  pose proof (has_char_module_basename path) as Hbase.
  assert (Hparent : FS.parent (session_log_path path (Log.env w))
                    = logs_dir (posixpath.dirname path))
    by apply (log_path_parent _ _ _ Hbase).
  assert (Hne : PyStr.is_empty (session_log_path path (Log.env w)) = false)
    by apply (log_path_nonempty _ _ _ Hbase).
  pose proof (logs_dir_nonempty (posixpath.dirname path)) as Hlogs.
  apply is_empty_false in Hlogs.
  split; [| split].
  - intros Hopen. destruct w as [e fs0 err [lvl hs]].
    cbn [Log.env Log.fs Log.stderr Log.root logging.handlers] in *.
    eexists. split.
    + unfold Log.new, Log.__post_init__. run_monad.
      fold (captured path e). cbn [of_option _ExecInfo.initial captured _ExecInfo.set_info
        _ExecInfo._directories _Directories.initial].
      fold (captured path e). fold (logs_dir (posixpath.dirname path)).
      rewrite Hexists. cbn [negb].
      unfold Log.initialize. run_monad.
      rewrite captured_filepathname. run_monad.
      unfold Log.setup, Log.getLogger, Log.setLevel, Log.open_FileHandler. run_monad.
      rewrite Hopen. reflexivity.
    + cbn [Log.world Log.fs Log.stderr Log.root Log.self Log._log].
      repeat split.
  - intros Hnodir [Hpdir Hpfile]%orb_false_iff.
    unfold FS.exists_ in Hexists. rewrite Hnodir in Hexists. cbn [orb] in Hexists.
    unfold FS.open_append, FS.check_create.
    now rewrite Hpdir, Hpfile, Hne, Hparent, Hlogs, Hnodir, Hexists.
  - intros Hdir Hro [Hpdir Hpfile]%orb_false_iff.
    unfold FS.open_append, FS.check_create.
    rewrite Hpdir, Hpfile, Hne, Hparent, Hlogs, Hdir.
    now rewrite bool_decide_eq_true_2 by exact Hro.
Qed.

Lemma construction_cannot_open_log_file_witness :
  let w := Log.mkWorld Example.env
             (FS.mk {[ "/"; "/app" ]} {[ "/app/logs" := "not a directory" ]} ∅) ""
             (logging.mkLogger 30 []) in
  exists st : Log.State,
    @Log.new ascii_builtins "/app/test.py" w
    = (Raise (NotADirectoryError "/app/logs/test_20240101000000.log"), st)
    /\ Log.fs (Log.world st) = Log.fs w
    /\ logging.logger_level (Log.root (Log.world st)) = 10.
Proof.
  intros w.
  pose proof (@construction_cannot_open_log_file ascii_builtins "/app/test.py" w
                (NotADirectoryError "/app/logs/test_20240101000000.log")) as H.
  cbv zeta in H. destruct H as (Hraise & Hfile & _); [vm_compute; reflexivity |].
  destruct Hraise as [st (Hnew & Hfs & _ & Hroot & _)].
  - rewrite Hfile; [vm_compute; reflexivity | vm_compute; reflexivity
                   | vm_compute; reflexivity].
  - exists st. split; [exact Hnew |]. split; [exact Hfs |]. now rewrite Hroot.
Defined.

(** ** The test script *)

Section Appended.

Variables (p : string).

Lemma appended_files_same (fs : FS.t) (t : string) (ts : list string) :
  FS.files (appended fs p (t :: ts)) !! p
  = Some (default "" (FS.files fs !! p) +:+ String.concat "" (t :: ts)).
Proof.
  revert fs t. induction ts as [|t' ts IH]; intros fs t.
  - cbn [appended fold_left String.concat]. apply append_files_same.
  - change (appended fs p (t :: t' :: ts)) with (appended (FS.append fs p t) p (t' :: ts)).
    rewrite IH, append_files_same. cbn [default from_option id].
    change (String.concat "" (t :: t' :: ts)) with (t +:+ "" +:+ String.concat "" (t' :: ts)).
    now rewrite append_nil_l, append_assoc.
Qed.

Lemma appended_files_other (fs : FS.t) (ts : list string) (q : string) :
  q <> p -> FS.files (appended fs p ts) !! q = FS.files fs !! q.
Proof.
  intros Hq. revert fs. induction ts as [|t ts IH]; intros fs; [reflexivity |].
  change (appended fs p (t :: ts)) with (appended (FS.append fs p t) p ts).
  rewrite IH. now apply append_files_other.
Qed.

Lemma appended_dirs (fs : FS.t) (ts : list string) :
  FS.dirs (appended fs p ts) = FS.dirs fs.
Proof.
  revert fs. induction ts as [|t ts IH]; intros fs; [reflexivity |].
  change (appended fs p (t :: ts)) with (appended (FS.append fs p t) p ts).
  now rewrite IH.
Qed.

End Appended.

(** A call to one of the five methods in a process whose root logger is
    bound and configured for the log file [p]. *)
Lemma call_emit (p : string) (e : Log.Env) (sev : logging.Severity) (msg : string)
    (s : Log.t) (e' : Log.Env) (fs : FS.t) (err : string) (out : string) :
  Log._log s = Some tt ->
  test.call e (emit sev msg)
    (test.mkProcess
       (Log.mkState s (Log.mkWorld e' fs err (logging.mkLogger 10 (installed p)))) out)
  = (Ok tt,
     test.mkProcess
       (Log.mkState s
          (Log.mkWorld e
             (FS.append fs p
                (if is_alert sev then file_alert_text (glyph sev) (emitted_record e sev msg)
                 else file_fyi_text (glyph sev) (emitted_record e sev msg)))
             (if is_alert sev then err +:+ stderr_alert_text (emitted_record e sev msg)
              else err)
             (logging.mkLogger 10 (installed p))))
       out).
Proof.
  intros Hlog. unfold test.call, test.at_. cbn [test.session test.stdout Log.self Log.world
    Log.fs Log.stderr Log.root].
  rewrite emit_log_call.
  rewrite (log_call_installed p); [| exact Hlog | reflexivity | apply rank_enabled].
  cbn [Log.self Log.world Log.env].
  fold (emitted_record e sev msg). rewrite routed_emitted.
  destruct (is_alert sev); reflexivity.
Qed.

Lemma call_with_self {A : Type} (e : Log.Env) (m : Log.t -> Log.M A)
    (pr : test.Process) :
  test.call e (s ← Log.get_self; m s) pr
  = test.call e (m (Log.self (test.session pr))) pr.
Proof. reflexivity. Qed.

Lemma dump_sample_variable `{PyBuiltins} :
  variable_value_message.get "sample_variable" (PyValue.VInt test.sample_variable)
  = "🔎VarVal🔍 sample_variable (<class 'int'>): 30".
Proof. reflexivity. Qed.

Lemma dump_exec_info `{PyBuiltins} (e : _ExecInfo.t) :
  variable_value_message.get "log._exec_info" (exec_info_value e)
  = "🔎VarVal🔍 log._exec_info (<class 'lib.classes.log.exec_info._ExecInfo'>):"
    +:+ PyStr.nl +:+ pformat variable_value_message.pp (exec_info_value e).
Proof. reflexivity. Qed.

(** ** Where the log file lies *)

(** X15: whatever the path of the module file, the log path that a new
    session resolves splits back into the [logs] directory of the module
    file's directory and a file name without a separator: the module base
    name that [set_info] derives cannot lead into another directory, so
    the log file is an entry of the [logs] directory itself, and that
    directory is the only one that has to exist for the file to be
    created. *)
Theorem log_file_lies_in_logs_directory (path : string) (e : Log.Env) :
  let logs := posixpath.join (posixpath.dirname path) "logs" in
  let name := log_file_name (posixpath.splitext_root (posixpath.basename path))
                (Log.now e) in
  exists p : string,
    _ExecInfo._get_filepathname (captured path e) = Ok p
    /\ p = logs +:+ "/" +:+ name
    /\ posixpath.dirname p = logs
    /\ posixpath.basename p = name
    /\ has_char posixpath.sep name = false
    /\ FS.parent p = logs
    /\ posixpath.join (posixpath.dirname p) (posixpath.basename p) = p.
Proof.
  cbv zeta. pose proof (has_char_module_basename path) as Hbase.
  pose proof (has_char_log_file_name _ (Log.now e) Hbase) as Hname.
  fold (logs_dir (posixpath.dirname path)).
  exists (session_log_path path e).
  split; [apply captured_filepathname |]. unfold session_log_path.
  split; [now apply logs_dir_join |].
  split; [now apply log_file_dirname |].
  split; [now apply log_file_basename |].
  split; [exact Hname |].
  split; [now apply log_path_parent |].
  now rewrite log_file_dirname, log_file_basename.
Qed.

(** ** The test script, from start to end *)

(** The [try] statement of the script, once the session is constructed:
    no call of the [try] block raises, the [except] block is not run, and
    [terminate()] writes the footer. *)
Lemma test_try_statement `{PyBuiltins} (file : string) (clock : test.Clock)
    (fs : FS.t) (err out elapsed : string) :
  let p := session_log_path file (clock 0%nat) in
  _Timestamps._get_elapsed
    (_Timestamps.mk (Log.now (clock 0%nat)) (Some (Log.now (clock 10%nat)))) = Ok elapsed ->
  let constructed :=
    Log.mkState (Log.mk file (captured file (clock 0%nat)) (Some tt))
      (Log.mkWorld (clock 0%nat) fs err (logging.mkLogger 10 (installed p))) in
  test.try_except_finally (test.body clock) (test.handler clock) (test.final clock)
    (test.mkProcess constructed out)
  = (Ok tt,
     test.mkProcess
       (Log.mkState
          (ended None (test.at_ (clock 10%nat) constructed))
          (Log.mkWorld (clock 10%nat)
             (appended fs p
                [file_fyi_text (glyph logging.INFO)
                   (emitted_record (clock 1%nat) logging.INFO "Trying Actions…");
                 file_fyi_text (glyph logging.DEBUG)
                   (emitted_record (clock 2%nat) logging.DEBUG
                      "Sample debugging message to log only.");
                 file_fyi_text (glyph logging.INFO)
                   (emitted_record (clock 3%nat) logging.INFO
                      "Sample informational message to log only.");
                 file_fyi_text (glyph logging.INFO)
                   (emitted_record (clock 4%nat) logging.INFO
                      "🔎VarVal🔍 sample_variable (<class 'int'>): 30");
                 file_fyi_text (glyph logging.INFO)
                   (emitted_record (clock 5%nat) logging.INFO
                      ("🔎VarVal🔍 log._exec_info (<class 'lib.classes.log.exec_info._ExecInfo'>):"
                       +:+ PyStr.nl
                       +:+ pformat variable_value_message.pp
                             (exec_info_value (captured file (clock 0%nat)))));
                 file_alert_text (glyph logging.WARNING)
                   (emitted_record (clock 6%nat) logging.WARNING "Sample warning message.");
                 file_alert_text (glyph logging.ERROR)
                   (emitted_record (clock 7%nat) logging.ERROR "Sample error message.");
                 file_fyi_text (glyph logging.INFO)
                   (emitted_record (clock 8%nat) logging.INFO "🟩 …Completed Actions.");
                 file_fyi_text (glyph logging.INFO)
                   (emitted_record (clock 10%nat) logging.INFO
                      (footer_text None p (Log.now (clock 10%nat)) (Log.now (clock 0%nat))
                         elapsed))])
             ((err +:+ stderr_alert_text
                         (emitted_record (clock 6%nat) logging.WARNING
                            "Sample warning message."))
              +:+ stderr_alert_text
                    (emitted_record (clock 7%nat) logging.ERROR "Sample error message."))
             (logging.mkLogger 10 (installed p))))
       (out +:+ "🖐 Sample message to user's console only." +:+ PyStr.nl)).
Proof.
  cbv zeta. intros Hel. set (p := session_log_path file (clock 0%nat)).
  unfold test.try_except_finally, test.body.
  cbv [mbind test.P_bind].
  change Log.info with (emit logging.INFO).
  change Log.debug with (emit logging.DEBUG).
  change Log.warning with (emit logging.WARNING).
  change Log.error with (emit logging.ERROR).
  rewrite (call_emit p) by reflexivity. cbv iota beta.
  unfold test.print. cbn [test.session test.stdout]. cbv iota beta.
  rewrite (call_emit p) by reflexivity. cbv iota beta.
  rewrite (call_emit p) by reflexivity. cbv iota beta.
  rewrite dump_sample_variable.
  rewrite (call_emit p) by reflexivity. cbv iota beta.
  rewrite call_with_self. cbn [test.session Log.self Log._exec_info].
  rewrite dump_exec_info.
  rewrite (call_emit p) by reflexivity. cbv iota beta.
  rewrite (call_emit p) by reflexivity. cbv iota beta.
  rewrite (call_emit p) by reflexivity. cbv iota beta.
  rewrite (call_emit p) by reflexivity. cbv iota beta.
  unfold test.final, test.call, test.at_.
  cbn [test.session test.stdout Log.self Log.world Log.fs Log.stderr Log.root].
  match goal with
  | |- context [Log.terminate None ?st] =>
      assert (Hact : active (posixpath.dirname file)
                       (posixpath.splitext_root (posixpath.basename file)) p st)
        by (repeat split; apply has_char_module_basename);
      rewrite (terminate_active _ _ p st Hact None elapsed Hel)
  end.
  reflexivity.
Qed.

(** X14: the test script, run as the module file [file] where the [logs]
    directory exists and accepts entries, on a root logger without
    handlers.  No call of the [try] block raises, so the [except] block is
    not run and no CRITICAL record is made; [terminate()] runs in the
    [finally] block, and the script ends without an exception once the
    elapsed time is computed.  The log file receives ten records, in this
    order: the header, the eight records of the [try] block and the
    footer, each with the glyph of its severity; the standard error
    stream receives the WARNING and the ERROR record and nothing else; the
    standard output stream receives the printed line, which reaches
    neither the log file nor the standard error stream; no other file and
    no directory is changed. *)
Theorem test_script_run `{PyBuiltins} (file : string) (clock : test.Clock)
    (w : Log.World) (out elapsed : string) :
  let e0 := clock 0%nat in
  let logs := logs_dir (posixpath.dirname file) in
  let p := session_log_path file e0 in
  logging.handlers (Log.root w) = [] ->
  FS.isdir (Log.fs w) p = false ->
  FS.isdir (Log.fs w) logs = true ->
  FS.norm logs ∉ FS.readonly (Log.fs w) ->
  _Timestamps._get_elapsed
    (_Timestamps.mk (Log.now e0) (Some (Log.now (clock 10%nat)))) = Ok elapsed ->
  let fyi (k : nat) (sev : logging.Severity) (msg : string) :=
    file_fyi_text (glyph sev) (emitted_record (clock k) sev msg) in
  let alert (k : nat) (sev : logging.Severity) (msg : string) :=
    file_alert_text (glyph sev) (emitted_record (clock k) sev msg) in
  let records :=
    [fyi 0%nat logging.INFO (session_header file e0);
     fyi 1%nat logging.INFO "Trying Actions…";
     fyi 2%nat logging.DEBUG "Sample debugging message to log only.";
     fyi 3%nat logging.INFO "Sample informational message to log only.";
     fyi 4%nat logging.INFO "🔎VarVal🔍 sample_variable (<class 'int'>): 30";
     fyi 5%nat logging.INFO
       ("🔎VarVal🔍 log._exec_info (<class 'lib.classes.log.exec_info._ExecInfo'>):"
        +:+ PyStr.nl
        +:+ pformat variable_value_message.pp (exec_info_value (captured file e0)));
     alert 6%nat logging.WARNING "Sample warning message.";
     alert 7%nat logging.ERROR "Sample error message.";
     fyi 8%nat logging.INFO "🟩 …Completed Actions.";
     fyi 10%nat logging.INFO
       (footer_text None p (Log.now (clock 10%nat)) (Log.now e0) elapsed)] in
  exists pr : test.Process,
    test.main file clock w out = (Ok tt, pr)
    /\ test.stdout pr
       = out +:+ "🖐 Sample message to user's console only." +:+ PyStr.nl
    /\ Log.stderr (Log.world (test.session pr))
       = Log.stderr w
         +:+ stderr_alert_text
               (emitted_record (clock 6%nat) logging.WARNING "Sample warning message.")
         +:+ stderr_alert_text
               (emitted_record (clock 7%nat) logging.ERROR "Sample error message.")
    /\ FS.files (Log.fs (Log.world (test.session pr))) !! p
       = Some (default "" (FS.files (Log.fs w) !! p) +:+ String.concat "" records)
    /\ (forall q : string,
          q <> p ->
          FS.files (Log.fs (Log.world (test.session pr))) !! q = FS.files (Log.fs w) !! q)
    /\ FS.dirs (Log.fs (Log.world (test.session pr))) = FS.dirs (Log.fs w).
Proof.
  cbv zeta. destruct w as [e fs0 err [lvl hs]].
  cbn [Log.env Log.fs Log.stderr Log.root logging.handlers].
  intros -> Hnodir Hdir Hrw Hel.
  destruct (new_in_logs_dir file (clock 0%nat) fs0 err lvl Hnodir Hdir Hrw)
    as [f1 [Hopen Hnew]].
  destruct (open_append_content _ _ _ Hopen) as (Hold & Hothers & Hdirs).
  pose proof (test_try_statement file clock
                (FS.append f1 (session_log_path file (clock 0%nat))
                   (file_fyi_text (glyph logging.INFO)
                      (info_record (clock 0%nat) (session_header file (clock 0%nat)))))
                err out elapsed) as Htry.
  cbv zeta in Htry. specialize (Htry Hel).
  eexists. split.
  - unfold test.main. cbn [Log.fs Log.stderr Log.root]. rewrite Hnew. exact Htry.
  - cbn [test.stdout test.session Log.world Log.fs Log.stderr].
    split; [reflexivity |].
    split; [now rewrite append_assoc |].
    change (appended (FS.append f1 ?q ?t) ?q ?ts) with (appended f1 q (t :: ts)).
    split; [rewrite appended_files_same; now rewrite Hold |].
    split; [intros q Hq; rewrite appended_files_other by exact Hq; now apply Hothers |].
    now rewrite appended_dirs.
Qed.

Lemma test_script_run_witness :
  let clock := fun k : nat =>
    Log.mkEnv (datetime.mk 2024 1 1 0 0 (Z.of_nat k) 0) "2024-01-01 00:00:00 +0000"
      "MainThread" "MainProcess" "/app/lib/classes/log/__init__.py"
      "alice" "Linux" "3.12.0" ["test.py"] in
  exists pr : test.Process,
    @test.main ascii_builtins "/app/test.py" clock Example.world_with_logs "" = (Ok tt, pr)
    /\ test.stdout pr = "🖐 Sample message to user's console only." +:+ PyStr.nl
    /\ FS.dirs (Log.fs (Log.world (test.session pr)))
       = FS.dirs (Log.fs Example.world_with_logs).
Proof.
  intros clock.
  pose proof (@test_script_run ascii_builtins "/app/test.py" clock Example.world_with_logs
                "" "0m 10s 0ms 0μs") as H.
  cbv zeta in H.
  destruct H as [pr (Hrun & Hout & _ & _ & _ & Hdirs)];
    [reflexivity | vm_compute; reflexivity | vm_compute; reflexivity
    | apply not_elem_of_empty | vm_compute; reflexivity |].
  exists pr. split; [exact Hrun |]. split; [exact Hout | exact Hdirs].
Defined.

(** X16: the test script on its first run, where the module file's
    directory has no [logs] entry and accepts one.  The [logs] directory
    is made, and the script ends without an exception once the elapsed
    time is computed.  The log file receives eleven records: the header,
    the WARNING notice that the directory was created, the eight records
    of the [try] block and the footer; the standard error stream receives
    three records, the notice, the WARNING and the ERROR; no other
    directory is made and no other file is changed. *)
Theorem test_script_first_run `{PyBuiltins} (file : string) (clock : test.Clock)
    (w : Log.World) (out elapsed : string) :
  let e0 := clock 0%nat in
  let src := posixpath.dirname file in
  let logs := logs_dir src in
  let p := session_log_path file e0 in
  logging.handlers (Log.root w) = [] ->
  FS.isdir (Log.fs w) p = false ->
  FS.exists_ (Log.fs w) logs = false ->
  FS.check_create (Log.fs w) logs = Ok tt ->
  _Timestamps._get_elapsed
    (_Timestamps.mk (Log.now e0) (Some (Log.now (clock 10%nat)))) = Ok elapsed ->
  let fyi (k : nat) (sev : logging.Severity) (msg : string) :=
    file_fyi_text (glyph sev) (emitted_record (clock k) sev msg) in
  let alert (k : nat) (sev : logging.Severity) (msg : string) :=
    file_alert_text (glyph sev) (emitted_record (clock k) sev msg) in
  let records :=
    [fyi 0%nat logging.INFO (session_header file e0);
     alert 0%nat logging.WARNING (notice_text src logs);
     fyi 1%nat logging.INFO "Trying Actions…";
     fyi 2%nat logging.DEBUG "Sample debugging message to log only.";
     fyi 3%nat logging.INFO "Sample informational message to log only.";
     fyi 4%nat logging.INFO "🔎VarVal🔍 sample_variable (<class 'int'>): 30";
     fyi 5%nat logging.INFO
       ("🔎VarVal🔍 log._exec_info (<class 'lib.classes.log.exec_info._ExecInfo'>):"
        +:+ PyStr.nl
        +:+ pformat variable_value_message.pp (exec_info_value (captured file e0)));
     alert 6%nat logging.WARNING "Sample warning message.";
     alert 7%nat logging.ERROR "Sample error message.";
     fyi 8%nat logging.INFO "🟩 …Completed Actions.";
     fyi 10%nat logging.INFO
       (footer_text None p (Log.now (clock 10%nat)) (Log.now e0) elapsed)] in
  exists pr : test.Process,
    test.main file clock w out = (Ok tt, pr)
    /\ test.stdout pr
       = out +:+ "🖐 Sample message to user's console only." +:+ PyStr.nl
    /\ Log.stderr (Log.world (test.session pr))
       = Log.stderr w
         +:+ stderr_alert_text
               (emitted_record e0 logging.WARNING (notice_text src logs))
         +:+ stderr_alert_text
               (emitted_record (clock 6%nat) logging.WARNING "Sample warning message.")
         +:+ stderr_alert_text
               (emitted_record (clock 7%nat) logging.ERROR "Sample error message.")
    /\ FS.files (Log.fs (Log.world (test.session pr))) !! p
       = Some (default "" (FS.files (Log.fs w) !! p) +:+ String.concat "" records)
    /\ (forall q : string,
          q <> p ->
          FS.files (Log.fs (Log.world (test.session pr))) !! q = FS.files (Log.fs w) !! q)
    /\ FS.dirs (Log.fs (Log.world (test.session pr))) = {[ logs ]} ∪ FS.dirs (Log.fs w).
Proof.
  cbv zeta. destruct w as [e fs0 err [lvl hs]].
  cbn [Log.env Log.fs Log.stderr Log.root logging.handlers].
  intros -> Hnodir Habsent Hparent Hel.
  destruct (new_makes_logs_dir file (clock 0%nat) fs0 err lvl Hnodir Habsent Hparent)
    as [f1 [Hopen Hnew]].
  destruct (open_append_content _ _ _ Hopen) as (Hold & Hothers & Hdirs).
  cbn [FS.files FS.dirs] in Hold, Hothers, Hdirs.
  pose proof (test_try_statement file clock
                (FS.append
                   (FS.append f1 (session_log_path file (clock 0%nat))
                      (file_fyi_text (glyph logging.INFO)
                         (info_record (clock 0%nat) (session_header file (clock 0%nat)))))
                   (session_log_path file (clock 0%nat))
                   (file_alert_text (glyph logging.WARNING)
                      (warning_record (clock 0%nat)
                         (notice_text (posixpath.dirname file)
                            (logs_dir (posixpath.dirname file))))))
                (err +:+ stderr_alert_text
                           (warning_record (clock 0%nat)
                              (notice_text (posixpath.dirname file)
                                 (logs_dir (posixpath.dirname file)))))
                out elapsed) as Htry.
  cbv zeta in Htry. specialize (Htry Hel).
  eexists. split.
  - unfold test.main. cbn [Log.fs Log.stderr Log.root]. rewrite Hnew. exact Htry.
  - cbn [test.stdout test.session Log.world Log.fs Log.stderr].
    split; [reflexivity |].
    split; [now rewrite !append_assoc |].
    change (appended (FS.append (FS.append f1 ?q ?t) ?q ?t') ?q ?ts)
      with (appended f1 q (t :: t' :: ts)).
    split; [rewrite appended_files_same; now rewrite Hold |].
    split; [intros q Hq; rewrite appended_files_other by exact Hq; now apply Hothers |].
    rewrite appended_dirs. exact Hdirs.
Qed.

Lemma test_script_first_run_witness :
  let clock := fun k : nat =>
    Log.mkEnv (datetime.mk 2024 1 1 0 0 (Z.of_nat k) 0) "2024-01-01 00:00:00 +0000"
      "MainThread" "MainProcess" "/app/lib/classes/log/__init__.py"
      "alice" "Linux" "3.12.0" ["test.py"] in
  exists pr : test.Process,
    @test.main ascii_builtins "/app/test.py" clock Example.world "" = (Ok tt, pr)
    /\ FS.dirs (Log.fs (Log.world (test.session pr)))
       = {[ "/app/logs" ]} ∪ FS.dirs (Log.fs Example.world).
Proof.
  intros clock.
  pose proof (@test_script_first_run ascii_builtins "/app/test.py" clock Example.world
                "" "0m 10s 0ms 0μs") as H.
  cbv zeta in H.
  destruct H as [pr (Hrun & _ & _ & _ & _ & Hdirs)];
    [reflexivity | vm_compute; reflexivity | vm_compute; reflexivity
    | vm_compute; reflexivity | vm_compute; reflexivity |].
  exists pr. split; [exact Hrun | exact Hdirs].
Defined.

(** ** The elapsed time on ranges of durations *)

(** The rendering depends on the two times through their distance
    alone. *)
Lemma elapsed_by_distance (t1 t2 : datetime.t) (us : Z) :
  datetime.sub_microseconds t2 t1 = us ->
  _Timestamps._get_elapsed (_Timestamps.mk t1 (Some t2))
  = _Timestamps._get_elapsed (_Timestamps.mk epoch (Some (after_epoch us))).
Proof.
  intros H.
  assert (Hsub : datetime.sub_microseconds (after_epoch us) epoch = us).
  { unfold datetime.sub_microseconds, after_epoch, epoch, datetime.toordinal.
    cbn [datetime.year datetime.month datetime.day datetime.hour datetime.minute
         datetime.second datetime.microsecond]. lia. }
  unfold _Timestamps._get_elapsed.
  cbv beta iota delta [_Timestamps.end_ _Timestamps.start of_option mbind result_bind].
  rewrite H, Hsub. reflexivity.
Qed.

(** A rendering checked on every multiple of [step] below a bound holds
    for every two times that far apart. *)
Lemma elapsed_on_range (expected : Z -> list string) (step : Z) (bound : nat)
    (t1 t2 : datetime.t) (k : Z) :
  forallb (fun i => elapsed_among expected (Z.of_nat i * step)) (seq 0 bound) = true ->
  datetime.sub_microseconds t2 t1 = k * step ->
  0 <= k < Z.of_nat bound ->
  exists s : string,
    _Timestamps._get_elapsed (_Timestamps.mk t1 (Some t2)) = Ok s
    /\ In s (expected (k * step)).
Proof.
  intros Hall Hdist Hk. rewrite (elapsed_by_distance t1 t2 _ Hdist).
  rewrite forallb_forall in Hall. specialize (Hall (Z.to_nat k)).
  rewrite Z2Nat.id in Hall by lia. unfold elapsed_among in Hall.
  destruct (_Timestamps._get_elapsed _) as [s | x].
  - exists s. split; [reflexivity |].
    assert (Hin : existsb (String.eqb s) (expected (k * step)) = true)
      by (apply Hall, in_seq; lia).
    apply existsb_exists in Hin as [s' [Hin Heq]].
    apply String.eqb_eq in Heq. now subst s'.
  - assert (Habs : false = true) by (apply Hall, in_seq; lia). discriminate.
Qed.

Lemma exact_elapsed_seconds (n : Z) :
  0 <= n ->
  exact_elapsed (n * 1000000)
  = PyStr.of_Z (n / 60) +:+ "m " +:+ PyStr.of_Z (n mod 60) +:+ "s 0ms 0μs".
Proof.
  intros Hn. unfold exact_elapsed, exact_elapsed_components.
  replace (n * 1000000 / 60000000) with (n / 60)
    by (rewrite <- (Z.div_div _ 1000000 60), Z.div_mul; lia).
  replace (n * 1000000 - n / 60 * 60000000) with ((n mod 60) * 1000000)
    by (rewrite Z.mod_eq; lia).
  rewrite Z.div_mul by lia.
  replace (n mod 60 * 1000000 - n mod 60 * 1000000) with 0 by lia.
  reflexivity.
Qed.

Lemma exact_elapsed_milliseconds (k : Z) :
  0 <= k < 1000 ->
  exact_elapsed (k * 1000) = "0m 0s " +:+ PyStr.of_Z k +:+ "ms 0μs".
Proof.
  intros Hk. unfold exact_elapsed, exact_elapsed_components.
  rewrite (Z.div_small (k * 1000) 60000000) by lia.
  replace (k * 1000 - 0 * 60000000) with (k * 1000) by lia.
  rewrite (Z.div_small (k * 1000) 1000000) by lia.
  replace (k * 1000 - 0 * 1000000) with (k * 1000) by lia.
  rewrite Z.div_mul by lia.
  replace (k * 1000 - k * 1000) with 0 by lia.
  reflexivity.
Qed.

(** X17: where the arithmetic of the elapsed time is exact.  For two times
    a whole number of seconds apart, less than ten minutes, the rendering is
    the minutes, the seconds that remain, and zero milliseconds and
    microseconds; for two times a whole number of milliseconds apart, less
    than a second, it is that number of milliseconds and zero
    microseconds.  Beyond a second it is exact no longer: 1.001 seconds
    are rendered as 1 second, 0 milliseconds and 999 microseconds. *)
Theorem elapsed_exact_ranges (t1 t2 : datetime.t) :
  (forall n : Z,
     datetime.sub_microseconds t2 t1 = n * 1000000 ->
     0 <= n < 600 ->
     _Timestamps._get_elapsed (_Timestamps.mk t1 (Some t2))
     = Ok (PyStr.of_Z (n / 60) +:+ "m " +:+ PyStr.of_Z (n mod 60) +:+ "s 0ms 0μs"))
  /\ (forall k : Z,
        datetime.sub_microseconds t2 t1 = k * 1000 ->
        0 <= k < 1000 ->
        _Timestamps._get_elapsed (_Timestamps.mk t1 (Some t2))
        = Ok ("0m 0s " +:+ PyStr.of_Z k +:+ "ms 0μs"))
  /\ (datetime.sub_microseconds t2 t1 = 1001000 ->
      _Timestamps._get_elapsed (_Timestamps.mk t1 (Some t2)) = Ok "0m 1s 0ms 999μs").
Proof.
  split; [| split].
  - intros n Hdist Hn.
    assert (Hall : forallb (fun i => elapsed_among (fun us => [exact_elapsed us])
                                       (Z.of_nat i * 1000000)) (seq 0 600) = true)
      by (vm_compute; reflexivity).
    destruct (elapsed_on_range _ 1000000 600 t1 t2 n Hall Hdist) as [s [Hs Hin]];
      [lia |].
    rewrite Hs. destruct Hin as [<- | []]. f_equal. apply exact_elapsed_seconds. lia.
  - intros k Hdist Hk.
    assert (Hall : forallb (fun i => elapsed_among (fun us => [exact_elapsed us])
                                       (Z.of_nat i * 1000)) (seq 0 1000) = true)
      by (vm_compute; reflexivity).
    destruct (elapsed_on_range _ 1000 1000 t1 t2 k Hall Hdist) as [s [Hs Hin]];
      [lia |].
    rewrite Hs. destruct Hin as [<- | []]. f_equal. now apply exact_elapsed_milliseconds.
  - intros Hdist. rewrite (elapsed_by_distance t1 t2 _ Hdist). vm_compute. reflexivity.
Qed.

Lemma elapsed_exact_ranges_witness :
  _Timestamps._get_elapsed
    (_Timestamps.mk (datetime.mk 2024 2 29 23 59 30 250)
       (Some (datetime.mk 2024 3 1 0 0 35 250)))
  = Ok "1m 5s 0ms 0μs"
  /\ _Timestamps._get_elapsed
       (_Timestamps.mk (datetime.mk 2024 2 29 23 59 59 900000)
          (Some (datetime.mk 2024 3 1 0 0 0 150000)))
     = Ok "0m 0s 250ms 0μs"
  /\ _Timestamps._get_elapsed
       (_Timestamps.mk (datetime.mk 2024 2 29 23 59 59 0)
          (Some (datetime.mk 2024 3 1 0 0 0 1000)))
     = Ok "0m 1s 0ms 999μs".
Proof.
  split; [| split].
  - exact (proj1 (elapsed_exact_ranges (datetime.mk 2024 2 29 23 59 30 250)
                    (datetime.mk 2024 3 1 0 0 35 250)) 65 eq_refl ltac:(lia)).
  - exact (proj1 (proj2 (elapsed_exact_ranges (datetime.mk 2024 2 29 23 59 59 900000)
                           (datetime.mk 2024 3 1 0 0 0 150000))) 250 eq_refl ltac:(lia)).
  - exact (proj2 (proj2 (elapsed_exact_ranges (datetime.mk 2024 2 29 23 59 59 0)
                           (datetime.mk 2024 3 1 0 0 0 1000))) eq_refl).
Defined.

(** ** Append-only writing *)

Lemma grown_refl (w : Log.World) : grown w w.
Proof.
  split.
  - intros q content Hq. exists "". now rewrite append_nil_r.
  - exists "". now rewrite append_nil_r.
Qed.

Lemma grown_trans (w1 w2 w3 : Log.World) : grown w1 w2 -> grown w2 w3 -> grown w1 w3.
Proof.
  intros [Hf1 [m1 He1]] [Hf2 [m2 He2]]. split.
  - intros q content Hq. destruct (Hf1 q content Hq) as [a Ha].
    destruct (Hf2 q _ Ha) as [b Hb]. exists (a +:+ b). now rewrite <- append_assoc.
  - exists (m1 +:+ m2). now rewrite He2, He1, append_assoc.
Qed.

Lemma write_grown (d : logging.Delivery) (w : Log.World) : grown w (Log.write d w).
Proof.
  unfold Log.write. destruct (logging.to_stream d) as [| p].
  - split; cbn [Log.fs Log.stderr].
    + intros q content Hq. exists "". now rewrite append_nil_r.
    + now exists (logging.text d).
  - split; cbn [Log.fs Log.stderr].
    + intros q content Hq. destruct (decide (q = p)) as [-> | Hne].
      * rewrite append_files_same, Hq. now exists (logging.text d).
      * rewrite append_files_other by exact Hne. exists "". now rewrite append_nil_r.
    + exists "". now rewrite append_nil_r.
Qed.

Lemma deliver_grown (ds : list logging.Delivery) (w : Log.World) :
  grown w (Log.deliver ds w).
Proof.
  revert w. induction ds as [|d ds IH]; intros w; [apply grown_refl |].
  cbn [Log.deliver fold_left]. eapply grown_trans; [apply write_grown | apply IH].
Qed.

(** X18: logging is append-only.  In any state of the process, whatever
    handlers of the package the root logger has, whatever its level, and
    whether the call succeeds or raises,
    none of the five methods removes, truncates or rewrites anything:
    every file is still there and starts with the content it had, the
    standard error stream starts with what it held, the directories, the
    root logger and the session object are unchanged. *)
Theorem emit_is_append_only (sev : logging.Severity) (msg : string) (st : Log.State) :
  let st' := snd (emit sev msg st) in
  grown (Log.world st) (Log.world st')
  /\ FS.dirs (Log.fs (Log.world st')) = FS.dirs (Log.fs (Log.world st))
  /\ Log.root (Log.world st') = Log.root (Log.world st)
  /\ Log.self st' = Log.self st.
Proof.
  cbv zeta. rewrite emit_log_call.
  destruct (log_call_kept (logging.rank sev) (method_name sev) (method_line sev) msg st)
    as [Hself (_ & Hroot & Hdirs & _)].
  split; [| split; [exact Hdirs | split; [exact Hroot | exact Hself]]].
  destruct st as [s w]. unfold Log.log_call. run_monad.
  destruct (Log._log s); run_monad; [| apply grown_refl].
  destruct (logging.isEnabledFor (Log.root w) (logging.rank sev));
    cbn [snd Log.world]; [apply deliver_grown | apply grown_refl].
Qed.
